(** * sci-assist: retrieval, chunking, context assembly and conversation memory

    A shallow embedding of the algorithmic core of the repository:

    - [ajsgptrag/src/wikipedia_retriever.py]  ([Retriever]: [clean_text],
      [chunk_text], [retrieve_and_chunk]),
    - [ajsgptrag/src/vector_store.py]         ([VectorStore]: [add_embeddings],
      [search], [clear], [get_stats], [save_index], [load_index]),
    - [ajsgptrag/src/llm_interface.py]        ([Llm]: [generate_answer]),
    - [ajsgptrag/src/rag_system.py]           ([Rag]: [retrieve_context],
      [format_context], [query], [clear_index]),
    - [src/discord_llm_bot/conversation/memory.py] ([Memory]: token counting,
      [prepare_context], [optimize_conversation_history]),
    - [src/discord_llm_bot/rag/integration.py] ([Integration]:
      [should_use_rag], [enhance_response]).

    Python values are modelled as follows.  A [str] is a [string] (characters
    are code points below 256); [len], slicing, [rfind], [strip], [lower] and
    [in] are written out in [Py].  Character positions and list lengths are
    [nat]; integers that the code subtracts or that a caller may pass
    negative ([k], token budgets, [max_history]) are [Z].  Floating-point
    scores are abstracted to [Q]: only their order matters to the code
    modelled here.  A raised exception is the [Raise] case of [Py.result];
    mutable objects are threaded explicitly.  What lies outside the
    repository (the [wikipedia] package, the sentence-transformer, the FAISS
    index, the language model, the file system) appears as records of
    functions that may raise, or, for FAISS and the two files of the store,
    as a model of what the code relies on.

    The definitions come first ([Py] to [Integration]), then the vocabulary
    of the statements ([Props]) and the inputs of the examples ([Samples]),
    then the proofs, one section per function. *)

From Stdlib Require Import Arith ZArith QArith Bool List String Ascii Lia.
From Stdlib Require Import Sorting.Sorted DecimalString.
Import ListNotations.

Close Scope Q_scope.
Open Scope nat_scope.

(* ================================================================== *)
(** * Python primitives                                                 *)
(* ================================================================== *)

Module Py.

(** Exceptions that the modelled code raises, catches or lets through.
    [DisambiguationError] and [PageError] are subclasses of
    [WikipediaException] in the [wikipedia] package. *)
Inductive exn : Type :=
| AssertionError
| IndexError
| ValueError
| ValidationError
| WikipediaException
| DisambiguationError (options : list string)
| PageError
| ConnectionError
| RuntimeError
| OSError.

Definition is_WikipediaException (e : exn) : bool :=
  match e with
  | WikipediaException | DisambiguationError _ | PageError => true
  | _ => false
  end.

Inductive result (A : Type) : Type :=
| Ok (a : A)
| Raise (e : exn).
Arguments Ok {A} a.
Arguments Raise {A} e.

Definition bind {A B} (m : result A) (f : A -> result B) : result B :=
  match m with
  | Ok a => f a
  | Raise e => Raise e
  end.

Definition len (s : string) : nat := String.length s.

(** [s[lo:hi]] for non-negative bounds (out-of-range bounds are clipped,
    [hi <= lo] gives the empty string). *)
Definition slice (s : string) (lo hi : nat) : string := substring lo (hi - lo) s.

(** [str.isspace] on one character, restricted to code points below 256. *)
Definition is_space (c : ascii) : bool :=
  let n := nat_of_ascii c in
  ((9 <=? n) && (n <=? 13)) || ((28 <=? n) && (n <=? 32))
  || (n =? 133) || (n =? 160).

Fixpoint lstrip (s : string) : string :=
  match s with
  | EmptyString => EmptyString
  | String c s' => if is_space c then lstrip s' else s
  end.

Fixpoint rstrip (s : string) : string :=
  match s with
  | EmptyString => EmptyString
  | String c s' =>
      match rstrip s' with
      | EmptyString => if is_space c then EmptyString else String c EmptyString
      | r => String c r
      end
  end.

(** [s.strip()] *)
Definition strip (s : string) : string := rstrip (lstrip s).

(** A string is blank when every character is white space. *)
Fixpoint blank (s : string) : bool :=
  match s with
  | EmptyString => true
  | String c s' => is_space c && blank s'
  end.

(** Truthiness of a string: [if s:]. *)
Definition truthy (s : string) : bool :=
  match s with EmptyString => false | String _ _ => true end.

(** [s.rfind(c, lo, hi)] for a one-character needle and non-negative
    bounds; [None] is Python's [-1].  The scan skips [skip] characters, then
    looks at the next [span] ones and remembers the last match; [i] is the
    position of the head of [s] in the original string. *)
Fixpoint rfind_from (c : ascii) (s : string) (i skip span : nat)
         (acc : option nat) : option nat :=
  match s with
  | EmptyString => acc
  | String a s' =>
      match skip with
      | S skip' => rfind_from c s' (S i) skip' span acc
      | 0 =>
          match span with
          | 0 => acc
          | S span' =>
              rfind_from c s' (S i) 0 span'
                (if Ascii.eqb a c then Some i else acc)
          end
      end
  end.

Definition rfind (s : string) (c : ascii) (lo hi : nat) : option nat :=
  rfind_from c s 0 lo (hi - lo) None.

(** [sep.join(parts)] *)
Fixpoint join (sep : string) (parts : list string) : string :=
  match parts with
  | [] => EmptyString
  | [p] => p
  | p :: rest => (p ++ sep ++ join sep rest)%string
  end.

(** [str(n)] for a non-negative integer. *)
Definition str_of_nat (n : nat) : string :=
  DecimalString.NilZero.string_of_uint (Nat.to_uint n).

(** [l[i:]] with Python's treatment of a negative start. *)
Definition slice_from {A} (l : list A) (i : Z) : list A :=
  if (i <? 0)%Z
  then skipn (Z.to_nat (Z.max 0 (Z.of_nat (List.length l) + i))) l
  else skipn (Z.to_nat i) l.

(** [s.startswith(sub)] *)
Fixpoint startswith (sub s : string) : bool :=
  match sub, s with
  | EmptyString, _ => true
  | String a sub', String b s' => Ascii.eqb a b && startswith sub' s'
  | String _ _, EmptyString => false
  end.

(** [sub in s]: [sub] occurs in [s] at some position. *)
Fixpoint contains (sub s : string) : bool :=
  startswith sub s
  || match s with
     | EmptyString => false
     | String _ s' => contains sub s'
     end.

(** [str.lower] on one character below 256: the letters A to Z and the
    capital letters of Latin-1 (192 to 222, the multiplication sign 215
    apart) move up by 32. *)
Definition lower_char (c : ascii) : ascii :=
  let n := nat_of_ascii c in
  if ((65 <=? n) && (n <=? 90))
     || ((192 <=? n) && (n <=? 222) && negb (n =? 215))
  then ascii_of_nat (n + 32)
  else c.

(** [s.lower()] *)
Fixpoint lower (s : string) : string :=
  match s with
  | EmptyString => EmptyString
  | String c s' => String (lower_char c) (lower s')
  end.

(** [list(dict.fromkeys(l))]: the first occurrence of every string, in the
    order of [l]; [seen] holds the keys already in the dict. *)
Fixpoint fromkeys (seen l : list string) : list string :=
  match l with
  | [] => []
  | x :: rest =>
      if existsb (String.eqb x) seen then fromkeys seen rest
      else x :: fromkeys (x :: seen) rest
  end.

End Py.

Notation "x <- m ;; k" := (Py.bind m (fun x => k))
  (at level 61, m at next level, right associativity).

(* ================================================================== *)
(** * Configuration ([ajsgptrag/src/config.py])                         *)
(* ================================================================== *)

Module Config.
Definition EMBEDDING_DIM : nat := 768.
Definition WIKIPEDIA_SEARCH_RESULTS : nat := 8.
Definition CHUNK_SIZE : nat := 600.
Definition CHUNK_OVERLAP : nat := 100.
Definition MAX_CHUNKS_PER_ARTICLE : nat := 15.
Definition TOP_K_RETRIEVAL : Z := 8.
Definition MIN_SIMILARITY_THRESHOLD : Q := 6 # 10.
Definition MAX_CONTEXT_LENGTH : nat := 2000.
Definition QUERY_PREFIX : string := "query: ".
Definition PASSAGE_PREFIX : string := "passage: ".
End Config.

#[global] Arguments Config.CHUNK_SIZE : simpl never.
#[global] Arguments Config.CHUNK_OVERLAP : simpl never.
#[global] Arguments Config.MAX_CHUNKS_PER_ARTICLE : simpl never.
#[global] Arguments Config.MAX_CONTEXT_LENGTH : simpl never.

(* ================================================================== *)
(** * Chunking ([WikipediaRetriever.chunk_text])                        *)
(* ================================================================== *)

Module Retriever.

Record WikipediaChunk : Type := mkChunk {
  text : string;
  title : string;
  url : string;
  chunk_id : nat;
  start_pos : nat;
  end_pos : nat
}.

Section Chunking.
(** The three module-level constants the chunker reads. *)
Variables (chunk_size chunk_overlap max_chunks : nat).

(** The end of the window starting at [start]: the raw cut, moved to just
    after the right-most period when one lies past the window's
    midpoint. *)
Definition window_end (txt : string) (text_length start : nat) : nat :=
  let end_ := Nat.min (start + chunk_size) text_length in
  if end_ <? text_length then
    match Py.rfind txt "."%char start (end_ + chunk_overlap) with
    | Some sentence_end =>
        if start + chunk_size / 2 <? sentence_end
        then sentence_end + 1
        else end_
    | None => end_
    end
  else end_.

(** The [while] loop.  [fuel] bounds the number of iterations; [None]
    means the bound was hit with the loop condition still true. *)
Fixpoint chunk_loop (fuel : nat) (txt ttl u : string) (text_length : nat)
         (cid start : nat) (chunks : list WikipediaChunk)
  : option (list WikipediaChunk) :=
  if (start <? text_length) && (cid <? max_chunks) then
    match fuel with
    | 0 => None
    | S fuel' =>
        let end_ := window_end txt text_length start in
        let chunk_text := Py.strip (Py.slice txt start end_) in
        let next := Nat.max (start + chunk_size - chunk_overlap) end_ in
        if Py.truthy chunk_text then
          chunk_loop fuel' txt ttl u text_length (cid + 1) next
            (chunks ++ [mkChunk chunk_text ttl u cid start end_])
        else
          chunk_loop fuel' txt ttl u text_length cid next chunks
    end
  else Some chunks.

Definition chunk_text_with (txt ttl u : string)
  : option (list WikipediaChunk) :=
  let text_length := Py.len txt in
  if text_length <=? chunk_size then
    Some [mkChunk txt ttl u 0 0 text_length]
  else
    chunk_loop text_length txt ttl u text_length 0 0 [].
End Chunking.

Definition chunk_text : string -> string -> string
                        -> option (list WikipediaChunk) :=
  chunk_text_with Config.CHUNK_SIZE Config.CHUNK_OVERLAP
                  Config.MAX_CHUNKS_PER_ARTICLE.

(** ** [clean_text] *)

Definition is_digit (c : ascii) : bool :=
  let n := nat_of_ascii c in (48 <=? n) && (n <=? 57).

Definition has_digit (buf : string) : bool :=
  match buf with
  | String _ (String _ _) => true
  | _ => false
  end.

(** [re.sub(r'\[\d+\]', '', text)] as a scanner: [pending] holds a
    candidate ["[ddd"] that is dropped when the closing bracket arrives and
    emitted unchanged otherwise. *)
Fixpoint remove_citations (pending : option string) (s : string) : string :=
  match s with
  | EmptyString =>
      match pending with Some buf => buf | None => EmptyString end
  | String c s' =>
      match pending with
      | None =>
          if Ascii.eqb c "["%char
          then remove_citations (Some (String c EmptyString)) s'
          else String c (remove_citations None s')
      | Some buf =>
          if is_digit c
          then remove_citations (Some (buf ++ String c EmptyString)%string) s'
          else if Ascii.eqb c "]"%char && has_digit buf
          then remove_citations None s'
          else if Ascii.eqb c "["%char
          then (buf ++ remove_citations (Some (String c EmptyString)) s')%string
          else (buf ++ String c (remove_citations None s'))%string
      end
  end.

(** [re.sub(r'\s+', ' ', text)]: [in_run] says that the previous character
    was white space, already replaced by one blank. *)
Fixpoint collapse_whitespace (in_run : bool) (s : string) : string :=
  match s with
  | EmptyString => EmptyString
  | String c s' =>
      if Py.is_space c
      then if in_run then collapse_whitespace true s'
           else String " "%char (collapse_whitespace true s')
      else String c (collapse_whitespace false s')
  end.

Definition clean_text (txt : string) : string :=
  Py.strip (collapse_whitespace false (remove_citations None txt)).

(** ** The [wikipedia] package, as far as the retriever uses it *)

Record WikipediaAPI : Type := {
  wikipedia_search : string -> nat -> Py.result (list string);
  (** [wikipedia.page(title)], read as [(page.content, page.url)] *)
  wikipedia_page : string -> Py.result (string * string)
}.

(** Only [WikipediaException] is caught; anything else the package lets
    through (a failed HTTP connection, say) leaves [search_wikipedia]. *)
Definition search_wikipedia (api : WikipediaAPI) (query : string)
           (max_results : nat) : Py.result (list string) :=
  match wikipedia_search api query max_results with
  | Py.Ok search_results => Py.Ok search_results
  | Py.Raise e =>
      if Py.is_WikipediaException e then Py.Ok [] else Py.Raise e
  end.

(** Every exception is caught here and turned into [None]. *)
Definition get_page_content (api : WikipediaAPI) (ttl : string)
  : option (string * string) :=
  match wikipedia_page api ttl with
  | Py.Ok page => Some page
  | Py.Raise (Py.DisambiguationError options) =>
      match options with
      | [] => None
      | first :: _ =>
          match wikipedia_page api first with
          | Py.Ok page => Some page
          | Py.Raise _ => None
          end
      end
  | Py.Raise _ => None
  end.

(** [chunk_text] never hits its iteration bound (see
    [chunk_text_terminates]); the list it returns. *)
Definition chunks_of (txt ttl u : string) : list WikipediaChunk :=
  match chunk_text txt ttl u with
  | Some chunks => chunks
  | None => []
  end.

Fixpoint process_pages (api : WikipediaAPI) (page_titles : list string)
         (all_chunks : list WikipediaChunk) : list WikipediaChunk :=
  match page_titles with
  | [] => all_chunks
  | ttl :: rest =>
      match get_page_content api ttl with
      | None => process_pages api rest all_chunks
      | Some (content, u) =>
          let cleaned_content := clean_text content in
          let chunks := chunks_of cleaned_content ttl u in
          process_pages api rest (all_chunks ++ chunks)
      end
  end.

Definition retrieve_and_chunk (api : WikipediaAPI) (query : string)
  : Py.result (list WikipediaChunk) :=
  page_titles <- search_wikipedia api query Config.WIKIPEDIA_SEARCH_RESULTS ;;
  match page_titles with
  | [] => Py.Ok []
  | _ => Py.Ok (process_pages api page_titles [])
  end.

End Retriever.

(* ================================================================== *)
(** * The FAISS flat inner-product index, as far as the store uses it   *)
(* ================================================================== *)

Module Faiss.

(** A float32 vector; an [N x D] array keeps its second dimension even when
    it has no rows. *)
Definition vector := list Q.

Record ndarray : Type := mkArray {
  ncols : nat;
  rows : list vector
}.

(** The floating-point kernel of the library is left abstract: L2
    normalisation of one vector and the inner product of two. *)
Class Kernel : Type := {
  normalize_L2 : vector -> vector;
  inner_product : vector -> vector -> Q
}.

Record IndexFlatIP : Type := mkIndex {
  d : nat;
  xb : list vector
}.

Definition ntotal (idx : IndexFlatIP) : nat := List.length (xb idx).

Definition normalize_rows `{Kernel} (x : ndarray) : ndarray :=
  mkArray (ncols x) (map normalize_L2 (rows x)).

(** [index.add(x)]: the wrapper asserts [x.shape[1] == index.d]. *)
Definition add (idx : IndexFlatIP) (x : ndarray) : Py.result IndexFlatIP :=
  if ncols x =? d idx
  then Py.Ok (mkIndex (d idx) (xb idx ++ rows x))
  else Py.Raise Py.AssertionError.

(** Insertion into a list kept in descending score order; among equal
    scores the element inserted earlier stays first. *)
Fixpoint insert_desc (e : Q * Z) (l : list (Q * Z)) : list (Q * Z) :=
  match l with
  | [] => [e]
  | h :: t =>
      if Qle_bool (fst e) (fst h) then h :: insert_desc e t else e :: l
  end.

Definition sort_desc (l : list (Q * Z)) : list (Q * Z) :=
  fold_left (fun acc e => insert_desc e acc) l [].

Fixpoint number_from (i : nat) (scores : list Q) : list (Q * Z) :=
  match scores with
  | [] => []
  | s :: rest => (s, Z.of_nat i) :: number_from (S i) rest
  end.

(** What is reported for a missing neighbour: label [-1]. *)
Definition missing : Q * Z := (Qmake (-1) 1, (-1)%Z).

(** The [k] best slots for one query row, best first, padded with label
    [-1] when fewer are stored. *)
Definition search_row `{Kernel} (idx : IndexFlatIP) (k : Z) (q : vector)
  : list (Q * Z) :=
  let ranked := sort_desc (number_from 0 (map (inner_product q) (xb idx))) in
  firstn (Z.to_nat k) ranked ++ repeat missing (Z.to_nat k - ntotal idx).

(** [index.search(x, k)]: the wrapper asserts [x.shape[1] == index.d] and
    [k > 0]; one list of (score, label) per query row. *)
Definition search `{Kernel} (idx : IndexFlatIP) (x : ndarray) (k : Z)
  : Py.result (list (list (Q * Z))) :=
  if negb (ncols x =? d idx) then Py.Raise Py.AssertionError
  else if (k <=? 0)%Z then Py.Raise Py.AssertionError
  else Py.Ok (map (search_row idx k) (rows x)).

End Faiss.

(* ================================================================== *)
(** * [VectorStore]                                                     *)
(* ================================================================== *)

Module VectorStore.
Import Retriever.

Record t : Type := mkStore {
  embedding_dim : nat;
  index : option Faiss.IndexFlatIP;
  metadata : list WikipediaChunk
}.

(** [add_embeddings]: the store after the call and the outcome.  The index
    is created before anything can fail; the chunk list is extended only
    after [index.add] has returned. *)
Definition add_embeddings `{Faiss.Kernel} (self : t)
           (embeddings : Faiss.ndarray) (chunks : list WikipediaChunk)
  : t * Py.result unit :=
  let idx := match index self with
             | None => Faiss.mkIndex (embedding_dim self) []
             | Some idx => idx
             end in
  let embeddings := Faiss.normalize_rows embeddings in
  match Faiss.add idx embeddings with
  | Py.Raise e =>
      (mkStore (embedding_dim self) (Some idx) (metadata self), Py.Raise e)
  | Py.Ok idx' =>
      (mkStore (embedding_dim self) (Some idx') (metadata self ++ chunks),
       Py.Ok tt)
  end.

(** The loop over [zip(scores[0], indices[0])]: label [-1] is skipped,
    [self.metadata[idx]] raises when the slot has no chunk. *)
Fixpoint collect_results (md : list WikipediaChunk) (hits : list (Q * Z))
         (results : list (WikipediaChunk * Q))
  : Py.result (list (WikipediaChunk * Q)) :=
  match hits with
  | [] => Py.Ok results
  | (score, idx) :: rest =>
      if (idx =? -1)%Z then collect_results md rest results
      else
        match nth_error md (Z.to_nat idx) with
        | Some chunk => collect_results md rest (results ++ [(chunk, score)])
        | None => Py.Raise Py.IndexError
        end
  end.

(** [query_embedding.reshape(1, -1)] *)
Definition reshape_row (v : Faiss.vector) : Faiss.ndarray :=
  Faiss.mkArray (List.length v) [v].

Definition search `{Faiss.Kernel} (self : t) (query_embedding : Faiss.vector)
           (k : Z) : Py.result (list (WikipediaChunk * Q)) :=
  match index self with
  | None => Py.Ok []
  | Some idx =>
      if Faiss.ntotal idx =? 0 then Py.Ok []
      else
        let query_embedding :=
          Faiss.normalize_rows (reshape_row query_embedding) in
        hits <- Faiss.search idx query_embedding
                  (Z.min k (Z.of_nat (Faiss.ntotal idx))) ;;
        match hits with
        | row0 :: _ => collect_results (metadata self) row0 []
        | [] => Py.Raise Py.IndexError
        end
  end.

Definition clear (self : t) : t :=
  mkStore (embedding_dim self)
          (Some (Faiss.mkIndex Config.EMBEDDING_DIM [])) [].

(** [is_empty] *)
Definition is_empty (self : t) : bool :=
  match index self with
  | None => true
  | Some idx => Faiss.ntotal idx =? 0
  end.

(** The dictionary [get_stats] returns. *)
Record stats : Type := mkStats {
  total_chunks : nat;
  unique_articles : nat;
  metadata_count : nat
}.

(** [len(set(l))] *)
Definition distinct_count (l : list string) : nat :=
  List.length (nodup string_dec l).

Definition get_stats (self : t) : stats :=
  let total_vectors :=
    match index self with
    | Some idx => Faiss.ntotal idx
    | None => 0
    end in
  let unique_articles :=
    match metadata self with
    | [] => 0
    | _ => distinct_count (map title (metadata self))
    end in
  mkStats total_vectors unique_articles (List.length (metadata self)).

(** ** The two files of the store

    [VECTOR_DB_PATH] holds what [faiss.write_index] wrote, an index;
    [METADATA_PATH] holds a JSON array of objects.  [None] is a file that
    does not exist.  Writes are taken to succeed here; a write that fails is
    part of the retrieval policy below ([Rag.write_index]). *)

Inductive json : Type :=
| JString (s : string)
| JNumber (n : nat).

(** A JSON object as [json.load] reads it: of two members with the same key
    the later one counts. *)
Definition json_object : Type := list (string * json).

Record files : Type := mkFiles {
  index_file : option Faiss.IndexFlatIP;
  metadata_file : option (list json_object)
}.

(** The dictionary [save_index] builds for one chunk. *)
Definition metadata_dict (chunk : WikipediaChunk) : json_object :=
  [("text"%string, JString (text chunk));
   ("title"%string, JString (title chunk));
   ("url"%string, JString (url chunk));
   ("chunk_id"%string, JNumber (chunk_id chunk));
   ("start_pos"%string, JNumber (start_pos chunk));
   ("end_pos"%string, JNumber (end_pos chunk))].

(** [save_index]: nothing is written when the store has no index. *)
Definition save_index (self : t) (fs : files) : files :=
  match index self with
  | None => fs
  | Some idx => mkFiles (Some idx) (Some (map metadata_dict (metadata self)))
  end.

(** [md[key]] *)
Fixpoint lookup (key : string) (md : json_object) : option json :=
  match md with
  | [] => None
  | (k, v) :: rest =>
      match lookup key rest with
      | Some later => Some later
      | None => if String.eqb k key then Some v else None
      end
  end.

(** The chunk [load_index] builds from one object.  [None]: a key is
    missing ([KeyError]), or a value has another JSON type than the one
    [save_index] writes, which gives an object that is no [WikipediaChunk]
    of this model. *)
Definition chunk_of_dict (md : json_object) : option WikipediaChunk :=
  match lookup "text" md, lookup "title" md, lookup "url" md,
        lookup "chunk_id" md, lookup "start_pos" md, lookup "end_pos" md with
  | Some (JString t), Some (JString ttl), Some (JString u),
    Some (JNumber cid), Some (JNumber s), Some (JNumber e) =>
      Some (mkChunk t ttl u cid s e)
  | _, _, _, _, _, _ => None
  end.

Fixpoint chunks_of_dicts (metadata_dicts : list json_object)
  : option (list WikipediaChunk) :=
  match metadata_dicts with
  | [] => Some []
  | md :: rest =>
      match chunk_of_dict md, chunks_of_dicts rest with
      | Some chunk, Some chunks => Some (chunk :: chunks)
      | _, _ => None
      end
  end.

(** [load_index]: without an index file the store stays as it is; with an
    index file and no metadata file the index is replaced and the chunk list
    is left alone. *)
Definition load_index (self : t) (fs : files) : option t :=
  match index_file fs with
  | None => Some self
  | Some idx =>
      match metadata_file fs with
      | None => Some (mkStore (embedding_dim self) (Some idx) (metadata self))
      | Some metadata_dicts =>
          match chunks_of_dicts metadata_dicts with
          | Some chunks => Some (mkStore (embedding_dim self) (Some idx) chunks)
          | None => None
          end
      end
  end.

(** [VectorStore(embedding_dim)]: [__init__] with [_initialize_index]. *)
Definition new (embedding_dim : nat) (fs : files) : option t :=
  let self := mkStore embedding_dim None [] in
  match index_file fs with
  | Some _ => load_index self fs
  | None => Some (mkStore embedding_dim
                          (Some (Faiss.mkIndex embedding_dim [])) [])
  end.

End VectorStore.

(* ================================================================== *)
(** * [EmbeddingModel]                                                  *)
(* ================================================================== *)

Module Embedding.

(** The sentence-transformer behind [self.model.encode]: one text to a
    vector, a batch of texts to an array.  Either call may raise. *)
Record EmbeddingModel : Type := {
  encode_one : string -> Py.result Faiss.vector;
  encode_batch : list string -> Py.result Faiss.ndarray
}.

Definition embed_query (self : EmbeddingModel) (query : string)
  : Py.result Faiss.vector :=
  let prefixed_query := (Config.QUERY_PREFIX ++ query)%string in
  encode_one self prefixed_query.

Definition embed_passages (self : EmbeddingModel) (passages : list string)
  : Py.result Faiss.ndarray :=
  let prefixed_passages :=
    map (fun passage => (Config.PASSAGE_PREFIX ++ passage)%string) passages in
  encode_batch self prefixed_passages.

End Embedding.

(* ================================================================== *)
(** * [LLMInterface] ([ajsgptrag/src/llm_interface.py])                 *)
(* ================================================================== *)

Module Llm.

Definition nl : string := String (ascii_of_nat 10) EmptyString.
Definition dquote : string := String (ascii_of_nat 34) EmptyString.

(** [config.SYSTEM_PROMPT], cut at its two fields. *)
Definition prompt_head : string :=
  ("You are a helpful assistant that provides clear, informative answers based on the given context. "
   ++ nl ++ nl
   ++ "Instructions:" ++ nl
   ++ "1. Use ONLY the information provided in the Context below" ++ nl
   ++ "2. Provide a comprehensive answer that directly addresses the question"
   ++ nl
   ++ "3. If the question is general (like " ++ dquote ++ "What is X?" ++ dquote
   ++ "), provide a clear explanation using the available context" ++ nl
   ++ "4. If the question is specific (asking for dates, names, events), focus on those specific details"
   ++ nl
   ++ "5. Organize your answer clearly and avoid being overly wordy" ++ nl
   ++ "6. If the context doesn't contain enough information to fully answer the question, acknowledge what you can and cannot answer based on the provided information"
   ++ nl ++ nl
   ++ "Context: ")%string.

Definition prompt_middle : string := (nl ++ nl ++ "Question: ")%string.

Definition prompt_tail : string := (nl ++ nl ++ "Answer:")%string.

(** [SYSTEM_PROMPT.format(context=context, question=question)] *)
Definition format_prompt (context question : string) : string :=
  (prompt_head ++ context ++ prompt_middle ++ question ++ prompt_tail)%string.

(** What a call of a backend does: it returns text, or it raises an
    exception [e], of which the caller uses [str(e)] only. *)
Inductive outcome : Type :=
| Returns (answer : string)
| Raises (message : string).

(** The two backends ([_call_ollama] over HTTP, [_call_llama_cli] as a
    subprocess) are taken as they come. *)
Record LLMInterface : Type := {
  model_path : string;
  _call_ollama : string -> outcome;
  _call_llama_cli : string -> outcome
}.

Definition _call_llm (self : LLMInterface) (prompt : string) : outcome :=
  if Py.contains ":" (model_path self)
     && negb (Py.contains "/" (model_path self))
  then _call_ollama self prompt
  else _call_llama_cli self prompt.

Definition apology : string :=
  "I apologize, but I encountered an error while generating an answer: ".

Definition generate_answer (self : LLMInterface) (context question : string)
  : string :=
  let prompt := format_prompt context question in
  match _call_llm self prompt with
  | Returns answer => answer
  | Raises message => (apology ++ message)%string
  end.

End Llm.

(* ================================================================== *)
(** * [WikipediaRAG]                                                    *)
(* ================================================================== *)

Module Rag.
Import Retriever.

(** The collaborators a [WikipediaRAG] holds, the store apart. *)
Record WikipediaRAG : Type := {
  embedding_model : Embedding.EmbeddingModel;
  wikipedia_retriever : WikipediaAPI;
  (** the two file writes of [VectorStore.save_index] *)
  write_index : Faiss.IndexFlatIP -> list WikipediaChunk -> Py.result unit
}.

(** Calls that reach outside the process, in the order they are made. *)
Inductive call : Type :=
| Fetch (query : string)
| EmbedPassages (texts : list string)
| SaveIndex.

(** The mutable part: the vector store and the trace of outside calls. *)
Record state : Type := mkState {
  vector_store : VectorStore.t;
  calls : list call
}.

(** State and exceptions. *)
Definition M (A : Type) : Type := state -> state * Py.result A.

Definition ret {A} (a : A) : M A := fun st => (st, Py.Ok a).

Definition bindM {A B} (m : M A) (f : A -> M B) : M B :=
  fun st =>
    match m st with
    | (st', Py.Ok a) => f a st'
    | (st', Py.Raise e) => (st', Py.Raise e)
    end.

Definition lift {A} (r : Py.result A) : M A := fun st => (st, r).

Definition log (c : call) : M unit :=
  fun st => (mkState (vector_store st) (calls st ++ [c]), Py.Ok tt).

Definition with_store {A} (f : VectorStore.t -> VectorStore.t * Py.result A)
  : M A :=
  fun st =>
    let '(vs, r) := f (vector_store st) in (mkState vs (calls st), r).

Definition read_store {A} (f : VectorStore.t -> Py.result A) : M A :=
  fun st => (st, f (vector_store st)).

Notation "x <~ m ;; k" := (bindM m (fun x => k))
  (at level 61, m at next level, right associativity).
Notation "' p <~ m ;; k" := (bindM m (fun x => match x with p => k end))
  (at level 61, p pattern, m at next level, right associativity).

(** [VectorStore.save_index] *)
Definition save_index (self : WikipediaRAG) (vs : VectorStore.t)
  : Py.result unit :=
  match VectorStore.index vs with
  | None => Py.Ok tt
  | Some idx => write_index self idx (VectorStore.metadata vs)
  end.

Definition auto_index_threshold : Q := 8 # 10.

(** [max(scores)] of a non-empty list *)
Definition max_score (scores : list Q) : Q :=
  match scores with
  | [] => 0
  | s :: rest => fold_left (fun m x => if Qle_bool x m then m else x) rest s
  end.

Definition Qlt_bool (a b : Q) : bool := negb (Qle_bool b a).

Definition is_empty {A} (l : list A) : bool :=
  match l with [] => true | _ => false end.

(** [not chunks or (scores and max(scores) < auto_index_threshold)] *)
Definition needs_auto_index (chunks : list WikipediaChunk) (scores : list Q)
  : bool :=
  is_empty chunks
  || (negb (is_empty scores)
      && Qlt_bool (max_score scores) auto_index_threshold).

(** The body of the [if] that indexes new content. *)
Definition auto_index `{Faiss.Kernel} (self : WikipediaRAG) (query : string)
           (query_embedding : Faiss.vector)
           (chunks : list WikipediaChunk) (scores : list Q)
  : M (list WikipediaChunk * list Q) :=
  _ <~ log (Fetch query) ;;
  new_chunks <~ lift (retrieve_and_chunk (wikipedia_retriever self) query) ;;
  if negb (is_empty new_chunks) then
    let chunk_texts := map text new_chunks in
    _ <~ log (EmbedPassages chunk_texts) ;;
    embeddings <~ lift (Embedding.embed_passages (embedding_model self)
                                                 chunk_texts) ;;
    _ <~ with_store (fun vs =>
                       VectorStore.add_embeddings vs embeddings new_chunks) ;;
    _ <~ log SaveIndex ;;
    _ <~ read_store (save_index self) ;;
    results <~ read_store (fun vs =>
                 VectorStore.search vs query_embedding
                                    Config.TOP_K_RETRIEVAL) ;;
    if negb (is_empty results) then ret (split results)
    else ret (chunks, scores)
  else ret (chunks, scores).

(** The filter by [MIN_SIMILARITY_THRESHOLD]. *)
Definition filter_by_threshold (chunks : list WikipediaChunk)
           (scores : list Q) : list WikipediaChunk * list Q :=
  if negb (is_empty chunks) && negb (is_empty scores) then
    let filtered_results :=
      filter (fun cs => Qle_bool Config.MIN_SIMILARITY_THRESHOLD (snd cs))
             (combine chunks scores) in
    if negb (is_empty filtered_results) then split filtered_results
    else ([], [])
  else (chunks, scores).

Definition retrieve_context `{Faiss.Kernel} (self : WikipediaRAG)
           (query : string) : M (list WikipediaChunk * list Q) :=
  query_embedding <~ lift (Embedding.embed_query (embedding_model self)
                                                 query) ;;
  results <~ read_store (fun vs =>
               VectorStore.search vs query_embedding
                                  Config.TOP_K_RETRIEVAL) ;;
  let '(chunks, scores) :=
    if negb (is_empty results) then split results else ([], []) in
  '(chunks, scores) <~
    (if needs_auto_index chunks scores
     then auto_index self query query_embedding chunks scores
     else ret (chunks, scores)) ;;
  ret (filter_by_threshold chunks scores).

(** ** [format_context] *)

Definition newline : string := String (ascii_of_nat 10) EmptyString.

Definition sentinel : string := "No relevant context available.".

(** [f"[Source {i}: {chunk.title}]\n{chunk.text}\n"] *)
Definition chunk_content (i : nat) (chunk : WikipediaChunk) : string :=
  let source_info :=
    ("[Source " ++ Py.str_of_nat i ++ ": " ++ title chunk ++ "]")%string in
  (source_info ++ newline ++ text chunk ++ newline)%string.

(** The [for] loop with its [break]. *)
Fixpoint format_loop (i : nat) (chunks : list WikipediaChunk)
         (total_length : nat) (context_parts : list string) : list string :=
  match chunks with
  | [] => context_parts
  | chunk :: rest =>
      let content := chunk_content i chunk in
      if Config.MAX_CONTEXT_LENGTH <? total_length + Py.len content
      then context_parts
      else format_loop (S i) rest (total_length + Py.len content)
                       (context_parts ++ [content])
  end.

Definition format_context (chunks : list WikipediaChunk) : string :=
  match chunks with
  | [] => sentinel
  | _ => Py.join newline (format_loop 1 chunks 0 [])
  end.

(** ** [query] and [clear_index] *)

Definition no_context_answer : string :=
  "I couldn't find relevant information to answer your question. Please try rephrasing or asking about a different topic.".

(** [query]; [llm_interface] is [self.llm_interface]. *)
Definition query `{Faiss.Kernel} (self : WikipediaRAG)
           (llm_interface : Llm.LLMInterface) (question : string)
  : M string :=
  '(chunks, scores) <~ retrieve_context self question ;;
  if is_empty chunks then ret no_context_answer
  else
    let context := format_context chunks in
    let answer := Llm.generate_answer llm_interface context question in
    ret answer.

Definition clear_index (self : WikipediaRAG) : M unit :=
  _ <~ with_store (fun vs => (VectorStore.clear vs, Py.Ok tt)) ;;
  _ <~ log SaveIndex ;;
  read_store (save_index self).

(** Closes a goal [exists more, calls st' = calls st ++ Fetch q :: more] once
    the state [st'] is explicit. *)
Ltac trace_tail :=
  cbn [fst calls vector_store is_empty negb];
  rewrite <- ?app_assoc; cbn [app]; eexists; reflexivity.

End Rag.

(* ================================================================== *)
(** * [MemoryManager] ([conversation/memory.py])                        *)
(* ================================================================== *)

Module Memory.

Inductive MessageRole : Type := SYSTEM | USER | ASSISTANT.

(** [MessageRole(value)]: [ValueError] for any other string. *)
Definition MessageRole_of (value : string) : Py.result MessageRole :=
  if String.eqb value "system" then Py.Ok SYSTEM
  else if String.eqb value "user" then Py.Ok USER
  else if String.eqb value "assistant" then Py.Ok ASSISTANT
  else Py.Raise Py.ValueError.

(** [llm.models.ChatMessage]; [extra_data] is an opaque JSON value. *)
Record ChatMessage : Type := mkChat {
  role : MessageRole;
  content : string;
  name : option string;
  extra_data : option string
}.

(** The constructor with its field constraints ([min_length=1],
    [max_length=32000]) and the [content] validator, which rejects blank
    text and stores the stripped text. *)
Definition new_ChatMessage (r : MessageRole) (c : string)
           (extra : option string) : Py.result ChatMessage :=
  if (Py.len c <? 1) || (32000 <? Z.of_nat (Py.len c))%Z
  then Py.Raise Py.ValidationError
  else if negb (Py.truthy (Py.strip c)) then Py.Raise Py.ValidationError
  else Py.Ok (mkChat r (Py.strip c) None extra).

(** [database.models.Message], the columns the manager reads. *)
Record Message : Type := mkMessage {
  msg_role : string;
  msg_content : string;
  msg_extra_data : option string;
  is_deleted : bool
}.

(** [ConversationConfig]; both fields are declared [gt=0]. *)
Record ConversationConfig : Type := mkConfig {
  max_history : Z;
  context_window_tokens : Z
}.

Definition valid_config (c : ConversationConfig) : Prop :=
  (0 < max_history c)%Z /\ (0 < context_window_tokens c)%Z.

Record MemoryManager : Type := mkManager {
  config : ConversationConfig;
  (** [None]: tiktoken could not be loaded.  The encoder returns the
      number of tokens, or [None] when [encode] raises. *)
  encoder : option (string -> option nat)
}.

Definition fallback_count (txt : string) : Z :=
  Z.max 1 (Z.of_nat (Py.len txt) / 4).

Definition count_tokens (self : MemoryManager) (txt : string) : Z :=
  match encoder self with
  | Some encode =>
      match encode txt with
      | Some n => Z.of_nat n
      | None => fallback_count txt
      end
  | None => fallback_count txt
  end.

Definition count_message_tokens (self : MemoryManager) (message : ChatMessage)
  : Z :=
  let content_tokens := count_tokens self (content message) in
  let overhead_tokens := 4%Z in
  let overhead_tokens :=
    match name message with
    | Some n => if Py.truthy n
                then (overhead_tokens + count_tokens self n)%Z
                else overhead_tokens
    | None => overhead_tokens
    end in
  (content_tokens + overhead_tokens)%Z.

Definition count_messages_tokens (self : MemoryManager)
           (messages : list ChatMessage) : Z :=
  let total_tokens :=
    fold_left (fun total message =>
                 (total + count_message_tokens self message)%Z)
              messages 0%Z in
  (total_tokens + 10)%Z.

(** The loop over [reversed(messages)] with its [break]; [insert(0, _)]
    is a cons. *)
Fixpoint take_recent (self : MemoryManager) (reversed : list ChatMessage)
         (available_tokens used_tokens : Z) (result_messages : list ChatMessage)
  : list ChatMessage :=
  match reversed with
  | [] => result_messages
  | message :: older =>
      let message_tokens := count_message_tokens self message in
      if (used_tokens + message_tokens <=? available_tokens)%Z
      then take_recent self older available_tokens
                       (used_tokens + message_tokens)%Z
                       (message :: result_messages)
      else result_messages
  end.

Definition _apply_truncation_strategy (self : MemoryManager)
           (messages : list ChatMessage) (available_tokens : Z)
  : list ChatMessage :=
  match messages with
  | [] => []
  | _ =>
      let result_messages :=
        take_recent self (rev messages) available_tokens 0%Z [] in
      if (max_history (config self)
          <? Z.of_nat (List.length result_messages))%Z
      then Py.slice_from result_messages (- max_history (config self))
      else result_messages
  end.

(** The conversion loop: deleted rows are skipped, the first row that
    fails validation aborts the call. *)
Fixpoint convert_messages (messages : list Message)
         (all_messages : list ChatMessage) : Py.result (list ChatMessage) :=
  match messages with
  | [] => Py.Ok all_messages
  | msg :: rest =>
      if is_deleted msg then convert_messages rest all_messages
      else
        r <- MessageRole_of (msg_role msg) ;;
        chat_msg <- new_ChatMessage r (msg_content msg)
                                    (msg_extra_data msg) ;;
        convert_messages rest (all_messages ++ [chat_msg])
  end.

Definition prepare_context (self : MemoryManager) (messages : list Message)
           (system_prompt : option string)
  : Py.result (list ChatMessage * Z) :=
  chat_messages <-
    match system_prompt with
    | Some prompt =>
        if Py.truthy prompt
        then system_message <- new_ChatMessage SYSTEM prompt None ;;
             Py.Ok [system_message]
        else Py.Ok []
    | None => Py.Ok []
    end ;;
  all_messages <- convert_messages messages [] ;;
  let context_messages :=
    _apply_truncation_strategy self all_messages
      (context_window_tokens (config self)
       - match chat_messages with
         | first :: _ => count_message_tokens self first
         | [] => 0
         end)%Z in
  let chat_messages := chat_messages ++ context_messages in
  let total_tokens := count_messages_tokens self chat_messages in
  Py.Ok (chat_messages, total_tokens).

(** ** [optimize_conversation_history]

    [database.models.Message] with the columns this method reads and
    writes.  The method changes the rows it merges into in place; the model
    gives the rows as the returned list shows them, for a list of distinct
    row objects. *)
Record StoredMessage : Type := mkStored {
  stored_role : string;
  stored_content : string;
  token_count : Z;
  stored_is_deleted : bool
}.

Definition blank_line : string :=
  String (ascii_of_nat 10) (String (ascii_of_nat 10) EmptyString).

(** The two [+=] on [optimized[-1]]. *)
Fixpoint merge_into_last (optimized : list StoredMessage)
         (message : StoredMessage) : list StoredMessage :=
  match optimized with
  | [] => []
  | [last_message] =>
      [mkStored (stored_role last_message)
                (stored_content last_message ++ blank_line
                 ++ stored_content message)%string
                (token_count last_message + token_count message)%Z
                (stored_is_deleted last_message)]
  | m :: rest => m :: merge_into_last rest message
  end.

(** [message.role == last_role], where [last_role] starts as [None]. *)
Definition same_role (r : string) (last_role : option string) : bool :=
  match last_role with
  | Some l => String.eqb r l
  | None => false
  end.

Fixpoint optimize_loop (messages optimized : list StoredMessage)
         (last_role : option string) : list StoredMessage :=
  match messages with
  | [] => optimized
  | message :: rest =>
      if stored_is_deleted message then optimize_loop rest optimized last_role
      else if same_role (stored_role message) last_role
              && match optimized with [] => false | _ => true end
      then optimize_loop rest (merge_into_last optimized message) last_role
      else optimize_loop rest (optimized ++ [message])
                         (Some (stored_role message))
  end.

Definition optimize_conversation_history (self : MemoryManager)
           (messages : list StoredMessage) : list StoredMessage :=
  match messages with
  | [] => []
  | _ => optimize_loop messages [] None
  end.

End Memory.

(* ================================================================== *)
(** * [RAGIntegration] ([discord_llm_bot/rag/integration.py])           *)
(* ================================================================== *)

Module Integration.
Import Retriever.

(** [config.RAGConfig], the fields the methods below read. *)
Record RAGConfig : Type := mkRAGConfig {
  enabled : bool;
  trigger_keywords : list string;
  include_sources : bool
}.

(** The default of [trigger_keywords]. *)
Definition default_trigger_keywords : list string :=
  ["autonomic dysreflexia"; "neurogenic bladder"; "spasticity";
   "pressure sores"; "dysphagia"; "orthostatic hypotension";
   "heterotopic ossification"; "research"; "studies"; "clinical trials";
   "evidence"; "latest"; "recent"; "treatment"; "therapy";
   "rehabilitation"; "intervention"; "medication"; "wheelchair"; "cushion";
   "transfer board"; "hand controls"; "adaptive equipment"]%string.

Record RAGIntegration : Type := mkIntegration {
  config : RAGConfig;
  _rag_system : option Rag.WikipediaRAG
}.

Definition is_available (self : RAGIntegration) : bool :=
  match _rag_system self with
  | Some _ => true
  | None => false
  end.

Definition conversational_patterns : list string :=
  ["thanks"; "thank you"; "ok"; "okay"; "yeah"; "yes"; "no"; "lol"; "haha";
   "i think"; "i agree"; "that's"; "that is"; "good point";
   "interesting"]%string.

Definition question_indicators : list string :=
  ["what is"; "what are"; "how does"; "how do"; "why does"; "why do";
   "when was"; "when did"; "where is"; "where does"; "who is"; "who was";
   "tell me about"; "explain"; "describe"; "definition of";
   "information about"]%string.

Definition should_use_rag (self : RAGIntegration) (query : string) : bool :=
  if negb (is_available self) then false
  else
    let query_lower := Py.lower query in
    if Py.len query <? 20 then false
    else if existsb (fun pattern => Py.contains pattern query_lower)
                    conversational_patterns
    then false
    else if existsb (fun keyword => Py.contains (Py.lower keyword) query_lower)
                    (trigger_keywords (config self))
    then true
    else if existsb (fun indicator => Py.contains indicator query_lower)
                    question_indicators
    then true
    else false.

(** [f"Source {i+1}: {chunk.title}\n{chunk.text}"] *)
Definition source_block (i : nat) (chunk : WikipediaChunk) : string :=
  ("Source " ++ Py.str_of_nat (i + 1) ++ ": " ++ title chunk
   ++ Llm.nl ++ text chunk)%string.

(** What goes into [sources] for a chunk: a [WikipediaChunk] has a [title]
    and a [text] but no [source_url], so the [elif] branch is the one
    taken. *)
Definition source_name (chunk : WikipediaChunk) : string :=
  ("Wikipedia: " ++ title chunk)%string.

(** The loop over [enumerate(zip(chunks, scores))]. *)
Fixpoint collect_sources (i : nat) (pairs : list (WikipediaChunk * Q))
         (context_parts sources : list string) : list string * list string :=
  match pairs with
  | [] => (context_parts, sources)
  | (chunk, score) :: rest =>
      collect_sources (S i) rest
        (context_parts ++ [source_block i chunk])
        (sources ++ [source_name chunk])
  end.

(** [enhance_response]: every exception raised inside the [try] is caught
    and gives [None]; what the retrieval did to the store before it failed
    stays. *)
Definition enhance_response `{Faiss.Kernel} (self : RAGIntegration)
           (query : string)
  : Rag.state -> Rag.state * option (string * list string) :=
  fun st =>
    match _rag_system self with
    | None => (st, None)
    | Some rag =>
        match Rag.retrieve_context rag query st with
        | (st', Py.Raise _) => (st', None)
        | (st', Py.Ok (chunks, scores)) =>
            if Rag.is_empty chunks then (st', None)
            else
              let '(context_parts, sources) :=
                collect_sources 0 (combine chunks scores) [] [] in
              if Rag.is_empty context_parts then (st', None)
              else
                let full_context :=
                  Py.join (Llm.nl ++ Llm.nl)%string context_parts in
                let full_context :=
                  if 4000 <? Py.len full_context
                  then (Py.slice full_context 0 4000 ++ "...")%string
                  else full_context in
                let sources := firstn 5 (Py.fromkeys [] sources) in
                (st', Some (full_context, sources))
        end
    end.

End Integration.

(* ================================================================== *)
(** * Vocabulary of the statements                                      *)
(* ================================================================== *)

Module Props.
Import Retriever.

(** The last element of a list, if any. *)
Fixpoint last_opt {A} (l : list A) : option A :=
  match l with
  | [] => None
  | [a] => Some a
  | _ :: t => last_opt t
  end.

(** [R] holds between every element and its successor. *)
Fixpoint adjacent {A} (R : A -> A -> Prop) (l : list A) : Prop :=
  match l with
  | a :: (b :: _) as t => R a b /\ adjacent R t
  | _ => True
  end.

Definition starts_nondecreasing (chunks : list WikipediaChunk) : Prop :=
  adjacent (fun a b => start_pos a <= start_pos b) chunks.

Definition starts_increasing (chunks : list WikipediaChunk) : Prop :=
  StronglySorted (fun a b => start_pos a < start_pos b) chunks.

(** Each chunk starts no later than where its predecessor ended. *)
Definition contiguous_or_overlapping (chunks : list WikipediaChunk) : Prop :=
  adjacent (fun a b => start_pos b <= end_pos a) chunks.

Definition last_end (chunks : list WikipediaChunk) : option nat :=
  option_map end_pos (last_opt chunks).

(** The spans of the chunks reach the end of the text without a hole
    between neighbours. *)
Definition covers (txt : string) (chunks : list WikipediaChunk) : Prop :=
  contiguous_or_overlapping chunks /\ last_end chunks = Some (Py.len txt).

(** The last character of the text is not white space. *)
Definition ends_in_nonspace (txt : string) : Prop :=
  exists c, String.get (Py.len txt - 1) txt = Some c /\ Py.is_space c = false.

(** What the chunking loop maintains: [cid] counts the chunks made so far
    and stays within the cap; every chunk is a non-empty span inside the text
    that ends at or before the current [start], is no longer than a window
    plus the overlap, and holds at most as many characters as its span; the
    chunks are in increasing order of their start; and once [start] has
    reached the end of a text that ends in a visible character, the last
    chunk ends there too. *)
Record loop_inv (chunk_size chunk_overlap max_chunks : nat) (txt : string)
       (cid start : nat) (chunks : list WikipediaChunk) : Prop := {
  inv_cid : cid = List.length chunks;
  inv_cap : cid <= max_chunks;
  inv_each :
    Forall (fun c =>
              start_pos c < end_pos c /\ end_pos c <= Py.len txt
              /\ end_pos c <= start
              /\ end_pos c <= start_pos c + chunk_size + chunk_overlap
              /\ Py.len (text c) <= end_pos c - start_pos c) chunks;
  inv_sorted : starts_increasing chunks;
  inv_cover :
    ends_in_nonspace txt -> Py.len txt <= start ->
    last_end chunks = Some (Py.len txt)
}.

(** The formatted blocks of a chunk list, numbered from [i]. *)
Fixpoint blocks_from (i : nat) (chunks : list WikipediaChunk) : list string :=
  match chunks with
  | [] => []
  | chunk :: rest => Rag.chunk_content i chunk :: blocks_from (S i) rest
  end.

Definition total_len (parts : list string) : nat :=
  list_sum (map Py.len parts).

(** What a block adds to the text of its chunk: the source line and the two
    line ends. *)
Definition formatting_overhead (i : nat) (chunk : WikipediaChunk) : nat :=
  Py.len (Rag.chunk_content i chunk) - Py.len (text chunk).

(** Scores in descending order. *)
Definition descending (scores : list Q) : Prop :=
  StronglySorted (fun a b => (b <= a)%Q) scores.

(** The number of vectors a store holds. *)
Definition stored_count (self : VectorStore.t) : nat :=
  match VectorStore.index self with
  | None => 0
  | Some idx => Faiss.ntotal idx
  end.

(** Every stored vector has its chunk: the index and the chunk list have
    the same length. *)
Definition aligned (self : VectorStore.t) : Prop :=
  List.length (VectorStore.metadata self) = stored_count self.

(** The query has the dimension of the index. *)
Definition query_fits (self : VectorStore.t) (q : Faiss.vector) : Prop :=
  match VectorStore.index self with
  | None => True
  | Some idx => List.length q = Faiss.d idx
  end.

(** The dimension [index.add] compares against: that of the index, or the
    store's own when the index is yet to be created. *)
Definition index_dim (self : VectorStore.t) : nat :=
  match VectorStore.index self with
  | None => VectorStore.embedding_dim self
  | Some idx => Faiss.d idx
  end.

(** The test of the final filter on one result. *)
Definition above_threshold (cs : WikipediaChunk * Q) : bool :=
  Qle_bool Config.MIN_SIMILARITY_THRESHOLD (snd cs).

(** The first search found something and its best score reaches the
    auto-indexing threshold. *)
Definition confident (first : list (WikipediaChunk * Q)) : Prop :=
  first <> []
  /\ (Rag.auto_index_threshold <= Rag.max_score (map snd first))%Q.

(** The per-message costs of a list, added up. *)
Definition messages_cost (self : Memory.MemoryManager)
           (messages : list Memory.ChatMessage) : Z :=
  fold_right (fun m total => (Memory.count_message_tokens self m + total)%Z)
             0%Z messages.

(** Each chunk ends at or before the start of every later one. *)
Definition spans_disjoint (chunks : list WikipediaChunk) : Prop :=
  StronglySorted (fun a b => end_pos a <= start_pos b) chunks.

(** What the chunking loop maintains about the chunks themselves: they are
    numbered from 0 in the order they are made, at most [max_chunks] of them;
    each carries the title and the URL of the call, its text is its window
    of the input, stripped, and not empty, and its span ends at or before the
    current [start]; and no two spans overlap. *)
Record chunk_inv (max_chunks : nat) (txt ttl u : string) (cid start : nat)
       (chunks : list WikipediaChunk) : Prop := {
  ci_ids : map chunk_id chunks = seq 0 cid;
  ci_cap : cid <= max_chunks;
  ci_each :
    Forall (fun c =>
              title c = ttl /\ url c = u
              /\ text c = Py.strip (Py.slice txt (start_pos c) (end_pos c))
              /\ Py.truthy (text c) = true
              /\ end_pos c <= start) chunks;
  ci_apart : spans_disjoint chunks
}.

(** White space occurs only as a blank that is followed by a visible
    character or ends the string. *)
Fixpoint single_spaced (s : string) : bool :=
  match s with
  | EmptyString => true
  | String a rest =>
      (negb (Py.is_space a)
       || (Ascii.eqb a " "
           && match rest with
              | String b _ => negb (Py.is_space b)
              | EmptyString => true
              end))
      && single_spaced rest
  end.

(** The model answers a batch with one row for each text. *)
Definition one_row_per_text (model : Embedding.EmbeddingModel) : Prop :=
  forall texts emb,
    Embedding.encode_batch model texts = Py.Ok emb ->
    List.length (Faiss.rows emb) = List.length texts.

(** The outside calls one query can make, in their order: none; the
    fetcher; the fetcher and the embedding of the new texts; these two and
    the saving of the index. *)
Definition query_calls (query : string) (t : list Rag.call) : Prop :=
  t = []
  \/ t = [Rag.Fetch query]
  \/ exists texts,
       t = [Rag.Fetch query; Rag.EmbedPassages texts]
       \/ t = [Rag.Fetch query; Rag.EmbedPassages texts; Rag.SaveIndex].

(** The second store holds what the first holds, and maybe more. *)
Definition store_extends (before after : VectorStore.t) : Prop :=
  (exists added,
      VectorStore.metadata after = VectorStore.metadata before ++ added)
  /\ stored_count before <= stored_count after
  /\ VectorStore.embedding_dim after = VectorStore.embedding_dim before.

(** What the constructor of [ChatMessage] asks of a content: between 1 and
    32000 characters, not all of them white space. *)
Definition content_ok (c : string) : Prop :=
  1 <= Py.len c /\ (Z.of_nat (Py.len c) <= 32000)%Z /\ Py.blank c = false.

Definition role_ok (r : string) : Prop :=
  r = "system"%string \/ r = "user"%string \/ r = "assistant"%string.

(** A stored row that the conversion lets through: a deleted one, or one
    with a known role and an acceptable content. *)
Definition row_ok (m : Memory.Message) : Prop :=
  Memory.is_deleted m = true
  \/ (role_ok (Memory.msg_role m) /\ content_ok (Memory.msg_content m)).

(** A system prompt that [prepare_context] accepts: none, the empty one, or
    one that makes a message. *)
Definition prompt_ok (p : option string) : Prop :=
  match p with
  | None => True
  | Some s => s = EmptyString \/ content_ok s
  end.

(** The rows that are not deleted. *)
Definition live_rows (messages : list Memory.Message) : list Memory.Message :=
  filter (fun m => negb (Memory.is_deleted m)) messages.

Definition live_messages (messages : list Memory.StoredMessage)
  : list Memory.StoredMessage :=
  filter (fun m => negb (Memory.stored_is_deleted m)) messages.

(** The token counts of a list of rows, added up. *)
Definition total_tokens (messages : list Memory.StoredMessage) : Z :=
  fold_right (fun m total => (Memory.token_count m + total)%Z) 0%Z messages.

End Props.

(* ================================================================== *)
(** * Sample inputs                                                     *)
(* ================================================================== *)

Module Samples.
Import Retriever.

Fixpoint replicate (n : nat) (c : ascii) : string :=
  match n with
  | 0 => EmptyString
  | S n' => String c (replicate n' c)
  end.

(** An article of 1400 letters without a period. *)
Definition article_1400 : string := replicate 1400 "a".

(** An article one character longer than fifteen windows. *)
Definition article_9001 : string := replicate (15 * 600 + 1) "a".

(** 600 letters followed by one blank. *)
Definition article_blank_tail : string := (replicate 600 "a" ++ " ")%string.

(** 700 characters whose only period is at position 350. *)
Definition article_period_350 : string :=
  (replicate 350 "a" ++ "." ++ replicate 349 "a")%string.

(** A chunk whose text alone fills the context. *)
Definition oversized_chunk : WikipediaChunk :=
  mkChunk (replicate 2000 "a") "Python" "https://en.wikipedia.org" 0 0 2000.

Definition short_chunk : WikipediaChunk :=
  mkChunk "x" "A" "https://en.wikipedia.org" 1 0 1.

(** Twenty chunks whose blocks add up to exactly 2000 characters. *)
Definition twenty_chunks : list WikipediaChunk :=
  mkChunk (replicate 1670 "a") "A" "https://en.wikipedia.org" 0 0 1670
  :: repeat short_chunk 19.

(** ** A vector store over two dimensions *)

Fixpoint dot (u v : Faiss.vector) : Q :=
  match u, v with
  | a :: u', b :: v' => (a * b + dot u' v')%Q
  | _, _ => 0%Q
  end.

(** Exact arithmetic for vectors that already have unit length:
    normalisation leaves them as they are. *)
Definition unit_kernel : Faiss.Kernel :=
  {| Faiss.normalize_L2 := fun v => v; Faiss.inner_product := dot |}.

Definition e1 : Faiss.vector := [1%Q; 0%Q].
Definition e2 : Faiss.vector := [0%Q; 1%Q].

Definition chunk_a : WikipediaChunk :=
  mkChunk "Alpha." "A" "https://en.wikipedia.org/wiki/A" 0 0 6.
Definition chunk_b : WikipediaChunk :=
  mkChunk "Beta." "B" "https://en.wikipedia.org/wiki/B" 0 0 5.

Definition empty_store : VectorStore.t := VectorStore.mkStore 2 None [].

Definition store_ab : VectorStore.t :=
  VectorStore.mkStore 2 (Some (Faiss.mkIndex 2 [e1; e2])) [chunk_a; chunk_b].

(** Two vectors of the right dimension. *)
Definition two_rows : Faiss.ndarray := Faiss.mkArray 2 [e1; e2].

(** One vector of three components. *)
Definition wide_row : Faiss.ndarray := Faiss.mkArray 3 [[1%Q; 0%Q; 0%Q]].

(** ** Collaborators of the retrieval policy *)

(** A model that embeds everything as [e1]. *)
Definition model_e1 : Embedding.EmbeddingModel :=
  {| Embedding.encode_one := fun _ => Py.Ok e1;
     Embedding.encode_batch :=
       fun texts => Py.Ok (Faiss.mkArray 2 (map (fun _ => e1) texts)) |}.

(** A model whose batch encoding fails (out of memory, say). *)
Definition model_batch_fails : Embedding.EmbeddingModel :=
  {| Embedding.encode_one := fun _ => Py.Ok e1;
     Embedding.encode_batch := fun _ => Py.Raise Py.RuntimeError |}.

(** Wikipedia knows one page, "A". *)
Definition api_one_page : WikipediaAPI :=
  {| wikipedia_search := fun _ _ => Py.Ok ["A"%string];
     wikipedia_page :=
       fun _ => Py.Ok ("Alpha."%string,
                       "https://en.wikipedia.org/wiki/A"%string) |}.

(** Wikipedia cannot be reached. *)
Definition api_offline : WikipediaAPI :=
  {| wikipedia_search := fun _ _ => Py.Raise Py.ConnectionError;
     wikipedia_page := fun _ => Py.Raise Py.ConnectionError |}.

(** Wikipedia finds nothing. *)
Definition api_no_results : WikipediaAPI :=
  {| wikipedia_search := fun _ _ => Py.Ok [];
     wikipedia_page := fun _ => Py.Raise Py.PageError |}.

Definition rag_batch_fails : Rag.WikipediaRAG :=
  {| Rag.embedding_model := model_batch_fails;
     Rag.wikipedia_retriever := api_one_page;
     Rag.write_index := fun _ _ => Py.Ok tt |}.

Definition rag_offline : Rag.WikipediaRAG :=
  {| Rag.embedding_model := model_e1;
     Rag.wikipedia_retriever := api_offline;
     Rag.write_index := fun _ _ => Py.Ok tt |}.

Definition rag_no_results : Rag.WikipediaRAG :=
  {| Rag.embedding_model := model_e1;
     Rag.wikipedia_retriever := api_no_results;
     Rag.write_index := fun _ _ => Py.Ok tt |}.

Definition rag_one_page : Rag.WikipediaRAG :=
  {| Rag.embedding_model := model_e1;
     Rag.wikipedia_retriever := api_one_page;
     Rag.write_index := fun _ _ => Py.Ok tt |}.

Definition fresh_state : Rag.state := Rag.mkState empty_store [].

Definition state_ab : Rag.state := Rag.mkState store_ab [].

(** ** A conversation *)

(** A window of 20 tokens, no tokenizer: four characters count as a token. *)
Definition manager_20 : Memory.MemoryManager :=
  Memory.mkManager (Memory.mkConfig 20 20) None.

Definition user_row (c : string) : Memory.Message :=
  Memory.mkMessage "user" c None false.

(** Two rows of 48 characters: 12 tokens each, 16 with the overhead. *)
Definition history_two : list Memory.Message :=
  [user_row (replicate 48 "a"); user_row (replicate 48 "b")].

(** A system prompt of 100 characters: 25 tokens, 29 with the overhead. *)
Definition long_prompt : string := replicate 100 "p".

(** The default configuration: a window of 4096 tokens, a history of 20
    messages; no tokenizer. *)
Definition manager_default : Memory.MemoryManager :=
  Memory.mkManager (Memory.mkConfig 20 4096) None.

(** A text of 4090 tokens. *)
Definition long_text : string := replicate (4 * 4090) "b".

(** A short message followed by a long one: 16 and 4094 tokens with the
    overhead. *)
Definition history_long : list Memory.Message :=
  [user_row (replicate 48 "a"); user_row long_text].

(** A system prompt of 4100 tokens, 4104 with the overhead. *)
Definition huge_prompt : string := replicate (4 * 4100) "p".


(** ** The files of a store *)

(** No file yet. *)
Definition no_files : VectorStore.files := VectorStore.mkFiles None None.

(** An index file of two vectors whose metadata file is gone. *)
Definition index_file_only : VectorStore.files :=
  VectorStore.mkFiles (Some (Faiss.mkIndex 2 [e1; e2])) None.

(** ** The Discord integration *)

(** The integration with its default configuration, over a RAG system that
    knows one page. *)
Definition integration_default : Integration.RAGIntegration :=
  Integration.mkIntegration
    (Integration.mkRAGConfig true Integration.default_trigger_keywords true)
    (Some rag_one_page).

(** Four stored rows: two by the user, a deleted one, one by the
    assistant. *)
Definition stored_rows : list Memory.StoredMessage :=
  [Memory.mkStored "user" "hello" 2 false;
   Memory.mkStored "user" "are you there?" 4 false;
   Memory.mkStored "assistant" "gone" 1 true;
   Memory.mkStored "assistant" "yes" 1 false].

End Samples.

(* ================================================================== *)
(** * Facts about the Python primitives                                 *)
(* ================================================================== *)

Section PyFacts.

Lemma length_substring_le (n m : nat) (s : string) :
  String.length (substring n m s) <= m.
Proof.
  revert n m. induction s as [|c s IH]; intros [|n] [|m]; simpl; try lia.
  - specialize (IH 0 m). lia.
  - apply (IH n 0).
  - apply (IH n (S m)).
Qed.

Lemma length_slice_le (s : string) (lo hi : nat) :
  Py.len (Py.slice s lo hi) <= hi - lo.
Proof. apply length_substring_le. Qed.

Lemma length_lstrip_le (s : string) :
  String.length (Py.lstrip s) <= String.length s.
Proof.
  induction s as [|c s IH]; simpl; [lia|].
  destruct (Py.is_space c); simpl; lia.
Qed.

Lemma length_rstrip_le (s : string) :
  String.length (Py.rstrip s) <= String.length s.
Proof.
  induction s as [|c s IH]; simpl; [lia|].
  destruct (Py.rstrip s) eqn:E.
  - destruct (Py.is_space c); simpl; lia.
  - simpl in *. lia.
Qed.

Lemma length_strip_le (s : string) : Py.len (Py.strip s) <= Py.len s.
Proof.
  unfold Py.strip, Py.len.
  etransitivity; [apply length_rstrip_le | apply length_lstrip_le].
Qed.

Lemma lstrip_blank (s : string) : Py.blank (Py.lstrip s) = Py.blank s.
Proof.
  induction s as [|c s IH]; simpl; [reflexivity|].
  destruct (Py.is_space c) eqn:E; simpl; [exact IH | now rewrite E].
Qed.

Lemma rstrip_truthy (s : string) : Py.truthy (Py.rstrip s) = negb (Py.blank s).
Proof.
  induction s as [|c s IH]; simpl; [reflexivity|].
  destruct (Py.rstrip s) eqn:E; simpl in *.
  - destruct (Py.is_space c); simpl; [| reflexivity].
    destruct (Py.blank s); [reflexivity | discriminate].
  - destruct (Py.blank s); [discriminate|]. now rewrite andb_false_r.
Qed.

Lemma strip_truthy (s : string) : Py.truthy (Py.strip s) = negb (Py.blank s).
Proof. unfold Py.strip. now rewrite rstrip_truthy, lstrip_blank. Qed.

Lemma blank_get (s : string) (p : nat) (c : ascii) :
  Py.blank s = true -> String.get p s = Some c -> Py.is_space c = true.
Proof.
  revert p. induction s as [|a s IH]; intros p Hb Hg; simpl in *.
  - discriminate.
  - apply andb_true_iff in Hb as [Ha Hs].
    destruct p; [now inversion Hg; subst | eauto].
Qed.

Lemma rfind_from_bounds (c : ascii) (s : string) :
  forall (i skip span : nat) (acc : option nat) (p : nat),
    Py.rfind_from c s i skip span acc = Some p ->
    acc = Some p
    \/ (i + skip <= p /\ p < i + skip + span /\ p < i + String.length s).
Proof.
  induction s as [|a s IH]; intros i skip span acc p H; simpl in *.
  - now left.
  - destruct skip as [|skip].
    + destruct span as [|span]; [now left|].
      apply IH in H as [H | H]; [| right; lia].
      destruct (Ascii.eqb a c); [| now left].
      inversion H; subst. right. lia.
    + apply IH in H as [H | H]; [now left | right; lia].
Qed.

Lemma rfind_bounds (s : string) (c : ascii) (lo hi p : nat) :
  Py.rfind s c lo hi = Some p -> lo <= p /\ p < hi /\ p < Py.len s.
Proof.
  unfold Py.rfind, Py.len. intros H.
  apply rfind_from_bounds in H as [H | H]; [discriminate | lia].
Qed.

End PyFacts.

(* ================================================================== *)
(** * The chunking loop                                                 *)
(* ================================================================== *)

Section ChunkLoop.
Import Retriever Props.

Variables (chunk_size chunk_overlap max_chunks : nat).
Hypothesis chunk_size_pos : 1 <= chunk_size.
Variables (txt ttl u : string).

Lemma window_end_bounds (start : nat) :
  start < Py.len txt ->
  start < window_end chunk_size chunk_overlap txt (Py.len txt) start
  /\ window_end chunk_size chunk_overlap txt (Py.len txt) start <= Py.len txt
  /\ window_end chunk_size chunk_overlap txt (Py.len txt) start
     <= start + chunk_size + chunk_overlap.
Proof.
  intros Hs. unfold window_end.
  destruct (Nat.ltb_spec (Nat.min (start + chunk_size) (Py.len txt))
                         (Py.len txt)) as [Hlt | Hge].
  - destruct (Py.rfind txt "." start _) as [p|] eqn:Hr; [| lia].
    apply rfind_bounds in Hr.
    destruct (Nat.ltb_spec (start + chunk_size / 2) p); lia.
  - lia.
Qed.

(** When the next start reaches the end of the text, the window that was
    just cut ended there. *)
Lemma window_end_last (start : nat) :
  start < Py.len txt ->
  Py.len txt <= Nat.max (start + chunk_size - chunk_overlap)
                        (window_end chunk_size chunk_overlap txt
                                    (Py.len txt) start) ->
  window_end chunk_size chunk_overlap txt (Py.len txt) start = Py.len txt.
Proof.
  intros Hs Hmax.
  pose proof (window_end_bounds start Hs) as (_ & Hle & _).
  unfold window_end in *.
  destruct (Nat.ltb_spec (Nat.min (start + chunk_size) (Py.len txt))
                         (Py.len txt)) as [Hlt | Hge]; lia.
Qed.

Lemma last_opt_snoc {A} (l : list A) (a : A) : last_opt (l ++ [a]) = Some a.
Proof.
  induction l as [|b l IH]; [reflexivity|].
  simpl. destruct (l ++ [a]) eqn:E; [now destruct l | exact IH].
Qed.

Lemma StronglySorted_snoc {A} (R : A -> A -> Prop) (l : list A) (x : A) :
  StronglySorted R l -> Forall (fun a => R a x) l ->
  StronglySorted R (l ++ [x]).
Proof.
  induction 1 as [|a l Hs IH Ha]; intros Hx; simpl.
  - repeat constructor.
  - inversion Hx; subst. constructor; [auto|].
    apply Forall_app. split; [exact Ha | now constructor].
Qed.

(** A window that reaches the end of a text whose last character is visible
    does not strip to the empty string. *)
Lemma tail_window_truthy (start : nat) :
  ends_in_nonspace txt -> start < Py.len txt ->
  Py.truthy (Py.strip (Py.slice txt start (Py.len txt))) = true.
Proof.
  intros (c & Hget & Hc) Hs.
  rewrite strip_truthy. apply negb_true_iff.
  destruct (Py.blank _) eqn:Hb; [| reflexivity].
  assert (Hp : Py.len txt - 1 - start < Py.len txt - start) by lia.
  pose proof (substring_correct1 txt start _ _ Hp) as Hsub.
  replace (Py.len txt - 1 - start + start) with (Py.len txt - 1) in Hsub by lia.
  rewrite Hget in Hsub.
  apply (blank_get _ _ _ Hb) in Hsub. congruence.
Qed.

Local Abbreviation Inv := (loop_inv chunk_size chunk_overlap max_chunks txt).
Local Abbreviation wend := (window_end chunk_size chunk_overlap txt (Py.len txt)).

Lemma loop_inv_weaken (cid start start' : nat) chunks :
  start <= start' -> start' < Py.len txt \/ last_end chunks = Some (Py.len txt)
                     \/ ~ ends_in_nonspace txt ->
  Inv cid start chunks -> Inv cid start' chunks.
Proof.
  intros Hle Hc [Hcid Hcap Heach Hsort Hcov]. split; auto.
  - eapply Forall_impl; [| exact Heach]. simpl. intros c ?. lia.
  - intros He Hl. destruct Hc as [Hc | [Hc | Hc]]; [lia | exact Hc | tauto].
Qed.

(** One iteration that keeps the window. *)
Lemma loop_inv_keep (cid start : nat) chunks :
  start < Py.len txt -> cid < max_chunks -> Inv cid start chunks ->
  Inv (cid + 1)
      (Nat.max (start + chunk_size - chunk_overlap) (wend start))
      (chunks ++ [mkChunk (Py.strip (Py.slice txt start (wend start)))
                          ttl u cid start (wend start)]).
Proof.
  intros Hs Hc [Hcid Hcap Heach Hsort Hcov].
  pose proof (window_end_bounds start Hs) as (Hlo & Hhi & Hext).
  split.
  - rewrite length_app. simpl. lia.
  - lia.
  - apply Forall_app. split.
    + eapply Forall_impl; [| exact Heach]. simpl. intros c ?. lia.
    + constructor; [| constructor]. simpl.
      pose proof (length_strip_le (Py.slice txt start (wend start))).
      pose proof (length_slice_le txt start (wend start)).
      repeat split; lia.
  - apply StronglySorted_snoc; [exact Hsort|].
    eapply Forall_impl; [| exact Heach]. simpl. intros c ?. lia.
  - intros _ Hl. unfold last_end. rewrite last_opt_snoc. simpl.
    f_equal. now apply window_end_last.
Qed.

(** One iteration that drops a blank window. *)
Lemma loop_inv_drop (cid start : nat) chunks :
  start < Py.len txt ->
  Py.truthy (Py.strip (Py.slice txt start (wend start))) = false ->
  Inv cid start chunks ->
  Inv cid (Nat.max (start + chunk_size - chunk_overlap) (wend start)) chunks.
Proof.
  intros Hs Hblank HI.
  pose proof (window_end_bounds start Hs) as (Hlo & Hhi & Hext).
  apply (loop_inv_weaken cid start); [lia | | exact HI].
  destruct (Nat.lt_ge_cases
              (Nat.max (start + chunk_size - chunk_overlap) (wend start))
              (Py.len txt)) as [Hlt | Hge]; [now left | right; right].
  intros He. apply window_end_last in Hge; [| exact Hs].
  rewrite Hge in Hblank.
  rewrite (tail_window_truthy start He Hs) in Hblank. discriminate.
Qed.

(** The loop returns once it has as much fuel as characters left, and what
    it returns satisfies the invariant with the loop condition false. *)
Lemma chunk_loop_spec (fuel : nat) :
  forall cid start chunks,
    Py.len txt - start <= fuel ->
    Inv cid start chunks ->
    exists res cid' start',
      chunk_loop chunk_size chunk_overlap max_chunks fuel txt ttl u
                 (Py.len txt) cid start chunks = Some res
      /\ Inv cid' start' res
      /\ (start' <? Py.len txt) && (cid' <? max_chunks) = false.
Proof.
  induction fuel as [|fuel IH]; intros cid start chunks Hfuel HI;
    simpl; destruct ((start <? Py.len txt) && (cid <? max_chunks)) eqn:Hc;
    try (exists chunks, cid, start; split; [reflexivity | split; assumption]).
  - apply andb_true_iff in Hc as [Hc _]. apply Nat.ltb_lt in Hc. lia.
  - apply andb_true_iff in Hc as [Hs Hcid].
    apply Nat.ltb_lt in Hs. apply Nat.ltb_lt in Hcid.
    pose proof (window_end_bounds start Hs) as (Hlo & _).
    destruct (Py.truthy _) eqn:Ht.
    + apply IH; [lia | now apply loop_inv_keep].
    + apply IH; [lia | now apply loop_inv_drop].
Qed.

(** [chunk_text] on a text longer than one window. *)
Lemma chunk_text_with_long :
  chunk_size < Py.len txt ->
  exists res,
    chunk_text_with chunk_size chunk_overlap max_chunks txt ttl u = Some res
    /\ starts_increasing res
    /\ Forall (fun c =>
                 start_pos c < end_pos c /\ end_pos c <= Py.len txt
                 /\ end_pos c <= start_pos c + chunk_size + chunk_overlap
                 /\ Py.len (text c) <= end_pos c - start_pos c) res
    /\ List.length res <= max_chunks
    /\ (List.length res < max_chunks -> ends_in_nonspace txt ->
        last_end res = Some (Py.len txt)).
Proof.
  intros Hlong. unfold chunk_text_with.
  destruct (Nat.leb_spec (Py.len txt) chunk_size) as [Hle | _]; [lia|].
  destruct (chunk_loop_spec (Py.len txt) 0 0 []) as (res & cid & st & Hr & HI & Hc).
  - lia.
  - split; simpl; [reflexivity | lia | constructor | constructor | intros; lia].
  - exists res. destruct HI as [Hcid Hcap Heach Hsort Hcov].
    split; [exact Hr|]. split; [exact Hsort|]. split.
    + eapply Forall_impl; [| exact Heach]. simpl. intros c ?. lia.
    + split.
      * lia.
      * intros Hn He. apply Hcov; [exact He|].
        apply andb_false_iff in Hc as [Hc | Hc].
        -- apply Nat.ltb_ge in Hc. exact Hc.
        -- apply Nat.ltb_ge in Hc. lia.
Qed.

End ChunkLoop.

(* ================================================================== *)
(** * [chunk_text]                                                      *)
(* ================================================================== *)

Section ChunkText.
Import Retriever Props.

Lemma CHUNK_SIZE_pos : 1 <= Config.CHUNK_SIZE.
Proof. apply Nat.leb_le. reflexivity. Qed.

(** [chunk_text] returns on every text: the iteration bound of the model is
    never reached. *)
Lemma chunk_text_terminates (txt ttl u : string) :
  exists chunks, chunk_text txt ttl u = Some chunks.
Proof.
  destruct (Nat.le_gt_cases (Py.len txt) Config.CHUNK_SIZE) as [Hle | Hgt].
  - unfold chunk_text, chunk_text_with.
    apply Nat.leb_le in Hle. rewrite Hle. eauto.
  - destruct (chunk_text_with_long _ Config.CHUNK_OVERLAP
                Config.MAX_CHUNKS_PER_ARTICLE CHUNK_SIZE_pos txt ttl u Hgt)
      as (res & Hr & _).
    exists res. exact Hr.
Qed.

(** C6.  A text of at most [CHUNK_SIZE] characters comes back as exactly one
    chunk: its text is the input unchanged, its id is 0 and its span is
    [0, len(text)). *)
Theorem chunk_text_short_single (txt ttl u : string) :
  Py.len txt <= Config.CHUNK_SIZE ->
  chunk_text txt ttl u = Some [mkChunk txt ttl u 0 0 (Py.len txt)].
Proof.
  intros Hle. unfold chunk_text, chunk_text_with.
  apply Nat.leb_le in Hle. now rewrite Hle.
Qed.

Lemma chunk_text_short_single_witness :
  Py.len "Python is a language." <= Config.CHUNK_SIZE
  /\ chunk_text "Python is a language." "Python" "https://en.wikipedia.org"
     = Some [mkChunk "Python is a language." "Python"
                     "https://en.wikipedia.org" 0 0
                     (Py.len "Python is a language.")].
Proof.
  split.
  - apply Nat.leb_le. reflexivity.
  - apply chunk_text_short_single. apply Nat.leb_le. reflexivity.
Defined.

(** C9.  On a text longer than [CHUNK_SIZE] every chunk holds at most
    [CHUNK_SIZE + CHUNK_OVERLAP] characters: moving the cut to a sentence
    boundary ends the span at most [CHUNK_OVERLAP] characters past the fixed
    window. *)
Theorem chunk_text_length_bound (txt ttl u : string) :
  Config.CHUNK_SIZE < Py.len txt ->
  exists chunks,
    chunk_text txt ttl u = Some chunks
    /\ Forall (fun c =>
                 Py.len (text c) <= Config.CHUNK_SIZE + Config.CHUNK_OVERLAP
                 /\ end_pos c
                    <= start_pos c + Config.CHUNK_SIZE + Config.CHUNK_OVERLAP)
              chunks.
Proof.
  intros Hgt.
  destruct (chunk_text_with_long _ Config.CHUNK_OVERLAP
              Config.MAX_CHUNKS_PER_ARTICLE CHUNK_SIZE_pos txt ttl u Hgt)
    as (res & Hr & _ & Heach & _).
  exists res. split; [exact Hr|].
  eapply Forall_impl; [| exact Heach]. cbv beta. intros c ?. lia.
Qed.

Lemma chunk_text_length_bound_witness :
  Config.CHUNK_SIZE < Py.len Samples.article_period_350
  /\ exists chunks,
       chunk_text Samples.article_period_350 "T" "U" = Some chunks
       /\ Forall (fun c =>
                    Py.len (text c) <= Config.CHUNK_SIZE + Config.CHUNK_OVERLAP
                    /\ end_pos c
                       <= start_pos c + Config.CHUNK_SIZE
                          + Config.CHUNK_OVERLAP)
                 chunks.
Proof.
  assert (H : Config.CHUNK_SIZE < Py.len Samples.article_period_350)
    by (apply Nat.ltb_lt; vm_compute; reflexivity).
  split; [exact H | exact (chunk_text_length_bound _ "T" "U" H)].
Defined.

(** C5, as the code has it.  On a text longer than [CHUNK_SIZE] the chunks
    come in strictly increasing order of their start, every span is a
    non-empty range inside the text, there are at most
    [MAX_CHUNKS_PER_ARTICLE] of them, and the last span ends at [len(text)]
    whenever the cap on the number of chunks was not reached and the text
    does not end in white space. *)
Theorem chunk_text_ordered_until_cap (txt ttl u : string) :
  Config.CHUNK_SIZE < Py.len txt ->
  exists chunks,
    chunk_text txt ttl u = Some chunks
    /\ starts_increasing chunks
    /\ Forall (fun c => start_pos c < end_pos c /\ end_pos c <= Py.len txt)
              chunks
    /\ List.length chunks <= Config.MAX_CHUNKS_PER_ARTICLE
    /\ (List.length chunks < Config.MAX_CHUNKS_PER_ARTICLE ->
        ends_in_nonspace txt -> last_end chunks = Some (Py.len txt)).
Proof.
  intros Hgt.
  destruct (chunk_text_with_long _ Config.CHUNK_OVERLAP
              Config.MAX_CHUNKS_PER_ARTICLE CHUNK_SIZE_pos txt ttl u Hgt)
    as (res & Hr & Hsort & Heach & Hcap & Hcov).
  exists res. repeat split; auto.
  eapply Forall_impl; [| exact Heach]. cbv beta. intros c ?. lia.
Qed.

Lemma chunk_text_ordered_until_cap_witness :
  Config.CHUNK_SIZE < Py.len Samples.article_1400
  /\ exists chunks,
       chunk_text Samples.article_1400 "T" "U" = Some chunks
       /\ starts_increasing chunks
       /\ Forall (fun c => start_pos c < end_pos c
                           /\ end_pos c <= Py.len Samples.article_1400)
                 chunks
       /\ List.length chunks <= Config.MAX_CHUNKS_PER_ARTICLE
       /\ (List.length chunks < Config.MAX_CHUNKS_PER_ARTICLE ->
           ends_in_nonspace Samples.article_1400 ->
           last_end chunks = Some (Py.len Samples.article_1400)).
Proof.
  assert (H : Config.CHUNK_SIZE < Py.len Samples.article_1400)
    by (apply Nat.ltb_lt; vm_compute; reflexivity).
  split; [exact H | exact (chunk_text_ordered_until_cap _ "T" "U" H)].
Defined.

(** The scenario of the specification: 1400 characters give three chunks
    with spans [0,600), [600,1200) and [1200,1400). *)
Example chunk_text_article_1400 :
  option_map (map (fun c => (chunk_id c, start_pos c, end_pos c)))
             (chunk_text Samples.article_1400 "T" "U")
  = Some [(0, 0, 600); (1, 600, 1200); (2, 1200, 1400)].
Proof. vm_compute. reflexivity. Qed.

(** C5 as stated fails at the cap: a text of 9001 characters yields fifteen
    chunks, the last of which ends at 9000, so the spans do not reach the
    end of the text. *)
Lemma chunk_text_cap_counterexample :
  Config.CHUNK_SIZE < Py.len Samples.article_9001
  /\ exists chunks,
       chunk_text Samples.article_9001 "T" "U" = Some chunks
       /\ List.length chunks = Config.MAX_CHUNKS_PER_ARTICLE
       /\ last_end chunks = Some (15 * 600)
       /\ ~ (starts_nondecreasing chunks
             /\ covers Samples.article_9001 chunks).
Proof.
  split; [apply Nat.ltb_lt; vm_compute; reflexivity|].
  eexists. split; [vm_compute; reflexivity|].
  split; [vm_compute; reflexivity|].
  assert (Hl : forall chunks n,
             last_end chunks = Some n -> Nat.eqb n (Py.len Samples.article_9001) = false ->
             ~ (starts_nondecreasing chunks
                /\ covers Samples.article_9001 chunks)).
  { intros chunks n Hn Hne (_ & _ & Hend). rewrite Hn in Hend.
    injection Hend as ->. now rewrite Nat.eqb_refl in Hne. }
  split; [vm_compute; reflexivity|].
  apply (Hl _ (15 * 600)); vm_compute; reflexivity.
Qed.

(** A last window of white space only is dropped, and the spans end before
    the text does. *)
Example chunk_text_blank_tail :
  option_map (map (fun c => (chunk_id c, start_pos c, end_pos c)))
             (chunk_text Samples.article_blank_tail "T" "U")
  = Some [(0, 0, 600)]
  /\ Py.len Samples.article_blank_tail = 601.
Proof. vm_compute. split; reflexivity. Qed.

(** A sentence boundary in the first fifth past the midpoint leaves a hole:
    with the only period at position 350 the first chunk ends at 351 and the
    second starts at 500, so characters 351 to 499 are in no chunk. *)
Example chunk_text_hole_after_early_period :
  option_map (map (fun c => (chunk_id c, start_pos c, end_pos c)))
             (chunk_text Samples.article_period_350 "T" "U")
  = Some [(0, 0, 351); (1, 500, 700)].
Proof. vm_compute. reflexivity. Qed.

End ChunkText.

(* ================================================================== *)
(** * [format_context]                                                  *)
(* ================================================================== *)

Section FormatContext.
Import Retriever Props Rag.

Lemma length_append (s1 s2 : string) :
  String.length (s1 ++ s2) = String.length s1 + String.length s2.
Proof. induction s1 as [|c s1 IH]; simpl; [reflexivity | now rewrite IH]. Qed.

Lemma total_len_app (l1 l2 : list string) :
  total_len (l1 ++ l2) = total_len l1 + total_len l2.
Proof. unfold total_len. now rewrite map_app, list_sum_app. Qed.

(** Joining with a line end adds one character between neighbours. *)
Lemma len_join_newline (parts : list string) :
  Py.len (Py.join newline parts) = total_len parts + (List.length parts - 1).
Proof.
  unfold total_len.
  induction parts as [|p parts IH]; [reflexivity|].
  destruct parts as [|q rest].
  - unfold Py.len. simpl. lia.
  - change (Py.join newline (p :: q :: rest))
      with (p ++ newline ++ Py.join newline (q :: rest))%string.
    unfold Py.len in *. rewrite !length_append, IH. simpl. lia.
Qed.

(** The loop appends to [context_parts] the blocks of the longest prefix of
    [chunks] that keeps the running length within [MAX_CONTEXT_LENGTH]: it
    stops at the first block that does not fit and looks no further. *)
Lemma format_loop_prefix (chunks : list WikipediaChunk) :
  forall i total_length context_parts,
  exists n,
    n <= List.length chunks
    /\ format_loop i chunks total_length context_parts
       = context_parts ++ firstn n (blocks_from i chunks)
    /\ (total_length <= Config.MAX_CONTEXT_LENGTH ->
        total_length + total_len (firstn n (blocks_from i chunks))
        <= Config.MAX_CONTEXT_LENGTH)
    /\ (n < List.length chunks ->
        Config.MAX_CONTEXT_LENGTH
        < total_length + total_len (firstn (S n) (blocks_from i chunks))).
Proof.
  induction chunks as [|c rest IH]; intros i total parts.
  - exists 0. cbn [format_loop blocks_from firstn List.length].
    rewrite app_nil_r.
    split; [lia|]. split; [reflexivity|].
    split; [unfold total_len, list_sum; cbn [map list_sum fold_right]; lia | lia].
  - cbn [format_loop blocks_from List.length].
    destruct (Nat.ltb_spec Config.MAX_CONTEXT_LENGTH
                           (total + Py.len (chunk_content i c))) as [Hov | Hfit].
    + exists 0. cbn [firstn]. rewrite app_nil_r.
      split; [lia|]. split; [reflexivity|].
      split; [unfold total_len, list_sum; cbn [map list_sum fold_right]; lia|].
      intros _. unfold total_len, list_sum. cbn [map list_sum fold_right]. lia.
    + destruct (IH (S i) (total + Py.len (chunk_content i c))
                   (parts ++ [chunk_content i c])) as (n & Hn & Heq & Hle & Hgt).
      exists (S n). split; [lia|]. split.
      * rewrite Heq, <- app_assoc. reflexivity.
      * split.
        -- intros _. specialize (Hle Hfit).
           unfold total_len, list_sum in *. cbn [firstn map list_sum fold_right]. lia.
        -- intros Hlt. assert (Hn' : n < List.length rest) by lia.
           specialize (Hgt Hn').
           change (firstn (S (S n))
                          (chunk_content i c :: blocks_from (S i) rest))
             with (chunk_content i c
                   :: firstn (S n) (blocks_from (S i) rest)).
           unfold total_len, list_sum in *. cbn [map list_sum fold_right]. lia.
Qed.

Lemma length_blocks_from (chunks : list WikipediaChunk) (i : nat) :
  List.length (blocks_from i chunks) = List.length chunks.
Proof. revert i. induction chunks; intros; simpl; auto. Qed.

(** The shape and the exact length of the output on a non-empty list: the
    blocks of the first [n] chunks joined by line ends, where [n] is as large
    as the running length allows.  The line ends between blocks are not
    counted in the running length, so the output holds up to [n - 1]
    characters more than [MAX_CONTEXT_LENGTH]. *)
Lemma format_context_shape (chunk : WikipediaChunk)
      (rest : list WikipediaChunk) :
  exists n,
    n <= List.length (chunk :: rest)
    /\ format_context (chunk :: rest)
       = Py.join newline (firstn n (blocks_from 1 (chunk :: rest)))
    /\ total_len (firstn n (blocks_from 1 (chunk :: rest)))
       <= Config.MAX_CONTEXT_LENGTH
    /\ (n < List.length (chunk :: rest) ->
        Config.MAX_CONTEXT_LENGTH
        < total_len (firstn (S n) (blocks_from 1 (chunk :: rest))))
    /\ Py.len (format_context (chunk :: rest))
       = total_len (firstn n (blocks_from 1 (chunk :: rest))) + (n - 1)
    /\ Py.len (format_context (chunk :: rest))
       <= Config.MAX_CONTEXT_LENGTH + (n - 1).
Proof.
  destruct (format_loop_prefix (chunk :: rest) 1 0 []) as (n & Hn & Heq & Hle & Hgt).
  exists n. unfold format_context. rewrite Heq. cbn [app].
  assert (Hlen : List.length (firstn n (blocks_from 1 (chunk :: rest))) = n).
  { rewrite length_firstn, length_blocks_from. lia. }
  specialize (Hle (Nat.le_0_l _)).
  repeat split; auto.
  - rewrite len_join_newline, Hlen. reflexivity.
  - rewrite len_join_newline, Hlen. cbn [Nat.add] in Hle. lia.
Qed.

Lemma join_head (c : ascii) (t : string) (l : list string) :
  exists t', Py.join newline (String c t :: l) = String c t'.
Proof. destruct l; simpl; eauto. Qed.

(** The sentinel is the answer to the empty list and to no other. *)
Lemma format_context_sentinel_iff (chunks : list WikipediaChunk) :
  format_context chunks = sentinel <-> chunks = [].
Proof.
  split; [| now intros ->].
  destruct chunks as [|c rest]; [reflexivity|]. intros H. exfalso.
  destruct (format_loop_prefix (c :: rest) 1 0 []) as (n & _ & Heq & _).
  unfold format_context in H. rewrite Heq in H. cbn [app blocks_from] in H.
  destruct n as [|n]; [discriminate H|].
  cbn [firstn] in H.
  destruct (join_head "[" (("Source " ++ Py.str_of_nat 1 ++ ": " ++ title c
                              ++ "]") ++ newline ++ text c ++ newline)%string
                      (firstn n (blocks_from 2 rest))) as (t' & Ht').
  change (chunk_content 1 c)
    with (String "[" (("Source " ++ Py.str_of_nat 1 ++ ": " ++ title c
                         ++ "]") ++ newline ++ text c ++ newline))%string in H.
  rewrite Ht' in H. discriminate H.
Qed.

(** C10.  When the block of the first chunk alone is longer than
    [MAX_CONTEXT_LENGTH], [format_context] returns the empty string, not the
    sentinel: the sentinel is kept for the empty list, so a non-empty
    retrieval result can come back as an empty context. *)
Theorem format_context_oversized_first (chunk : WikipediaChunk)
        (rest : list WikipediaChunk) :
  Config.MAX_CONTEXT_LENGTH < Py.len (chunk_content 1 chunk) ->
  format_context (chunk :: rest) = EmptyString
  /\ format_context (chunk :: rest) <> sentinel
  /\ (forall chunks, format_context chunks = sentinel -> chunks = []).
Proof.
  intros Hbig.
  assert (H : format_context (chunk :: rest) = EmptyString).
  { unfold format_context. cbn [format_loop]. cbn [Nat.add].
    apply Nat.ltb_lt in Hbig. rewrite Hbig. reflexivity. }
  split; [exact H|]. split.
  - rewrite H. discriminate.
  - intros chunks. apply format_context_sentinel_iff.
Qed.

Lemma format_context_oversized_first_witness :
  Config.MAX_CONTEXT_LENGTH < Py.len (chunk_content 1 Samples.oversized_chunk)
  /\ format_context [Samples.oversized_chunk; Samples.short_chunk]
     = EmptyString.
Proof.
  assert (H : Config.MAX_CONTEXT_LENGTH
              < Py.len (chunk_content 1 Samples.oversized_chunk))
    by (apply Nat.ltb_lt; vm_compute; reflexivity).
  split; [exact H|].
  exact (proj1 (format_context_oversized_first
                  Samples.oversized_chunk [Samples.short_chunk] H)).
Defined.

(** A block is its chunk's text and thirteen characters of frame, the
    number and the title. *)
Lemma len_chunk_content (i : nat) (chunk : WikipediaChunk) :
  Py.len (chunk_content i chunk)
  = 13 + Py.len (Py.str_of_nat i) + Py.len (title chunk)
    + Py.len (text chunk).
Proof.
  unfold chunk_content, Py.len. rewrite !length_append. simpl. lia.
Qed.

Lemma formatting_overhead_min (i : nat) (chunk : WikipediaChunk) :
  13 <= formatting_overhead i chunk.
Proof. unfold formatting_overhead. rewrite len_chunk_content. lia. Qed.

(** X27.  What [format_context] does guarantee.  The empty list gives the
    sentinel.  A non-empty list gives the blocks of its first [n] chunks,
    joined by line ends, where [n] is the number of blocks whose lengths add
    up to at most [MAX_CONTEXT_LENGTH]: the loop stops at the first block
    that would go over and does not look at later chunks.  The output is as
    long as these blocks plus the [n - 1] line ends between them, which the
    running length does not count, hence at most
    [MAX_CONTEXT_LENGTH + (n - 1)]; up to fourteen included blocks this is
    within [MAX_CONTEXT_LENGTH] plus the formatting overhead of the last
    included chunk. *)
Theorem format_context_prefix_of_blocks :
  format_context [] = sentinel
  /\ forall chunk rest,
     exists n,
       n <= List.length (chunk :: rest)
       /\ format_context (chunk :: rest)
          = Py.join newline (firstn n (blocks_from 1 (chunk :: rest)))
       /\ total_len (firstn n (blocks_from 1 (chunk :: rest)))
          <= Config.MAX_CONTEXT_LENGTH
       /\ (n < List.length (chunk :: rest) ->
           Config.MAX_CONTEXT_LENGTH
           < total_len (firstn (S n) (blocks_from 1 (chunk :: rest))))
       /\ Py.len (format_context (chunk :: rest))
          = total_len (firstn n (blocks_from 1 (chunk :: rest))) + (n - 1)
       /\ Py.len (format_context (chunk :: rest))
          <= Config.MAX_CONTEXT_LENGTH + (n - 1)
       /\ (n <= 14 ->
           forall last_included,
             Py.len (format_context (chunk :: rest))
             <= Config.MAX_CONTEXT_LENGTH
                + formatting_overhead n last_included).
Proof.
  split; [reflexivity|]. intros chunk rest.
  destruct (format_context_shape chunk rest)
    as (n & Hn & Heq & Hle & Hgt & Hlen & Hbound).
  exists n. repeat (split; [assumption|]).
  intros Hsmall c. pose proof (formatting_overhead_min n c). lia.
Qed.

(** C8 at a failing input.  Twenty chunks whose blocks add up to exactly
    [MAX_CONTEXT_LENGTH] characters: every block passes the test of the
    loop, which counts 2000 characters, all twenty blocks are included, and
    the nineteen line ends that join them, counted nowhere, make a context of
    2019 characters.  That is more than [MAX_CONTEXT_LENGTH], which the code
    means to keep, and more than [MAX_CONTEXT_LENGTH] plus the 16 characters
    the last block adds to its chunk's text, which the claim allows. *)
Lemma format_context_exceeds_max_context_length :
  format_context Samples.twenty_chunks
  = Py.join newline (blocks_from 1 Samples.twenty_chunks)
  /\ total_len (blocks_from 1 Samples.twenty_chunks)
     = Config.MAX_CONTEXT_LENGTH
  /\ last_opt Samples.twenty_chunks = Some Samples.short_chunk
  /\ formatting_overhead 20 Samples.short_chunk = 16
  /\ Py.len (format_context Samples.twenty_chunks) = 2019
  /\ Config.MAX_CONTEXT_LENGTH < Py.len (format_context Samples.twenty_chunks)
  /\ ~ (Py.len (format_context Samples.twenty_chunks)
        <= Config.MAX_CONTEXT_LENGTH
           + formatting_overhead 20 Samples.short_chunk).
Proof.
  assert (Hlen : Py.len (format_context Samples.twenty_chunks) = 2019)
    by (vm_compute; reflexivity).
  assert (Hov : formatting_overhead 20 Samples.short_chunk = 16)
    by (vm_compute; reflexivity).
  split; [vm_compute; reflexivity|].
  split; [vm_compute; reflexivity|].
  split; [reflexivity|].
  split; [exact Hov|]. split; [exact Hlen|]. split.
  - rewrite Hlen. apply Nat.ltb_lt. vm_compute. reflexivity.
  - rewrite Hlen, Hov. intros H. apply Nat.leb_le in H.
    vm_compute in H. discriminate H.
Qed.

End FormatContext.

(* ================================================================== *)
(** * The flat index: ranking                                           *)
(* ================================================================== *)

Section Ranking.
Import Props.

Lemma length_insert_desc (e : Q * Z) (l : list (Q * Z)) :
  List.length (Faiss.insert_desc e l) = S (List.length l).
Proof.
  induction l as [|h t IH]; simpl; [reflexivity|].
  destruct (Qle_bool (fst e) (fst h)); simpl; auto.
Qed.

Lemma Forall_insert_desc (P : Q * Z -> Prop) (e : Q * Z) (l : list (Q * Z)) :
  P e -> Forall P l -> Forall P (Faiss.insert_desc e l).
Proof.
  intros He. induction 1 as [|h t Hh Ht IH]; simpl.
  - auto.
  - destruct (Qle_bool (fst e) (fst h)); auto.
Qed.

Lemma insert_desc_descending (e : Q * Z) (l : list (Q * Z)) :
  descending (map fst l) -> descending (map fst (Faiss.insert_desc e l)).
Proof.
  unfold descending.
  induction l as [|h t IH]; simpl; intros Hs.
  - repeat constructor.
  - inversion Hs as [|? ? Hst Hh]; subst.
    destruct (Qle_bool (fst e) (fst h)) eqn:E; simpl.
    + apply Qle_bool_iff in E. constructor; [auto|].
      rewrite Forall_map in *.
      apply Forall_insert_desc; [exact E | exact Hh].
    + assert (Hlt : (fst h < fst e)%Q).
      { apply Qnot_le_lt. intros Hle. apply Qle_bool_iff in Hle. congruence. }
      constructor; [exact Hs|].
      constructor; [now apply Qlt_le_weak|].
      eapply Forall_impl; [| exact Hh]. cbv beta. intros a Ha.
      eapply Qle_trans; [exact Ha | now apply Qlt_le_weak].
Qed.

Lemma fold_insert_desc (P : Q * Z -> Prop) (l acc : list (Q * Z)) :
  descending (map fst acc) -> Forall P acc -> Forall P l ->
  let r := fold_left (fun acc e => Faiss.insert_desc e acc) l acc in
  descending (map fst r) /\ Forall P r
  /\ List.length r = List.length l + List.length acc.
Proof.
  revert acc. induction l as [|e l IH]; intros acc Hs Ha Hl; simpl.
  - auto.
  - inversion Hl as [|? ? He Hl']; subst.
    destruct (IH (Faiss.insert_desc e acc)) as (R1 & R2 & R3).
    + now apply insert_desc_descending.
    + now apply Forall_insert_desc.
    + assumption.
    + rewrite length_insert_desc in R3. repeat split; auto. lia.
Qed.

Lemma number_from_labels (scores : list Q) (i : nat) :
  Forall (fun e => (Z.of_nat i <= snd e < Z.of_nat (i + List.length scores))%Z)
         (Faiss.number_from i scores)
  /\ List.length (Faiss.number_from i scores) = List.length scores.
Proof.
  revert i. induction scores as [|s rest IH]; intros i; simpl.
  - split; [constructor | reflexivity].
  - destruct (IH (S i)) as [H1 H2]. split; [| now rewrite H2].
    constructor; [simpl; lia|].
    eapply Forall_impl; [| exact H1]. cbv beta. intros e ?. lia.
Qed.

Lemma Forall_take {A} (P : A -> Prop) (n : nat) (l : list A) :
  Forall P l -> Forall P (firstn n l).
Proof.
  intros H. revert n. induction H; intros [|n]; simpl; auto.
Qed.

Lemma descending_firstn (n : nat) (l : list Q) :
  descending l -> descending (firstn n l).
Proof.
  unfold descending. revert n.
  induction l as [|a l IH]; intros [|n] Hs; simpl; try constructor.
  - inversion Hs; subst. auto.
  - inversion Hs; subst. now apply Forall_take.
Qed.

(** One row of search results, when at most as many neighbours are asked
    for as are stored: exactly that many, best first, each label a slot of
    the index. *)
Lemma search_row_spec `{Faiss.Kernel} (idx : Faiss.IndexFlatIP) (k : Z)
      (q : Faiss.vector) :
  (0 <= k <= Z.of_nat (Faiss.ntotal idx))%Z ->
  let hits := Faiss.search_row idx k q in
  List.length hits = Z.to_nat k
  /\ descending (map fst hits)
  /\ Forall (fun e => (0 <= snd e < Z.of_nat (Faiss.ntotal idx))%Z) hits.
Proof.
  intros Hk. unfold Faiss.search_row, Faiss.sort_desc.
  replace (Z.to_nat k - Faiss.ntotal idx) with 0 by lia.
  cbn [repeat]. rewrite app_nil_r.
  destruct (number_from_labels
              (map (Faiss.inner_product q) (Faiss.xb idx)) 0) as [Hlab Hlen].
  rewrite length_map in Hlab, Hlen.
  destruct (fold_insert_desc
              (fun e => (0 <= snd e < Z.of_nat (Faiss.ntotal idx))%Z)
              (Faiss.number_from 0 (map (Faiss.inner_product q) (Faiss.xb idx)))
              []) as (Hs & Hf & Hl).
  - constructor.
  - constructor.
  - exact Hlab.
  - cbv zeta in Hs, Hf, Hl. rewrite Hlen in Hl. simpl in Hl.
    split; [| split].
    + rewrite length_firstn, Hl. unfold Faiss.ntotal in *. lia.
    + rewrite <- firstn_map. now apply descending_firstn.
    + now apply Forall_take.
Qed.

End Ranking.

(* ================================================================== *)
(** * [VectorStore.search] and [VectorStore.add_embeddings]             *)
(* ================================================================== *)

Section Store.
Import Retriever Props.
Context `{Faiss.Kernel}.

Lemma collect_results_ok (md : list WikipediaChunk) (hits : list (Q * Z)) :
  Forall (fun e => (0 <= snd e < Z.of_nat (List.length md))%Z) hits ->
  forall results,
  exists out,
    VectorStore.collect_results md hits results = Py.Ok (results ++ out)
    /\ map snd out = map fst hits.
Proof.
  induction 1 as [|[score idx] rest Hh Hr IH]; intros results; simpl.
  - exists []. now rewrite app_nil_r.
  - simpl in Hh.
    destruct (Z.eqb_spec idx (-1)) as [-> | _]; [lia|].
    destruct (nth_error md (Z.to_nat idx)) as [chunk|] eqn:E.
    + destruct (IH (results ++ [(chunk, score)])) as (out & Ho & Hm).
      exists ((chunk, score) :: out). rewrite Ho, <- app_assoc.
      split; [reflexivity | simpl; now rewrite Hm].
    + apply nth_error_None in E. lia.
Qed.






(** C7, as the code has it.  On a store without vectors [search] returns
    the empty list for every query and every [k], raising nothing.  On a
    store that holds vectors, each with its chunk, a query of the store's
    dimension and a positive [k] give exactly [min(k, stored)] pairs in
    descending order of score. *)
Theorem search_empty_or_top_k (self : VectorStore.t) (q : Faiss.vector)
        (k : Z) :
  (stored_count self = 0 -> VectorStore.search self q k = Py.Ok [])
  /\ (0 < stored_count self -> aligned self -> query_fits self q ->
      (1 <= k)%Z ->
      exists results,
        VectorStore.search self q k = Py.Ok results
        /\ List.length results = Nat.min (Z.to_nat k) (stored_count self)
        /\ descending (map snd results)).
Proof.
  unfold aligned, query_fits, stored_count, VectorStore.search.
  destruct (VectorStore.index self) as [idx|].
  - split.
    + intros ->. reflexivity.
    + intros Hpos Hal Hq Hk.
      destruct (Nat.eqb_spec (Faiss.ntotal idx) 0) as [E | _]; [lia|].
      unfold Faiss.search.
      cbn [Faiss.ncols Faiss.normalize_rows Faiss.rows
           VectorStore.reshape_row map].
      rewrite Hq, Nat.eqb_refl. cbn [negb].
      destruct (Z.leb_spec (Z.min k (Z.of_nat (Faiss.ntotal idx))) 0);
        [lia|].
      cbn [Py.bind].
      destruct (search_row_spec idx (Z.min k (Z.of_nat (Faiss.ntotal idx)))
                                (Faiss.normalize_L2 q)) as (Hlen & Hs & Hlab);
        [lia|].
      destruct (collect_results_ok (VectorStore.metadata self) _
                  ltac:(rewrite Hal; exact Hlab) []) as (out & Ho & Hm).
      exists out. cbn [app] in Ho. split; [exact Ho|]. split.
      * rewrite <- (length_map snd), Hm, length_map, Hlen. lia.
      * rewrite Hm. exact Hs.
  - split; [reflexivity | lia].
Qed.

End Store.

Lemma search_empty_or_top_k_witness :
  0 < Props.stored_count Samples.store_ab
  /\ Props.aligned Samples.store_ab
  /\ Props.query_fits Samples.store_ab Samples.e1
  /\ exists results,
       @VectorStore.search Samples.unit_kernel Samples.store_ab Samples.e1 1
       = Py.Ok results
       /\ List.length results
          = Nat.min (Z.to_nat 1) (Props.stored_count Samples.store_ab)
       /\ Props.descending (map snd results).
Proof.
  assert (Hpos : 0 < Props.stored_count Samples.store_ab)
    by (apply Nat.ltb_lt; reflexivity).
  assert (Hal : Props.aligned Samples.store_ab) by reflexivity.
  assert (Hq : Props.query_fits Samples.store_ab Samples.e1) by reflexivity.
  repeat (split; [assumption|]).
  apply (proj2 (@search_empty_or_top_k Samples.unit_kernel Samples.store_ab
                  Samples.e1 1) Hpos Hal Hq).
  apply Z.leb_le. reflexivity.
Defined.

Example search_store_ab :
  @VectorStore.search Samples.unit_kernel Samples.store_ab Samples.e2 5
  = Py.Ok [(Samples.chunk_b, 1%Q); (Samples.chunk_a, 0%Q)].
Proof. vm_compute. reflexivity. Qed.

(** C7 as stated fails outside the index's own conditions: on a store that
    holds two vectors, each with its chunk, the index refuses [k = 0] and
    [k = -1] by its assertion on [k], and a query of three components by its
    assertion on the dimension, so [search] raises instead of returning
    [min(k, 2)] pairs. *)
Lemma search_nonpositive_k_counterexample :
  0 < Props.stored_count Samples.store_ab
  /\ Props.aligned Samples.store_ab
  /\ Props.query_fits Samples.store_ab Samples.e1
  /\ @VectorStore.search Samples.unit_kernel Samples.store_ab Samples.e1 0
     = Py.Raise Py.AssertionError
  /\ @VectorStore.search Samples.unit_kernel Samples.store_ab Samples.e1 (-1)
     = Py.Raise Py.AssertionError
  /\ @VectorStore.search Samples.unit_kernel Samples.store_ab
       [1%Q; 0%Q; 0%Q] 5
     = Py.Raise Py.AssertionError
  /\ ~ (exists results,
          @VectorStore.search Samples.unit_kernel Samples.store_ab
            Samples.e1 0 = Py.Ok results
          /\ Z.of_nat (List.length results)
             = Z.min 0 (Z.of_nat (Props.stored_count Samples.store_ab))).
Proof.
  assert (H0 : @VectorStore.search Samples.unit_kernel Samples.store_ab
                 Samples.e1 0 = Py.Raise Py.AssertionError)
    by (vm_compute; reflexivity).
  split; [apply Nat.ltb_lt; reflexivity|].
  split; [reflexivity|]. split; [reflexivity|].
  split; [exact H0|]. split; [vm_compute; reflexivity|].
  split; [vm_compute; reflexivity|].
  intros (results & Hr & _). rewrite H0 in Hr. discriminate Hr.
Qed.

(** On an empty store nothing is compared: any [k] and any query give the
    empty list. *)
Example search_empty_store :
  @VectorStore.search Samples.unit_kernel Samples.empty_store
    [1%Q; 0%Q; 0%Q] 0
  = Py.Ok [].
Proof. reflexivity. Qed.

Section AddEmbeddings.
Import Retriever Props.
Context `{Faiss.Kernel}.

(** X7.  A second dimension other than the index's makes [index.add] fail its
    assertion: the call raises, and neither a vector nor a chunk is added. *)
Lemma add_embeddings_wrong_dimension (self : VectorStore.t)
      (embeddings : Faiss.ndarray) (chunks : list WikipediaChunk) :
  Faiss.ncols embeddings <> index_dim self ->
  snd (VectorStore.add_embeddings self embeddings chunks)
  = Py.Raise Py.AssertionError
  /\ VectorStore.metadata
       (fst (VectorStore.add_embeddings self embeddings chunks))
     = VectorStore.metadata self
  /\ stored_count (fst (VectorStore.add_embeddings self embeddings chunks))
     = stored_count self.
Proof.
  unfold index_dim, stored_count, VectorStore.add_embeddings, Faiss.add.
  cbn [Faiss.normalize_rows Faiss.ncols].
  intros Hd. destruct (VectorStore.index self) as [idx|];
    cbn [Faiss.d]; apply Nat.eqb_neq in Hd; rewrite Hd; auto.
Qed.

(** With the right second dimension the call succeeds whatever the two
    lengths are: every row goes into the index and every chunk into the
    chunk list; the number of rows is never compared with the number of
    chunks. *)
Lemma add_embeddings_lengths_unchecked (self : VectorStore.t)
      (embeddings : Faiss.ndarray) (chunks : list WikipediaChunk) :
  Faiss.ncols embeddings = index_dim self ->
  snd (VectorStore.add_embeddings self embeddings chunks) = Py.Ok tt
  /\ VectorStore.metadata
       (fst (VectorStore.add_embeddings self embeddings chunks))
     = VectorStore.metadata self ++ chunks
  /\ stored_count (fst (VectorStore.add_embeddings self embeddings chunks))
     = stored_count self + List.length (Faiss.rows embeddings).
Proof.
  unfold index_dim, stored_count, VectorStore.add_embeddings, Faiss.add.
  cbn [Faiss.normalize_rows Faiss.ncols Faiss.rows].
  intros Hd. destruct (VectorStore.index self) as [idx|];
    cbn [Faiss.d Faiss.xb]; rewrite Hd, Nat.eqb_refl;
    cbn [fst snd VectorStore.metadata VectorStore.index];
    unfold Faiss.ntotal; cbn [Faiss.xb];
    rewrite ?length_app, ?length_map; auto.
Qed.

End AddEmbeddings.

(** C2 at a failing input.  Two vectors of the right dimension with a single
    chunk: [add_embeddings] returns normally, the index then holds two
    vectors and the chunk list one chunk, and a later [search] that reaches
    the second vector raises [IndexError]. *)
Lemma add_embeddings_accepts_length_mismatch :
  let after :=
    @VectorStore.add_embeddings Samples.unit_kernel Samples.empty_store
                                Samples.two_rows [Samples.chunk_a] in
  snd after = Py.Ok tt
  /\ Props.stored_count (fst after) = 2
  /\ List.length (VectorStore.metadata (fst after)) = 1
  /\ @VectorStore.search Samples.unit_kernel (fst after) Samples.e2 2
     = Py.Raise Py.IndexError.
Proof. vm_compute. repeat split; reflexivity. Qed.

(** The other half of C2 at an input: a vector of three components offered
    to a store of dimension two is refused, by an [AssertionError]. *)
Example add_embeddings_refuses_wide_row :
  @VectorStore.add_embeddings Samples.unit_kernel Samples.store_ab
                              Samples.wide_row [Samples.chunk_a]
  = (Samples.store_ab, Py.Raise Py.AssertionError).
Proof. vm_compute. reflexivity. Qed.

(* ================================================================== *)
(** * [retrieve_and_chunk] and [retrieve_context]                       *)
(* ================================================================== *)

Section Fetcher.
Import Retriever.

(** X5.  The fetcher raises exactly when the Wikipedia search raises something
    that is not a [WikipediaException]; page failures never leave it. *)
Lemma retrieve_and_chunk_raises (api : WikipediaAPI) (query : string)
      (e : Py.exn) :
  retrieve_and_chunk api query = Py.Raise e
  <-> wikipedia_search api query Config.WIKIPEDIA_SEARCH_RESULTS = Py.Raise e
      /\ Py.is_WikipediaException e = false.
Proof.
  unfold retrieve_and_chunk, search_wikipedia.
  destruct (wikipedia_search api query _) as [titles | e'];
    cbn [Py.bind].
  - split; [| intros [? _]; discriminate].
    destruct titles; discriminate.
  - destruct (Py.is_WikipediaException e') eqn:E; cbn [Py.bind].
    + split; [discriminate|]. intros [He Hf]. inversion He; subst. congruence.
    + split; [intros He; inversion He; subst; auto
             | intros [He _]; inversion He; reflexivity].
Qed.

(** A search that fails with a [WikipediaException] counts as no result. *)
Lemma retrieve_and_chunk_search_error (api : WikipediaAPI) (query : string)
      (e : Py.exn) :
  wikipedia_search api query Config.WIKIPEDIA_SEARCH_RESULTS = Py.Raise e ->
  Py.is_WikipediaException e = true ->
  retrieve_and_chunk api query = Py.Ok [].
Proof.
  unfold retrieve_and_chunk, search_wikipedia. intros -> ->. reflexivity.
Qed.

(** The example of the docstring of [clean_text]. *)
Example clean_text_citations :
  clean_text
    "Python[1] is a programming language[2]. It was created in 1991[3]."
  = "Python is a programming language. It was created in 1991."%string.
Proof. reflexivity. Qed.

Example clean_text_whitespace :
  clean_text "  a [x] b[12 c   d[]  " = "a [x] b[12 c d[]"%string.
Proof. reflexivity. Qed.

End Fetcher.

Section Policy.
Import Retriever Props Rag.
Context `{Faiss.Kernel}.

Lemma split_fst_snd {A B} (l : list (A * B)) :
  split l = (map fst l, map snd l).
Proof.
  induction l as [|[a b] l IH]; simpl; [reflexivity|]. now rewrite IH.
Qed.

Lemma combine_map_fst_snd {A B} (l : list (A * B)) :
  combine (map fst l) (map snd l) = l.
Proof. induction l as [|[a b] l IH]; simpl; [reflexivity | now rewrite IH]. Qed.

(** The filter step, on the two lists of a result list, is the filter on the
    result list. *)
Lemma filter_by_threshold_split (l : list (WikipediaChunk * Q)) :
  filter_by_threshold (map fst l) (map snd l)
  = split (filter above_threshold l).
Proof.
  unfold filter_by_threshold.
  destruct l as [|x l]; [reflexivity|].
  cbn [map is_empty negb andb]. rewrite <- !map_cons, combine_map_fst_snd.
  fold above_threshold.
  destruct (filter above_threshold (x :: l)); reflexivity.
Qed.

(** [max_score] is the maximum: one of the scores, and no score is above
    it. *)
Lemma max_score_fold (rest : list Q) :
  forall m,
    let r := fold_left (fun m x => if Qle_bool x m then m else x) rest m in
    (r = m \/ In r rest)
    /\ (m <= r)%Q
    /\ Forall (fun x => (x <= r)%Q) rest.
Proof.
  induction rest as [|x rest IH]; intros m; cbn [fold_left].
  - split; [now left|]. split; [apply Qle_refl | constructor].
  - destruct (Qle_bool x m) eqn:E.
    + apply Qle_bool_iff in E.
      destruct (IH m) as (Hin & Hm & Hall).
      split; [destruct Hin; [now left | right; now right]|].
      split; [exact Hm|].
      constructor; [eapply Qle_trans; eauto | exact Hall].
    + assert (Hlt : (m < x)%Q).
      { apply Qnot_le_lt. intros Hle. apply Qle_bool_iff in Hle. congruence. }
      destruct (IH x) as (Hin & Hx & Hall).
      split; [right; destruct Hin as [-> | Hin]; [now left | now right]|].
      split; [eapply Qle_trans; [apply Qlt_le_weak; exact Hlt | exact Hx]|].
      constructor; [exact Hx | exact Hall].
Qed.

Lemma max_score_is_max (s : Q) (rest : list Q) :
  In (max_score (s :: rest)) (s :: rest)
  /\ Forall (fun x => (x <= max_score (s :: rest))%Q) (s :: rest).
Proof.
  unfold max_score. destruct (max_score_fold rest s) as (Hin & Hs & Hall).
  split.
  - destruct Hin as [-> | Hin]; [now left | now right].
  - constructor; assumption.
Qed.

Lemma needs_auto_index_confident (first : list (WikipediaChunk * Q)) :
  needs_auto_index (map fst first) (map snd first) = false <-> confident first.
Proof.
  unfold needs_auto_index, confident, Qlt_bool.
  destruct first as [|x l].
  - cbn. split; [discriminate | intros [Hne _]; now elim Hne].
  - cbn [map is_empty negb orb andb]. rewrite negb_false_iff, Qle_bool_iff.
    split; [intros Hq; split; [discriminate | exact Hq] | now intros [_ Hq]].
Qed.

Lemma retrieve_context_unfold (self : WikipediaRAG) (query : string)
      (st : state) (qe : Faiss.vector) (first : list (WikipediaChunk * Q)) :
  Embedding.embed_query (embedding_model self) query = Py.Ok qe ->
  VectorStore.search (vector_store st) qe Config.TOP_K_RETRIEVAL
  = Py.Ok first ->
  retrieve_context self query st
  = if needs_auto_index (map fst first) (map snd first)
    then match auto_index self query qe (map fst first) (map snd first) st
         with
         | (st', Py.Ok (c, s)) => (st', Py.Ok (filter_by_threshold c s))
         | (st', Py.Raise e) => (st', Py.Raise e)
         end
    else (st, Py.Ok (split (filter above_threshold first))).
Proof.
  intros Hq Hs. unfold retrieve_context, bindM, lift, read_store.
  rewrite Hq, Hs.
  assert (Hsplit : (if negb (is_empty first) then split first else ([], []))
                   = (map fst first, map snd first)).
  { destruct first; [reflexivity | cbn [is_empty negb]; apply split_fst_snd]. }
  rewrite Hsplit.
  destruct (needs_auto_index (map fst first) (map snd first)).
  - destruct (auto_index self query qe (map fst first) (map snd first) st)
      as [st' [[c s] | e]]; reflexivity.
  - unfold ret. now rewrite filter_by_threshold_split.
Qed.

(** The re-indexing branch starts by calling the fetcher. *)
Lemma auto_index_calls (self : WikipediaRAG) (query : string)
      (qe : Faiss.vector) (c : list WikipediaChunk) (s : list Q) (st : state) :
  exists more,
    calls (fst (auto_index self query qe c s st))
    = calls st ++ Fetch query :: more.
Proof.
  unfold auto_index, bindM, lift, log, with_store, read_store, ret.
  cbn [vector_store calls].
  destruct (retrieve_and_chunk _ query) as [new | e]; [| trace_tail].
  destruct new as [|n new]; cbn [is_empty negb]; [trace_tail|].
  destruct (Embedding.embed_passages _ _) as [emb | e]; [| trace_tail].
  destruct (VectorStore.add_embeddings _ emb _) as [vs [[] | e]];
    [| trace_tail].
  cbn [vector_store calls].
  destruct (save_index self vs) as [[] | e]; [| trace_tail].
  destruct (VectorStore.search vs qe _) as [res | e]; [| trace_tail].
  destruct res; trace_tail.
Qed.

(** What the re-indexing branch hands to the filter when it returns: the
    results of the first search, or the non-empty results of a second search
    on the store as the call leaves it. *)
Lemma auto_index_returns (self : WikipediaRAG) (query : string)
      (qe : Faiss.vector) (c : list WikipediaChunk) (s : list Q)
      (st st' : state) (c' : list WikipediaChunk) (s' : list Q) :
  auto_index self query qe c s st = (st', Py.Ok (c', s')) ->
  (c', s') = (c, s)
  \/ exists searched,
       searched <> []
       /\ VectorStore.search (vector_store st') qe Config.TOP_K_RETRIEVAL
          = Py.Ok searched
       /\ (c', s') = split searched.
Proof.
  unfold auto_index, bindM, lift, log, with_store, read_store, ret.
  cbn [vector_store calls].
  destruct (retrieve_and_chunk _ query) as [new | e]; [| discriminate].
  destruct new as [|n new]; cbn [is_empty negb].
  { intros Heq. inversion Heq. now left. }
  destruct (Embedding.embed_passages _ _) as [emb | e]; [| discriminate].
  destruct (VectorStore.add_embeddings _ emb _) as [vs [[] | e]];
    [| discriminate].
  cbn [vector_store calls].
  destruct (save_index self vs) as [[] | e]; [| discriminate].
  destruct (VectorStore.search vs qe _) as [res | e] eqn:Es; [| discriminate].
  destruct res as [|r res]; cbn [is_empty negb].
  - intros Heq. inversion Heq. now left.
  - intros Heq. inversion Heq; subst. right.
    exists (r :: res). cbn [vector_store].
    split; [discriminate | split; [exact Es | reflexivity]].
Qed.







(** C1, as the code has it.  On the re-indexing path nothing is caught in
    [retrieve_context]: an exception that leaves the fetcher, or the
    embedding of the new chunks, ends the call with that exception, the store
    as it was.  The call goes on with the results of the first search only
    when the fetcher returns no chunk. *)
Theorem retrieve_context_reindex_failures (self : WikipediaRAG)
        (query : string) (st : state) (qe : Faiss.vector)
        (first : list (WikipediaChunk * Q)) :
  Embedding.embed_query (embedding_model self) query = Py.Ok qe ->
  VectorStore.search (vector_store st) qe Config.TOP_K_RETRIEVAL
  = Py.Ok first ->
  ~ confident first ->
  (forall e,
      retrieve_and_chunk (wikipedia_retriever self) query = Py.Raise e ->
      retrieve_context self query st
      = (mkState (vector_store st) (calls st ++ [Fetch query]), Py.Raise e))
  /\ (forall new e,
        retrieve_and_chunk (wikipedia_retriever self) query = Py.Ok new ->
        new <> [] ->
        Embedding.embed_passages (embedding_model self) (map text new)
        = Py.Raise e ->
        retrieve_context self query st
        = (mkState (vector_store st)
                   ((calls st ++ [Fetch query])
                    ++ [EmbedPassages (map text new)]),
           Py.Raise e))
  /\ (retrieve_and_chunk (wikipedia_retriever self) query = Py.Ok [] ->
      retrieve_context self query st
      = (mkState (vector_store st) (calls st ++ [Fetch query]),
         Py.Ok (split (filter above_threshold first)))).
Proof.
  intros Hq Hs Hnc.
  rewrite (retrieve_context_unfold self query st qe first Hq Hs).
  destruct (needs_auto_index (map fst first) (map snd first)) eqn:En;
    [| now apply needs_auto_index_confident in En].
  unfold auto_index, bindM, lift, log, with_store, read_store, ret.
  cbn [vector_store calls].
  split; [| split].
  - intros e ->. reflexivity.
  - intros new e -> Hne He. destruct new as [|n new]; [now elim Hne|].
    cbn [is_empty negb]. rewrite He. reflexivity.
  - intros ->. cbn [is_empty negb]. now rewrite filter_by_threshold_split.
Qed.

End Policy.


(** An index that already answers the query well is used as it is. *)
Example retrieve_context_confident_example :
  @Rag.retrieve_context Samples.unit_kernel Samples.rag_offline "alpha"
                        Samples.state_ab
  = (Samples.state_ab, Py.Ok ([Samples.chunk_a], [1%Q])).
Proof. vm_compute. reflexivity. Qed.

(** The scenario of the specification in small: an empty index, a fetcher
    that brings one chunk, and the call returns that chunk after indexing
    it. *)
Example retrieve_context_indexes_new_content :
  let out := @Rag.retrieve_context Samples.unit_kernel Samples.rag_one_page
                                   "alpha" Samples.fresh_state in
  snd out
  = Py.Ok ([Retriever.mkChunk "Alpha." "A" "https://en.wikipedia.org/wiki/A"
                              0 0 6], [1%Q])
  /\ Props.stored_count (Rag.vector_store (fst out)) = 1
  /\ Rag.calls (fst out)
     = [Rag.Fetch "alpha"; Rag.EmbedPassages ["Alpha."%string]; Rag.SaveIndex].
Proof. vm_compute. repeat split; reflexivity. Qed.

Lemma retrieve_context_reindex_failures_witness :
  Embedding.embed_query (Rag.embedding_model Samples.rag_batch_fails) "alpha"
  = Py.Ok Samples.e1
  /\ @VectorStore.search Samples.unit_kernel
       (Rag.vector_store Samples.fresh_state) Samples.e1
       Config.TOP_K_RETRIEVAL
     = Py.Ok []
  /\ ~ Props.confident []
  /\ (Retriever.retrieve_and_chunk
        (Rag.wikipedia_retriever Samples.rag_batch_fails) "alpha"
      = Py.Ok [] ->
      @Rag.retrieve_context Samples.unit_kernel Samples.rag_batch_fails
                            "alpha" Samples.fresh_state
      = (Rag.mkState (Rag.vector_store Samples.fresh_state)
                     (Rag.calls Samples.fresh_state ++ [Rag.Fetch "alpha"]),
         Py.Ok (split (filter Props.above_threshold [])))).
Proof.
  assert (Hq : Embedding.embed_query
                 (Rag.embedding_model Samples.rag_batch_fails) "alpha"
               = Py.Ok Samples.e1) by reflexivity.
  assert (Hs : @VectorStore.search Samples.unit_kernel
                 (Rag.vector_store Samples.fresh_state) Samples.e1
                 Config.TOP_K_RETRIEVAL
               = Py.Ok []) by reflexivity.
  assert (Hn : ~ Props.confident []) by (intros [Hne _]; now apply Hne).
  split; [exact Hq|]. split; [exact Hs|]. split; [exact Hn|].
  exact (proj2 (proj2 (@retrieve_context_reindex_failures Samples.unit_kernel
                         Samples.rag_batch_fails "alpha" Samples.fresh_state
                         Samples.e1 [] Hq Hs Hn))).
Defined.

(** C1 as stated fails: with an empty index the policy enters the
    re-indexing path, the fetcher brings one chunk, the embedding of that
    chunk fails, and the exception comes out of [retrieve_context]. *)
Lemma retrieve_context_failure_escapes :
  @VectorStore.search Samples.unit_kernel
    (Rag.vector_store Samples.fresh_state) Samples.e1 Config.TOP_K_RETRIEVAL
  = Py.Ok []
  /\ Rag.needs_auto_index [] [] = true
  /\ @Rag.retrieve_context Samples.unit_kernel Samples.rag_batch_fails
       "alpha" Samples.fresh_state
     = (Rag.mkState Samples.empty_store
                    [Rag.Fetch "alpha"; Rag.EmbedPassages ["Alpha."%string]],
        Py.Raise Py.RuntimeError)
  /\ ~ (exists st' chunks scores,
          @Rag.retrieve_context Samples.unit_kernel Samples.rag_batch_fails
            "alpha" Samples.fresh_state
          = (st', Py.Ok (chunks, scores))).
Proof.
  assert (Hb : @Rag.retrieve_context Samples.unit_kernel
                 Samples.rag_batch_fails "alpha" Samples.fresh_state
               = (Rag.mkState Samples.empty_store
                    [Rag.Fetch "alpha"; Rag.EmbedPassages ["Alpha."%string]],
                  Py.Raise Py.RuntimeError)) by (vm_compute; reflexivity).
  split; [reflexivity|]. split; [reflexivity|]. split; [exact Hb|].
  intros (st' & chunks & scores & Heq). rewrite Hb in Heq. discriminate Heq.
Qed.

(** A search that cannot reach Wikipedia fails with an exception that is
    not a [WikipediaException]; it passes through [search_wikipedia] and
    [retrieve_and_chunk] and leaves [retrieve_context] as well. *)
Example retrieve_context_offline :
  @Rag.retrieve_context Samples.unit_kernel Samples.rag_offline
    "alpha" Samples.fresh_state
  = (Rag.mkState Samples.empty_store [Rag.Fetch "alpha"],
     Py.Raise Py.ConnectionError).
Proof. vm_compute. reflexivity. Qed.

(** A fetcher that finds nothing leaves the call with what the first search
    gave, here nothing. *)
Example retrieve_context_no_results :
  @Rag.retrieve_context Samples.unit_kernel Samples.rag_no_results
    "alpha" Samples.fresh_state
  = (Rag.mkState Samples.empty_store [Rag.Fetch "alpha"], Py.Ok ([], [])).
Proof. vm_compute. reflexivity. Qed.

(* ================================================================== *)
(** * [MemoryManager.prepare_context]                                   *)
(* ================================================================== *)

Section MemoryFacts.
Import Props Memory.
Variable self : MemoryManager.

Lemma count_tokens_nonneg (txt : string) : (0 <= count_tokens self txt)%Z.
Proof.
  unfold count_tokens, fallback_count.
  destruct (encoder self) as [enc|]; [destruct (enc txt)|]; lia.
Qed.

Lemma count_message_tokens_pos (m : ChatMessage) :
  (4 <= count_message_tokens self m)%Z.
Proof.
  unfold count_message_tokens.
  pose proof (count_tokens_nonneg (content m)).
  destruct (name m) as [n|]; [| lia].
  pose proof (count_tokens_nonneg n). destruct (Py.truthy n); lia.
Qed.

Lemma messages_cost_nonneg (l : list ChatMessage) :
  (0 <= messages_cost self l)%Z.
Proof.
  induction l as [|m l IH]; simpl; [lia|].
  pose proof (count_message_tokens_pos m). lia.
Qed.

Lemma messages_cost_app (l1 l2 : list ChatMessage) :
  messages_cost self (l1 ++ l2)
  = (messages_cost self l1 + messages_cost self l2)%Z.
Proof. induction l1 as [|m l1 IH]; simpl; [reflexivity | rewrite IH; lia]. Qed.

(** The reported total is the sum of the per-message costs plus 10. *)
Lemma count_messages_tokens_sum (l : list ChatMessage) :
  count_messages_tokens self l = (messages_cost self l + 10)%Z.
Proof.
  unfold count_messages_tokens. f_equal.
  assert (G : forall acc,
             fold_left (fun total message =>
                          (total + count_message_tokens self message)%Z) l acc
             = (acc + messages_cost self l)%Z).
  { induction l as [|m l IH]; intros acc; simpl; [lia | rewrite IH; lia]. }
  now rewrite G.
Qed.

(** The selection loop: what it returns extends [result] at the front, and
    the tokens it counts are those of what it holds. *)
Lemma take_recent_spec (reversed : list ChatMessage) (available : Z) :
  forall used result,
    messages_cost self result = used ->
    exists taken,
      take_recent self reversed available used result = taken ++ result
      /\ (taken = [] \/ (used + messages_cost self taken <= available)%Z).
Proof.
  induction reversed as [|m older IH]; intros used result Hu; simpl.
  - exists []. auto.
  - destruct (Z.leb_spec (used + count_message_tokens self m) available)
      as [Hfit | Hover].
    + destruct (IH (used + count_message_tokens self m)%Z (m :: result))
        as (taken & Heq & Hb).
      * simpl. lia.
      * exists (taken ++ [m]). rewrite Heq, <- app_assoc. split; [reflexivity|].
        right. rewrite messages_cost_app. simpl.
        destruct Hb as [-> | Hb]; simpl; lia.
    + exists []. auto.
Qed.

Lemma last_opt_app_cons {A} (l r : list A) (a : A) :
  Props.last_opt (l ++ a :: r) = Props.last_opt (a :: r).
Proof.
  induction l as [|b l IH]; [reflexivity|].
  simpl. destruct (l ++ a :: r) eqn:E; [now destruct l | exact IH].
Qed.

(** The newest message is kept whenever it fits the budget by itself. *)
Lemma take_recent_keeps_newest (m : ChatMessage) (older : list ChatMessage)
      (available : Z) :
  (count_message_tokens self m <= available)%Z ->
  Props.last_opt (take_recent self (m :: older) available 0 []) = Some m.
Proof.
  intros Hfit. cbn [take_recent]. rewrite Z.add_0_l.
  destruct (Z.leb_spec (count_message_tokens self m) available); [| lia].
  destruct (take_recent_spec older available
              (count_message_tokens self m) [m]) as (taken & -> & _).
  - simpl. lia.
  - apply last_opt_snoc.
Qed.

Lemma messages_cost_skipn (n : nat) (l : list ChatMessage) :
  (messages_cost self (skipn n l) <= messages_cost self l)%Z.
Proof.
  rewrite <- (firstn_skipn n l) at 2. rewrite messages_cost_app.
  pose proof (messages_cost_nonneg (firstn n l)). lia.
Qed.

Lemma last_opt_skipn {A} (n : nat) (l : list A) :
  n < List.length l -> Props.last_opt (skipn n l) = Props.last_opt l.
Proof.
  revert n. induction l as [|a l IH]; intros [|n] Hn; simpl in *; try lia;
    try reflexivity.
  rewrite IH by lia. destruct l; [simpl in Hn; lia | reflexivity].
Qed.

(** The cap on the history: with [0 < max_history] the slice keeps the last
    [max_history] messages. *)
Lemma slice_from_last (l : list ChatMessage) (mh : Z) :
  (0 < mh < Z.of_nat (List.length l))%Z ->
  Py.slice_from l (- mh) = skipn (List.length l - Z.to_nat mh) l.
Proof.
  intros Hm. unfold Py.slice_from.
  destruct (Z.ltb_spec (- mh) 0); [| lia].
  f_equal. lia.
Qed.

(** What [_apply_truncation_strategy] returns costs no more than the budget
    (nothing, when the budget is negative), has at most [max_history]
    messages, and ends with the newest message when that fits the budget. *)
Lemma apply_truncation_strategy_spec (messages : list ChatMessage)
      (available : Z) :
  (0 < max_history (config self))%Z ->
  let kept := _apply_truncation_strategy self messages available in
  (messages_cost self kept <= Z.max 0 available)%Z
  /\ (Z.of_nat (List.length kept) <= max_history (config self))%Z
  /\ (forall m, Props.last_opt messages = Some m ->
                (count_message_tokens self m <= available)%Z ->
                Props.last_opt kept = Some m).
Proof.
  intros Hmh. unfold _apply_truncation_strategy.
  destruct messages as [|m0 ms] eqn:Em; [simpl; repeat split; [lia.. | discriminate]|].
  rewrite <- Em. clear Em m0 ms.
  set (taken := take_recent self (rev messages) available 0 []).
  assert (Hcost : (messages_cost self taken <= Z.max 0 available)%Z).
  { destruct (take_recent_spec (rev messages) available 0%Z [] eq_refl)
      as (tk & Heq & Hb). fold taken in Heq. rewrite app_nil_r in Heq. subst tk.
    destruct Hb as [-> | Hb]; simpl; lia. }
  assert (Hnew : forall m, Props.last_opt messages = Some m ->
                   (count_message_tokens self m <= available)%Z ->
                   Props.last_opt taken = Some m).
  { intros m Hl Hfit. unfold taken.
    destruct (rev messages) as [|r rs] eqn:Er.
    - apply (f_equal (@rev _)) in Er. rewrite rev_involutive in Er.
      subst messages. discriminate.
    - apply (f_equal (@rev _)) in Er. rewrite rev_involutive in Er.
      simpl in Er. subst messages.
      rewrite last_opt_snoc in Hl. inversion Hl; subst.
      now apply take_recent_keeps_newest. }
  destruct (Z.ltb_spec (max_history (config self))
                       (Z.of_nat (List.length taken))) as [Hcap | Hno].
  - rewrite slice_from_last by lia.
    split; [| split].
    + pose proof (messages_cost_skipn
                    (List.length taken - Z.to_nat (max_history (config self)))
                    taken). lia.
    + rewrite length_skipn. lia.
    + intros m Hl Hfit. rewrite last_opt_skipn by lia. auto.
  - auto.
Qed.

(** The system prompt, when given and not empty, becomes the one message in
    front of the history. *)
Lemma system_part (system_prompt : option string)
      (sys : list ChatMessage) :
  match system_prompt with
  | Some prompt =>
      if Py.truthy prompt
      then system_message <- new_ChatMessage SYSTEM prompt None ;;
           Py.Ok [system_message]
      else Py.Ok []
  | None => Py.Ok []
  end = Py.Ok sys ->
  sys = [] \/ exists m, sys = [m] /\ role m = SYSTEM.
Proof.
  destruct system_prompt as [prompt|]; [| intros E; inversion E; now left].
  destruct (Py.truthy prompt); [| intros E; inversion E; now left].
  unfold new_ChatMessage.
  destruct (_ || _); [discriminate|].
  destruct (negb _); [discriminate|].
  cbn [Py.bind]. intros E. inversion E. right. eauto.
Qed.

(** X23.  The budget, in full.  When [prepare_context] returns, the list is the
    system message (if any) followed by the history that was kept; the
    reported total is the sum of the per-message costs plus 10; if the system
    message fits the window by itself, the per-message costs add up to at most
    [context_window_tokens], so the reported total is at most
    [context_window_tokens + 10]; at most [max_history] messages of the
    history are kept; and the newest message that is not deleted is the last
    one returned whenever its cost fits the window less the system message. *)
Theorem prepare_context_within_budget (messages : list Message)
        (system_prompt : option string) (chat : list ChatMessage)
        (total : Z) :
  valid_config (config self) ->
  prepare_context self messages system_prompt = Py.Ok (chat, total) ->
  exists sys all kept,
    chat = sys ++ kept
    /\ (sys = [] \/ exists m, sys = [m] /\ role m = SYSTEM)
    /\ convert_messages messages [] = Py.Ok all
    /\ total = (messages_cost self chat + 10)%Z
    /\ ((messages_cost self sys <= context_window_tokens (config self))%Z ->
        (messages_cost self chat <= context_window_tokens (config self))%Z
        /\ (total <= context_window_tokens (config self) + 10)%Z)
    /\ (Z.of_nat (List.length kept) <= max_history (config self))%Z
    /\ (forall m,
          Props.last_opt all = Some m ->
          (count_message_tokens self m
           <= context_window_tokens (config self) - messages_cost self sys)%Z ->
          Props.last_opt chat = Some m).
Proof.
  intros [Hmh Hcw]. unfold prepare_context.
  destruct (match system_prompt with Some _ => _ | None => _ end)
    as [sys | e] eqn:Esys; [| discriminate].
  apply system_part in Esys.
  cbn [Py.bind].
  destruct (convert_messages messages []) as [all | e]; [| discriminate].
  cbn [Py.bind]. intros E. injection E as Hchat Htotal.
  set (budget := (context_window_tokens (config self)
                   - match sys with
                     | first :: _ => count_message_tokens self first
                     | [] => 0
                     end)%Z) in *.
  assert (Hb : budget
               = (context_window_tokens (config self)
                  - messages_cost self sys)%Z).
  { unfold budget. destruct Esys as [-> | (m & -> & _)]; simpl; lia. }
  destruct (apply_truncation_strategy_spec all budget Hmh)
    as (Hcost & Hlen & Hnew).
  exists sys, all, (_apply_truncation_strategy self all budget).
  split; [now symmetry|]. split; [exact Esys|]. split; [reflexivity|].
  split; [now rewrite <- Htotal, <- Hchat, count_messages_tokens_sum|].
  split; [| split].
  - intros Hsys. rewrite <- Htotal, <- Hchat, count_messages_tokens_sum.
    rewrite messages_cost_app. lia.
  - exact Hlen.
  - intros m Hl Hfit. rewrite <- Hb in Hfit. specialize (Hnew m Hl Hfit).
    rewrite <- Hchat.
    destruct (_apply_truncation_strategy self all budget) as [|k ks];
      [discriminate|].
    now rewrite last_opt_app_cons.
Qed.

End MemoryFacts.

Lemma prepare_context_within_budget_witness :
  Memory.valid_config (Memory.config Samples.manager_20)
  /\ Memory.prepare_context Samples.manager_20 Samples.history_two None
     = Py.Ok ([Memory.mkChat Memory.USER (Samples.replicate 48 "b") None None],
              26%Z)
  /\ exists sys all kept,
       [Memory.mkChat Memory.USER (Samples.replicate 48 "b") None None]
       = sys ++ kept
       /\ (sys = [] \/ exists m, sys = [m] /\ Memory.role m = Memory.SYSTEM)
       /\ Memory.convert_messages Samples.history_two [] = Py.Ok all
       /\ 26%Z
          = (Props.messages_cost Samples.manager_20
               [Memory.mkChat Memory.USER (Samples.replicate 48 "b") None None]
             + 10)%Z
       /\ ((Props.messages_cost Samples.manager_20 sys
            <= Memory.context_window_tokens
                 (Memory.config Samples.manager_20))%Z ->
           (Props.messages_cost Samples.manager_20
              [Memory.mkChat Memory.USER (Samples.replicate 48 "b") None None]
            <= Memory.context_window_tokens
                 (Memory.config Samples.manager_20))%Z
           /\ (26 <= Memory.context_window_tokens
                       (Memory.config Samples.manager_20) + 10)%Z)
       /\ (Z.of_nat (List.length kept)
           <= Memory.max_history (Memory.config Samples.manager_20))%Z
       /\ (forall m,
             Props.last_opt all = Some m ->
             (Memory.count_message_tokens Samples.manager_20 m
              <= Memory.context_window_tokens
                   (Memory.config Samples.manager_20)
                 - Props.messages_cost Samples.manager_20 sys)%Z ->
             Props.last_opt
               [Memory.mkChat Memory.USER (Samples.replicate 48 "b") None None]
             = Some m).
Proof.
  assert (Hv : Memory.valid_config (Memory.config Samples.manager_20))
    by (split; reflexivity).
  assert (Hp : Memory.prepare_context Samples.manager_20 Samples.history_two
                                      None
               = Py.Ok ([Memory.mkChat Memory.USER (Samples.replicate 48 "b")
                                       None None], 26%Z))
    by (vm_compute; reflexivity).
  split; [exact Hv|]. split; [exact Hp|].
  exact (prepare_context_within_budget Samples.manager_20 Samples.history_two
           None _ _ Hv Hp).
Defined.

(** C3 at a failing input.  With the default window of 4096 tokens and two
    messages of 16 and 4094 tokens, the history alone overflows the window;
    the call keeps the newer message and reports 4104 tokens.  With a system
    prompt of 4104 tokens the same call keeps no history and reports 4114
    tokens. *)
Lemma prepare_context_reports_more_than_window :
  Memory.valid_config (Memory.config Samples.manager_default)
  /\ (Memory.context_window_tokens (Memory.config Samples.manager_default)
      = 4096)%Z
  /\ (exists all,
        Memory.convert_messages Samples.history_long [] = Py.Ok all
        /\ Props.messages_cost Samples.manager_default all = 4110%Z
        /\ Memory.count_messages_tokens Samples.manager_default all = 4120%Z)
  /\ Memory.prepare_context Samples.manager_default Samples.history_long None
     = Py.Ok ([Memory.mkChat Memory.USER Samples.long_text None None],
              4104%Z)
  /\ Memory.prepare_context Samples.manager_default Samples.history_long
                            (Some Samples.huge_prompt)
     = Py.Ok ([Memory.mkChat Memory.SYSTEM Samples.huge_prompt None None],
              4114%Z).
Proof.
  split; [split; reflexivity|]. split; [reflexivity|]. split.
  - eexists. split; [vm_compute; reflexivity|].
    split; vm_compute; reflexivity.
  - split; vm_compute; reflexivity.
Qed.

(** The same with a window of 20 tokens: two messages of 16 tokens, the newer
    one kept, 26 tokens reported; with a system prompt of 29 tokens, 39. *)
Example prepare_context_small_window :
  Memory.prepare_context Samples.manager_20 Samples.history_two None
  = Py.Ok ([Memory.mkChat Memory.USER (Samples.replicate 48 "b") None None],
           26%Z)
  /\ Memory.prepare_context Samples.manager_20 Samples.history_two
                            (Some Samples.long_prompt)
     = Py.Ok ([Memory.mkChat Memory.SYSTEM Samples.long_prompt None None],
              39%Z).
Proof. vm_compute. split; reflexivity. Qed.

(* ================================================================== *)
(** * [chunk_text]: numbering, texts and spans of the chunks            *)
(* ================================================================== *)

Section ChunkDetails.
Import Retriever Props.

Variables (chunk_size chunk_overlap max_chunks : nat).
Hypothesis chunk_size_pos : 1 <= chunk_size.
Variables (txt ttl u : string).

Local Abbreviation wend' :=
  (window_end chunk_size chunk_overlap txt (Py.len txt)).

(** Whatever holds of the loop variables at the start and is kept by an
    iteration, be the window kept or dropped, holds of what the loop
    returns. *)
Lemma chunk_loop_invariant (P : nat -> nat -> list WikipediaChunk -> Prop) :
  (forall cid start chunks,
      start < Py.len txt -> cid < max_chunks -> P cid start chunks ->
      if Py.truthy (Py.strip (Py.slice txt start (wend' start)))
      then P (cid + 1)
             (Nat.max (start + chunk_size - chunk_overlap) (wend' start))
             (chunks ++ [mkChunk (Py.strip (Py.slice txt start (wend' start)))
                                 ttl u cid start (wend' start)])
      else P cid (Nat.max (start + chunk_size - chunk_overlap) (wend' start))
             chunks) ->
  forall fuel cid start chunks res,
    P cid start chunks ->
    chunk_loop chunk_size chunk_overlap max_chunks fuel txt ttl u
               (Py.len txt) cid start chunks = Some res ->
    exists cid' start', P cid' start' res.
Proof.
  intros Hstep. induction fuel as [|fuel IH]; intros cid start chunks res HP;
    simpl; destruct ((start <? Py.len txt) && (cid <? max_chunks)) eqn:Hc;
    intros Hr; try discriminate;
    try (injection Hr as <-; now exists cid, start).
  apply andb_true_iff in Hc as [Hs Hcid].
  apply Nat.ltb_lt in Hs. apply Nat.ltb_lt in Hcid.
  specialize (Hstep cid start chunks Hs Hcid HP).
  destruct (Py.truthy (Py.strip (Py.slice txt start (wend' start))));
    exact (IH _ _ _ _ Hstep Hr).
Qed.

Lemma chunk_inv_step (cid start : nat) (chunks : list WikipediaChunk) :
  start < Py.len txt -> cid < max_chunks ->
  chunk_inv max_chunks txt ttl u cid start chunks ->
  if Py.truthy (Py.strip (Py.slice txt start (wend' start)))
  then chunk_inv max_chunks txt ttl u (cid + 1)
         (Nat.max (start + chunk_size - chunk_overlap) (wend' start))
         (chunks ++ [mkChunk (Py.strip (Py.slice txt start (wend' start)))
                             ttl u cid start (wend' start)])
  else chunk_inv max_chunks txt ttl u cid
         (Nat.max (start + chunk_size - chunk_overlap) (wend' start)) chunks.
Proof.
  intros Hs Hcid [Hids Hcap Heach Hapart].
  pose proof (window_end_bounds chunk_size chunk_overlap chunk_size_pos
                                txt start Hs) as (Hlo & _).
  destruct (Py.truthy _) eqn:Ht; split; auto.
  - rewrite map_app, Hids, Nat.add_1_r, seq_S. reflexivity.
  - lia.
  - apply Forall_app. split.
    + eapply Forall_impl; [| exact Heach]. cbv beta.
      intros c (? & ? & ? & ? & ?). repeat split; auto. lia.
    + constructor; [| constructor]. cbn [title url text start_pos end_pos].
      repeat split; auto. lia.
  - apply StronglySorted_snoc; [exact Hapart|].
    eapply Forall_impl; [| exact Heach]. cbv beta.
    intros c (_ & _ & _ & _ & He). exact He.
  - eapply Forall_impl; [| exact Heach]. cbv beta.
    intros c (? & ? & ? & ? & ?). repeat split; auto. lia.
Qed.

(** What [chunk_text] returns on a text longer than one window. *)
Lemma chunk_text_with_inv (res : list WikipediaChunk) :
  chunk_size < Py.len txt ->
  chunk_text_with chunk_size chunk_overlap max_chunks txt ttl u = Some res ->
  exists cid start, chunk_inv max_chunks txt ttl u cid start res.
Proof.
  intros Hlong. unfold chunk_text_with.
  destruct (Nat.leb_spec (Py.len txt) chunk_size) as [Hle | _]; [lia|].
  apply (chunk_loop_invariant (chunk_inv max_chunks txt ttl u) chunk_inv_step).
  split; simpl; [reflexivity | lia | constructor | constructor].
Qed.

End ChunkDetails.

Section ChunkTextDetails.
Import Retriever Props.

(** The chunks of any text: how they are numbered and labelled, that their
    spans do not overlap, and, past one window, what their texts are. *)
Lemma chunk_text_details (txt ttl u : string) :
  exists chunks,
    chunk_text txt ttl u = Some chunks
    /\ map chunk_id chunks = seq 0 (List.length chunks)
    /\ List.length chunks <= Config.MAX_CHUNKS_PER_ARTICLE
    /\ Forall (fun c => title c = ttl /\ url c = u) chunks
    /\ spans_disjoint chunks
    /\ (Config.CHUNK_SIZE < Py.len txt ->
        Forall (fun c =>
                  text c = Py.strip (Py.slice txt (start_pos c) (end_pos c))
                  /\ text c <> EmptyString) chunks).
Proof.
  destruct (Nat.le_gt_cases (Py.len txt) Config.CHUNK_SIZE) as [Hle | Hgt].
  - exists [mkChunk txt ttl u 0 0 (Py.len txt)].
    split; [| split; [reflexivity | split]].
    + unfold chunk_text, chunk_text_with.
      apply Nat.leb_le in Hle. now rewrite Hle.
    + apply Nat.leb_le. reflexivity.
    + split; [repeat constructor|].
      split; [repeat constructor | lia].
  - destruct (chunk_text_terminates txt ttl u) as (chunks & Hr).
    exists chunks. split; [exact Hr|].
    destruct (chunk_text_with_inv _ _ _ CHUNK_SIZE_pos txt ttl u chunks Hgt Hr)
      as (cid & start & [Hids Hcap Heach Hapart]).
    assert (Hlen : List.length chunks = cid).
    { rewrite <- (length_map chunk_id), Hids. apply length_seq. }
    rewrite Hlen. split; [exact Hids|]. split; [exact Hcap|].
    split; [| split; [exact Hapart|]].
    + eapply Forall_impl; [| exact Heach]. cbv beta. tauto.
    + intros _. eapply Forall_impl; [| exact Heach]. cbv beta.
      intros c (_ & _ & Ht & Hne & _). split; [exact Ht|].
      intros E. rewrite E in Hne. discriminate.
Qed.

(** X1.  Numbering.  [chunk_text] returns on every text; the chunks it returns
    are numbered 0, 1, 2, ... in the order of the list, there are at most
    [MAX_CHUNKS_PER_ARTICLE] of them, and each carries the title and the URL
    the call was given. *)
Theorem chunk_text_numbers_chunks (txt ttl u : string) :
  exists chunks,
    chunk_text txt ttl u = Some chunks
    /\ map chunk_id chunks = seq 0 (List.length chunks)
    /\ List.length chunks <= Config.MAX_CHUNKS_PER_ARTICLE
    /\ Forall (fun c => title c = ttl /\ url c = u) chunks.
Proof.
  destruct (chunk_text_details txt ttl u) as (chunks & H1 & H2 & H3 & H4 & _).
  exists chunks. auto.
Qed.


(** X3.  Texts.  On a text longer than [CHUNK_SIZE] the text of every chunk is
    the slice of the input over the chunk's span with the white space at
    both ends removed, and it is never empty: a window of white space gives
    no chunk. *)
Theorem chunk_text_texts_are_stripped_windows (txt ttl u : string) :
  Config.CHUNK_SIZE < Py.len txt ->
  exists chunks,
    chunk_text txt ttl u = Some chunks
    /\ Forall (fun c =>
                 text c = Py.strip (Py.slice txt (start_pos c) (end_pos c))
                 /\ text c <> EmptyString) chunks.
Proof.
  intros Hgt.
  destruct (chunk_text_details txt ttl u) as (chunks & H1 & _ & _ & _ & _ & H6).
  exists chunks. auto.
Qed.

Lemma chunk_text_texts_are_stripped_windows_witness :
  Config.CHUNK_SIZE < Py.len Samples.article_blank_tail
  /\ exists chunks,
       chunk_text Samples.article_blank_tail "T" "U" = Some chunks
       /\ Forall (fun c =>
                    text c
                    = Py.strip (Py.slice Samples.article_blank_tail
                                         (start_pos c) (end_pos c))
                    /\ text c <> EmptyString) chunks.
Proof.
  assert (H : Config.CHUNK_SIZE < Py.len Samples.article_blank_tail)
    by (apply Nat.ltb_lt; vm_compute; reflexivity).
  split; [exact H|].
  exact (chunk_text_texts_are_stripped_windows _ "T" "U" H).
Defined.

End ChunkTextDetails.

(* ================================================================== *)
(** * [clean_text]                                                      *)
(* ================================================================== *)

Section CleanText.
Import Retriever Props.

Lemma lstrip_idempotent (s : string) : Py.lstrip (Py.lstrip s) = Py.lstrip s.
Proof.
  induction s as [|c s IH]; simpl; [reflexivity|].
  destruct (Py.is_space c) eqn:E; [exact IH | simpl; now rewrite E].
Qed.

Lemma rstrip_idempotent (s : string) : Py.rstrip (Py.rstrip s) = Py.rstrip s.
Proof.
  induction s as [|c s IH]; simpl; [reflexivity|].
  destruct (Py.rstrip s) as [|b r] eqn:E.
  - destruct (Py.is_space c) eqn:Ec; simpl; [reflexivity | now rewrite Ec].
  - change (Py.rstrip (String c (String b r)))
      with (match Py.rstrip (String b r) with
            | EmptyString =>
                if Py.is_space c then EmptyString else String c EmptyString
            | String x y => String c (String x y)
            end).
    now rewrite IH.
Qed.

(** A string that [lstrip] leaves alone starts with a visible character. *)
Lemma lstrip_fixed_head (c : ascii) (s : string) :
  Py.lstrip (String c s) = String c s -> Py.is_space c = false.
Proof.
  simpl. destruct (Py.is_space c); [| reflexivity].
  intros E. pose proof (length_lstrip_le s) as Hl.
  rewrite E in Hl. simpl in Hl. lia.
Qed.

Lemma rstrip_keeps_head (c : ascii) (s : string) :
  Py.is_space c = false -> exists r, Py.rstrip (String c s) = String c r.
Proof.
  intros Hc. simpl. destruct (Py.rstrip s); rewrite ?Hc; eauto.
Qed.

(** The head of what [rstrip] returns is the head of its argument. *)
Lemma rstrip_head (s : string) (b : ascii) (r : string) :
  Py.rstrip s = String b r -> exists t, s = String b t.
Proof.
  destruct s as [|c s]; simpl; [discriminate|].
  destruct (Py.rstrip s).
  - destruct (Py.is_space c); [discriminate|].
    intros E. injection E as -> _. eauto.
  - intros E. injection E as -> _. eauto.
Qed.

Lemma strip_idempotent (s : string) : Py.strip (Py.strip s) = Py.strip s.
Proof.
  unfold Py.strip.
  assert (H : Py.lstrip (Py.rstrip (Py.lstrip s)) = Py.rstrip (Py.lstrip s)).
  { pose proof (lstrip_idempotent s) as Hi.
    destruct (Py.lstrip s) as [|c y]; [reflexivity|].
    apply lstrip_fixed_head in Hi.
    destruct (rstrip_keeps_head c y Hi) as (r & ->).
    simpl. now rewrite Hi. }
  rewrite H. apply rstrip_idempotent.
Qed.

Lemma single_spaced_tail (a : ascii) (s : string) :
  single_spaced (String a s) = true -> single_spaced s = true.
Proof. simpl. intros H. now apply andb_true_iff in H as [_ H]. Qed.

Lemma single_spaced_lstrip (s : string) :
  single_spaced s = true -> single_spaced (Py.lstrip s) = true.
Proof.
  induction s as [|c s IH]; [reflexivity|]. intros H.
  simpl. destruct (Py.is_space c); [| exact H].
  apply IH. now apply single_spaced_tail in H.
Qed.

Lemma single_spaced_rstrip (s : string) :
  single_spaced s = true -> single_spaced (Py.rstrip s) = true.
Proof.
  induction s as [|c s IH]; [reflexivity|]. intros H.
  pose proof (IH (single_spaced_tail _ _ H)) as Hr.
  simpl. destruct (Py.rstrip s) as [|b r] eqn:E.
  - destruct (Py.is_space c) eqn:Ec; [reflexivity|].
    simpl. now rewrite Ec.
  - destruct (rstrip_head _ _ _ E) as (t & ->).
    cbn [single_spaced] in H |- *.
    apply andb_true_iff in H as [Hh _].
    rewrite Hh. exact Hr.
Qed.

(** After white space the collapsed text goes on with a visible
    character. *)
Lemma collapse_whitespace_head (s : string) :
  match collapse_whitespace true s with
  | String b _ => Py.is_space b = false
  | EmptyString => True
  end.
Proof.
  induction s as [|c s IH]; simpl; [exact I|].
  destruct (Py.is_space c) eqn:E; [exact IH | exact E].
Qed.

Lemma single_spaced_collapse (s : string) :
  forall in_run, single_spaced (collapse_whitespace in_run s) = true.
Proof.
  induction s as [|c s IH]; intros in_run; simpl; [reflexivity|].
  destruct (Py.is_space c) eqn:E.
  - destruct in_run; [apply IH|].
    cbn [single_spaced]. rewrite IH, andb_true_r.
    pose proof (collapse_whitespace_head s) as Hh.
    destruct (collapse_whitespace true s); [reflexivity|].
    rewrite Hh. reflexivity.
  - cbn [single_spaced]. rewrite E, IH. reflexivity.
Qed.

Lemma length_collapse_whitespace (s : string) :
  forall in_run,
    String.length (collapse_whitespace in_run s) <= String.length s.
Proof.
  induction s as [|c s IH]; intros in_run; simpl; [lia|].
  destruct (Py.is_space c).
  - destruct in_run; simpl; [specialize (IH true) | specialize (IH true)]; lia.
  - simpl. specialize (IH false). lia.
Qed.

Lemma length_remove_citations (s : string) :
  forall pending,
    String.length (remove_citations pending s)
    <= match pending with
       | Some buf => String.length buf
       | None => 0
       end + String.length s.
Proof.
  induction s as [|c s IH]; intros pending; simpl.
  - destruct pending; simpl; lia.
  - destruct pending as [buf|].
    + destruct (is_digit c).
      * specialize (IH (Some (buf ++ String c EmptyString)%string)).
        cbv beta iota in IH. rewrite length_append in IH. simpl in IH. lia.
      * destruct (Ascii.eqb c "]" && has_digit buf).
        -- specialize (IH None). simpl in IH. lia.
        -- destruct (Ascii.eqb c "[").
           ++ rewrite length_append.
              specialize (IH (Some (String c EmptyString))). simpl in IH. lia.
           ++ rewrite length_append. simpl.
              specialize (IH None). simpl in IH. lia.
    + destruct (Ascii.eqb c "[").
      * specialize (IH (Some (String c EmptyString))). simpl in IH. lia.
      * simpl. specialize (IH None). simpl in IH. lia.
Qed.

(** X4.  Normal form.  Whatever the page text, the cleaned text has no white
    space at either end, holds no white space other than single blanks, each
    followed by a visible character, and is no longer than the input:
    citations are cut out, runs of white space shrink to one blank. *)
Theorem clean_text_normal_form (txt : string) :
  Py.strip (clean_text txt) = clean_text txt
  /\ single_spaced (clean_text txt) = true
  /\ Py.len (clean_text txt) <= Py.len txt.
Proof.
  unfold clean_text. split; [apply strip_idempotent|]. split.
  - unfold Py.strip. apply single_spaced_rstrip, single_spaced_lstrip,
      single_spaced_collapse.
  - etransitivity; [apply length_strip_le|]. unfold Py.len.
    etransitivity; [apply length_collapse_whitespace|].
    apply (length_remove_citations txt None).
Qed.

End CleanText.

(* ================================================================== *)
(** * [retrieve_and_chunk]: what comes back                             *)
(* ================================================================== *)

Section FetcherDetails.
Import Retriever Props.




End FetcherDetails.


(* ================================================================== *)
(** * [VectorStore]: alignment, results, statistics and the two files   *)
(* ================================================================== *)

Section StoreDetails.
Import Retriever Props.
Context `{Faiss.Kernel}.

(** X8.  Alignment is kept.  On a store in which every vector has its chunk,
    adding as many rows of the index's dimension as chunks succeeds and
    leaves a store in which every vector has its chunk again, larger by the
    number of chunks, its dimension unchanged. *)
Theorem add_embeddings_keeps_alignment (self : VectorStore.t)
        (embeddings : Faiss.ndarray) (chunks : list WikipediaChunk) :
  aligned self ->
  Faiss.ncols embeddings = index_dim self ->
  List.length (Faiss.rows embeddings) = List.length chunks ->
  snd (VectorStore.add_embeddings self embeddings chunks) = Py.Ok tt
  /\ aligned (fst (VectorStore.add_embeddings self embeddings chunks))
  /\ stored_count (fst (VectorStore.add_embeddings self embeddings chunks))
     = stored_count self + List.length chunks
  /\ index_dim (fst (VectorStore.add_embeddings self embeddings chunks))
     = index_dim self.
Proof.
  intros Hal Hd Hlen.
  destruct (add_embeddings_lengths_unchecked self embeddings chunks Hd)
    as (Hok & Hmd & Hcount).
  split; [exact Hok|]. unfold aligned in *.
  rewrite Hmd, Hcount, length_app, Hal, Hlen.
  split; [reflexivity|]. split; [reflexivity|].
  unfold index_dim, VectorStore.add_embeddings, Faiss.add in *.
  cbn [Faiss.normalize_rows Faiss.ncols].
  destruct (VectorStore.index self) as [idx|]; cbn [Faiss.d] in *;
    rewrite Hd, Nat.eqb_refl; reflexivity.
Qed.

Lemma length_sort_desc (l : list (Q * Z)) :
  List.length (Faiss.sort_desc l) = List.length l.
Proof.
  unfold Faiss.sort_desc.
  destruct (fold_insert_desc (fun _ => True) l []) as (_ & _ & Hl).
  - constructor.
  - constructor.
  - apply Forall_forall. auto.
  - cbv zeta in Hl. rewrite Hl. simpl. lia.
Qed.

(** A row of search results has exactly [k] entries, padding included. *)
Lemma length_search_row (idx : Faiss.IndexFlatIP) (k : Z) (q : Faiss.vector) :
  List.length (Faiss.search_row idx k q) = Z.to_nat k.
Proof.
  unfold Faiss.search_row.
  rewrite length_app, length_firstn, repeat_length, length_sort_desc.
  destruct (number_from_labels
              (map (Faiss.inner_product q) (Faiss.xb idx)) 0) as [_ Hlen].
  rewrite Hlen, length_map. unfold Faiss.ntotal. lia.
Qed.

(** Every chunk [collect_results] adds is a stored one, and it adds at most
    one for a hit. *)
Lemma collect_results_members (md : list WikipediaChunk)
      (hits : list (Q * Z)) :
  forall results out,
    VectorStore.collect_results md hits results = Py.Ok out ->
    exists kept,
      out = results ++ kept
      /\ List.length kept <= List.length hits
      /\ Forall (fun r => In (fst r) md) kept.
Proof.
  induction hits as [|[score idx] rest IH]; intros results out Hc;
    cbn [VectorStore.collect_results] in Hc.
  - injection Hc as <-. exists []. rewrite app_nil_r.
    split; [reflexivity|]. split; [simpl; lia | constructor].
  - destruct (idx =? -1)%Z.
    + apply IH in Hc as (kept & -> & Hlen & Hin).
      exists kept. split; [reflexivity|]. split; [simpl; lia | exact Hin].
    + destruct (nth_error md (Z.to_nat idx)) as [chunk|] eqn:E;
        [| discriminate].
      apply IH in Hc as (kept & -> & Hlen & Hin).
      exists ((chunk, score) :: kept). rewrite <- app_assoc.
      split; [reflexivity|]. split; [simpl; lia|].
      constructor; [| exact Hin]. simpl. eapply nth_error_In; eauto.
Qed.

Lemma search_members (self : VectorStore.t) (q : Faiss.vector) (k : Z)
      (results : list (WikipediaChunk * Q)) :
  VectorStore.search self q k = Py.Ok results ->
  List.length results <= Z.to_nat k
  /\ List.length results <= stored_count self
  /\ Forall (fun r => In (fst r) (VectorStore.metadata self)) results.
Proof.
  unfold VectorStore.search, stored_count.
  destruct (VectorStore.index self) as [idx|];
    [| intros Hr; injection Hr as <-; simpl;
       split; [lia | split; [lia | constructor]]].
  destruct (Faiss.ntotal idx =? 0);
    [intros Hr; injection Hr as <-; simpl;
     split; [lia | split; [lia | constructor]]|].
  unfold Faiss.search.
  cbn [Faiss.ncols Faiss.normalize_rows Faiss.rows
       VectorStore.reshape_row map].
  destruct (negb _); [discriminate|].
  destruct (Z.leb_spec (Z.min k (Z.of_nat (Faiss.ntotal idx))) 0);
    [discriminate|].
  cbn [Py.bind]. intros Hc.
  apply collect_results_members in Hc as (kept & -> & Hlen & Hin).
  cbn [app]. rewrite length_search_row in Hlen.
  split; [lia|]. split; [lia | exact Hin].
Qed.

(** X9.  Results come from the store.  Whatever [search] returns holds at most
    [k] pairs and at most as many as vectors are stored, and every chunk in
    it is one of the chunk list of the store. *)
Theorem search_results_come_from_store (self : VectorStore.t)
        (q : Faiss.vector) (k : Z) (results : list (WikipediaChunk * Q)) :
  VectorStore.search self q k = Py.Ok results ->
  List.length results <= Z.to_nat k
  /\ List.length results <= stored_count self
  /\ Forall (fun r => In (fst r) (VectorStore.metadata self)) results.
Proof. apply search_members. Qed.

(** X10.  After [clear].  Whatever the store held and whatever dimension it was
    created with, [clear] leaves an empty store in which index and chunk list
    agree, every search returns the empty list, and the new index has the
    dimension [EMBEDDING_DIM] of the configuration: rows of any other
    dimension, the store's own [embedding_dim] included, are refused from
    then on. *)
Theorem clear_resets_store (self : VectorStore.t) :
  VectorStore.is_empty (VectorStore.clear self) = true
  /\ aligned (VectorStore.clear self)
  /\ VectorStore.embedding_dim (VectorStore.clear self)
     = VectorStore.embedding_dim self
  /\ (forall q k, VectorStore.search (VectorStore.clear self) q k = Py.Ok [])
  /\ (forall embeddings chunks,
        Faiss.ncols embeddings <> Config.EMBEDDING_DIM ->
        snd (VectorStore.add_embeddings (VectorStore.clear self)
                                        embeddings chunks)
        = Py.Raise Py.AssertionError).
Proof.
  split; [reflexivity|]. split; [reflexivity|]. split; [reflexivity|].
  split; [reflexivity|].
  intros embeddings chunks Hd. apply Nat.eqb_neq in Hd.
  unfold VectorStore.add_embeddings, VectorStore.clear, Faiss.add.
  cbn [VectorStore.index Faiss.normalize_rows Faiss.ncols Faiss.d].
  now rewrite Hd.
Qed.

Lemma length_nodup_le (l : list string) :
  List.length (nodup string_dec l) <= List.length l.
Proof.
  induction l as [|x l IH]; simpl; [lia|].
  destruct (in_dec string_dec x l); simpl; lia.
Qed.

(** X11.  The statistics.  [total_chunks] is the number of vectors in the index
    and [metadata_count] the length of the chunk list, so the two agree
    exactly when every vector has its chunk; [unique_articles] is at most
    [metadata_count], and it is 0 only for an empty chunk list; the store
    is empty exactly when [total_chunks] is 0. *)
Theorem get_stats_counts (self : VectorStore.t) :
  VectorStore.total_chunks (VectorStore.get_stats self) = stored_count self
  /\ VectorStore.metadata_count (VectorStore.get_stats self)
     = List.length (VectorStore.metadata self)
  /\ (aligned self <->
      VectorStore.total_chunks (VectorStore.get_stats self)
      = VectorStore.metadata_count (VectorStore.get_stats self))
  /\ VectorStore.unique_articles (VectorStore.get_stats self)
     <= VectorStore.metadata_count (VectorStore.get_stats self)
  /\ (VectorStore.unique_articles (VectorStore.get_stats self) = 0
      <-> VectorStore.metadata self = [])
  /\ (VectorStore.is_empty self = true
      <-> VectorStore.total_chunks (VectorStore.get_stats self) = 0).
Proof.
  unfold VectorStore.get_stats, VectorStore.is_empty, aligned, stored_count.
  cbn [VectorStore.total_chunks VectorStore.metadata_count
       VectorStore.unique_articles].
  split; [now destruct (VectorStore.index self)|].
  split; [reflexivity|].
  split; [destruct (VectorStore.index self); split; congruence|].
  split; [| split].
  - destruct (VectorStore.metadata self) as [|c md] eqn:E; [simpl; lia|].
    unfold VectorStore.distinct_count.
    etransitivity; [apply length_nodup_le|]. now rewrite length_map.
  - destruct (VectorStore.metadata self) as [|c md] eqn:E; [tauto|].
    split; [| discriminate]. unfold VectorStore.distinct_count. intros Hz.
    assert (Hin : In (title c) (nodup string_dec (map title (c :: md))))
      by (apply nodup_In; now left).
    destruct (nodup string_dec (map title (c :: md)));
      [destruct Hin | discriminate].
  - destruct (VectorStore.index self) as [idx|]; [| tauto].
    apply Nat.eqb_eq.
Qed.

Lemma chunk_of_dict_metadata_dict (chunk : WikipediaChunk) :
  VectorStore.chunk_of_dict (VectorStore.metadata_dict chunk) = Some chunk.
Proof. destruct chunk. reflexivity. Qed.

Lemma chunks_of_dicts_metadata_dicts (chunks : list WikipediaChunk) :
  VectorStore.chunks_of_dicts (map VectorStore.metadata_dict chunks)
  = Some chunks.
Proof.
  induction chunks as [|c chunks IH]; [reflexivity|].
  cbn [map VectorStore.chunks_of_dicts].
  now rewrite chunk_of_dict_metadata_dict, IH.
Qed.

(** X12.  Round trip.  A store that has an index and is saved comes back when a
    new store is opened on the files, whatever they held before and whatever
    dimension the new store is asked for: the same index, the same chunks in
    the same order, hence the same answer to every search. *)
Theorem save_index_then_reopen (self : VectorStore.t)
        (fs : VectorStore.files) (dim : nat) :
  VectorStore.index self <> None ->
  exists reopened,
    VectorStore.new dim (VectorStore.save_index self fs) = Some reopened
    /\ VectorStore.index reopened = VectorStore.index self
    /\ VectorStore.metadata reopened = VectorStore.metadata self
    /\ VectorStore.embedding_dim reopened = dim
    /\ (forall q k,
          VectorStore.search reopened q k = VectorStore.search self q k).
Proof.
  intros Hidx. unfold VectorStore.save_index, VectorStore.new.
  destruct (VectorStore.index self) as [idx|] eqn:E; [| now elim Hidx].
  cbn [VectorStore.index_file VectorStore.load_index
       VectorStore.metadata_file].
  rewrite chunks_of_dicts_metadata_dicts.
  eexists. split; [reflexivity|].
  cbn [VectorStore.index VectorStore.metadata VectorStore.embedding_dim].
  repeat (split; [reflexivity|]).
  intros q k. unfold VectorStore.search.
  cbn [VectorStore.index VectorStore.metadata]. now rewrite E.
Qed.

(** X13.  An index file without its metadata file.  A store opened on an index
    file that holds vectors, with no metadata file beside it, has the index
    and an empty chunk list, and every search on it with a query of the
    index's dimension and [k >= 1] raises [IndexError]. *)
Theorem reopen_without_metadata_file (fs : VectorStore.files) (dim : nat)
        (idx : Faiss.IndexFlatIP) (q : Faiss.vector) (k : Z) :
  VectorStore.index_file fs = Some idx ->
  VectorStore.metadata_file fs = None ->
  0 < Faiss.ntotal idx ->
  List.length q = Faiss.d idx ->
  (1 <= k)%Z ->
  exists opened,
    VectorStore.new dim fs = Some opened
    /\ VectorStore.index opened = Some idx
    /\ VectorStore.metadata opened = []
    /\ VectorStore.search opened q k = Py.Raise Py.IndexError.
Proof.
  intros Hi Hm Hn Hq Hk. unfold VectorStore.new, VectorStore.load_index.
  rewrite Hi, Hm. eexists. split; [reflexivity|].
  cbn [VectorStore.index VectorStore.metadata].
  split; [reflexivity|]. split; [reflexivity|].
  unfold VectorStore.search. cbn [VectorStore.index VectorStore.metadata].
  destruct (Nat.eqb_spec (Faiss.ntotal idx) 0) as [E | _]; [lia|].
  unfold Faiss.search.
  cbn [Faiss.ncols Faiss.normalize_rows Faiss.rows
       VectorStore.reshape_row map].
  rewrite Hq, Nat.eqb_refl. cbn [negb].
  destruct (Z.leb_spec (Z.min k (Z.of_nat (Faiss.ntotal idx))) 0); [lia|].
  cbn [Py.bind].
  destruct (search_row_spec idx (Z.min k (Z.of_nat (Faiss.ntotal idx)))
                            (Faiss.normalize_L2 q)) as (Hlen & _ & Hlab);
    [lia|].
  destruct (Faiss.search_row idx _ _) as [|[score label] rest];
    [simpl in Hlen; lia|].
  inversion Hlab as [|? ? Hl _]; subst. simpl in Hl.
  cbn [VectorStore.collect_results].
  destruct (Z.eqb_spec label (-1)); [lia|].
  now destruct (Z.to_nat label).
Qed.

End StoreDetails.

Lemma add_embeddings_wrong_dimension_witness :
  Faiss.ncols Samples.wide_row <> Props.index_dim Samples.store_ab
  /\ snd (@VectorStore.add_embeddings Samples.unit_kernel Samples.store_ab
            Samples.wide_row [Samples.chunk_a])
     = Py.Raise Py.AssertionError
  /\ VectorStore.metadata
       (fst (@VectorStore.add_embeddings Samples.unit_kernel Samples.store_ab
               Samples.wide_row [Samples.chunk_a]))
     = VectorStore.metadata Samples.store_ab
  /\ Props.stored_count
       (fst (@VectorStore.add_embeddings Samples.unit_kernel Samples.store_ab
               Samples.wide_row [Samples.chunk_a]))
     = Props.stored_count Samples.store_ab.
Proof.
  assert (Hd : Faiss.ncols Samples.wide_row
               <> Props.index_dim Samples.store_ab)
    by (vm_compute; discriminate).
  split; [exact Hd|].
  exact (@add_embeddings_wrong_dimension Samples.unit_kernel Samples.store_ab
           Samples.wide_row [Samples.chunk_a] Hd).
Defined.

Lemma add_embeddings_keeps_alignment_witness :
  Props.aligned Samples.empty_store
  /\ Faiss.ncols Samples.two_rows = Props.index_dim Samples.empty_store
  /\ List.length (Faiss.rows Samples.two_rows)
     = List.length [Samples.chunk_a; Samples.chunk_b]
  /\ snd (@VectorStore.add_embeddings Samples.unit_kernel Samples.empty_store
            Samples.two_rows [Samples.chunk_a; Samples.chunk_b])
     = Py.Ok tt
  /\ Props.aligned
       (fst (@VectorStore.add_embeddings Samples.unit_kernel
               Samples.empty_store Samples.two_rows
               [Samples.chunk_a; Samples.chunk_b]))
  /\ Props.stored_count
       (fst (@VectorStore.add_embeddings Samples.unit_kernel
               Samples.empty_store Samples.two_rows
               [Samples.chunk_a; Samples.chunk_b]))
     = Props.stored_count Samples.empty_store
       + List.length [Samples.chunk_a; Samples.chunk_b]
  /\ Props.index_dim
       (fst (@VectorStore.add_embeddings Samples.unit_kernel
               Samples.empty_store Samples.two_rows
               [Samples.chunk_a; Samples.chunk_b]))
     = Props.index_dim Samples.empty_store.
Proof.
  assert (Ha : Props.aligned Samples.empty_store) by reflexivity.
  assert (Hd : Faiss.ncols Samples.two_rows
               = Props.index_dim Samples.empty_store) by reflexivity.
  assert (Hl : List.length (Faiss.rows Samples.two_rows)
               = List.length [Samples.chunk_a; Samples.chunk_b])
    by reflexivity.
  split; [exact Ha|]. split; [exact Hd|]. split; [exact Hl|].
  exact (@add_embeddings_keeps_alignment Samples.unit_kernel
           Samples.empty_store Samples.two_rows
           [Samples.chunk_a; Samples.chunk_b] Ha Hd Hl).
Defined.

Lemma search_results_come_from_store_witness :
  @VectorStore.search Samples.unit_kernel Samples.store_ab Samples.e2 5
  = Py.Ok [(Samples.chunk_b, 1%Q); (Samples.chunk_a, 0%Q)]
  /\ List.length [(Samples.chunk_b, 1%Q); (Samples.chunk_a, 0%Q)]
     <= Z.to_nat 5
  /\ List.length [(Samples.chunk_b, 1%Q); (Samples.chunk_a, 0%Q)]
     <= Props.stored_count Samples.store_ab
  /\ Forall (fun r => In (fst r) (VectorStore.metadata Samples.store_ab))
            [(Samples.chunk_b, 1%Q); (Samples.chunk_a, 0%Q)].
Proof.
  assert (Hs : @VectorStore.search Samples.unit_kernel Samples.store_ab
                 Samples.e2 5
               = Py.Ok [(Samples.chunk_b, 1%Q); (Samples.chunk_a, 0%Q)])
    by (vm_compute; reflexivity).
  split; [exact Hs|].
  exact (@search_results_come_from_store Samples.unit_kernel Samples.store_ab
           Samples.e2 5 _ Hs).
Defined.

Lemma save_index_then_reopen_witness :
  VectorStore.index Samples.store_ab <> None
  /\ exists reopened,
       VectorStore.new 768 (VectorStore.save_index Samples.store_ab
                                                   Samples.no_files)
       = Some reopened
       /\ VectorStore.index reopened = VectorStore.index Samples.store_ab
       /\ VectorStore.metadata reopened
          = VectorStore.metadata Samples.store_ab
       /\ VectorStore.embedding_dim reopened = 768
       /\ (forall q k,
             @VectorStore.search Samples.unit_kernel reopened q k
             = @VectorStore.search Samples.unit_kernel Samples.store_ab q k).
Proof.
  assert (Hi : VectorStore.index Samples.store_ab <> None)
    by (simpl; discriminate).
  split; [exact Hi|].
  exact (@save_index_then_reopen Samples.unit_kernel Samples.store_ab
           Samples.no_files 768 Hi).
Defined.

Lemma reopen_without_metadata_file_witness :
  VectorStore.index_file Samples.index_file_only
  = Some (Faiss.mkIndex 2 [Samples.e1; Samples.e2])
  /\ VectorStore.metadata_file Samples.index_file_only = None
  /\ 0 < Faiss.ntotal (Faiss.mkIndex 2 [Samples.e1; Samples.e2])
  /\ List.length Samples.e1 = Faiss.d (Faiss.mkIndex 2 [Samples.e1; Samples.e2])
  /\ (1 <= 3)%Z
  /\ exists opened,
       VectorStore.new 2 Samples.index_file_only = Some opened
       /\ VectorStore.index opened
          = Some (Faiss.mkIndex 2 [Samples.e1; Samples.e2])
       /\ VectorStore.metadata opened = []
       /\ @VectorStore.search Samples.unit_kernel opened Samples.e1 3
          = Py.Raise Py.IndexError.
Proof.
  assert (Hn : 0 < Faiss.ntotal (Faiss.mkIndex 2 [Samples.e1; Samples.e2]))
    by (apply Nat.ltb_lt; reflexivity).
  assert (Hk : (1 <= 3)%Z) by (apply Z.leb_le; reflexivity).
  split; [reflexivity|]. split; [reflexivity|]. split; [exact Hn|].
  split; [reflexivity|]. split; [exact Hk|].
  exact (@reopen_without_metadata_file Samples.unit_kernel
           Samples.index_file_only 2 _ Samples.e1 3
           eq_refl eq_refl Hn eq_refl Hk).
Defined.

(* ================================================================== *)
(** * [retrieve_context], [query] and [clear_index]: effects            *)
(* ================================================================== *)

Section PolicyEffects.
Import Retriever Props Rag.
Context `{Faiss.Kernel}.

Lemma store_extends_refl (vs : VectorStore.t) : store_extends vs vs.
Proof.
  split; [exists []; now rewrite app_nil_r | split; [lia | reflexivity]].
Qed.

(** [add_embeddings] only adds, and keeps index and chunk list in step
    when it is given as many rows as chunks. *)
Lemma add_embeddings_effects (self : VectorStore.t)
      (embeddings : Faiss.ndarray) (chunks : list WikipediaChunk) :
  store_extends self (fst (VectorStore.add_embeddings self embeddings chunks))
  /\ (aligned self ->
      List.length (Faiss.rows embeddings) = List.length chunks ->
      aligned (fst (VectorStore.add_embeddings self embeddings chunks))).
Proof.
  unfold store_extends, aligned, stored_count, VectorStore.add_embeddings,
    Faiss.add.
  cbn [Faiss.normalize_rows Faiss.ncols Faiss.rows].
  destruct (VectorStore.index self) as [idx|]; cbn [Faiss.d Faiss.xb];
    destruct (_ =? _);
    cbn [fst VectorStore.metadata VectorStore.index
         VectorStore.embedding_dim];
    unfold Faiss.ntotal; cbn [Faiss.xb];
    rewrite ?length_app, ?length_map; cbn [List.length].
  all: split;
    [split; [eexists; try reflexivity; now rewrite app_nil_r
            | split; [lia | reflexivity]]
    | intros; lia].
Qed.

(** The re-indexing branch: the outside calls it makes after the fetcher,
    and what it does to the store. *)
Lemma auto_index_effects (self : WikipediaRAG) (query : string)
      (qe : Faiss.vector) (c : list WikipediaChunk) (s : list Q) (st : state) :
  (exists t,
      calls (fst (auto_index self query qe c s st))
      = calls st ++ Fetch query :: t
      /\ (t = []
          \/ exists texts,
               t = [EmbedPassages texts]
               \/ t = [EmbedPassages texts; SaveIndex]))
  /\ store_extends (vector_store st)
                   (vector_store (fst (auto_index self query qe c s st)))
  /\ (aligned (vector_store st) ->
      one_row_per_text (embedding_model self) ->
      aligned (vector_store (fst (auto_index self query qe c s st)))).
Proof.
  unfold auto_index, bindM, lift, log, with_store, read_store, ret.
  cbn [vector_store calls].
  assert (Hsame : forall more,
             (exists t,
                 calls st ++ Fetch query :: more = calls st ++ Fetch query :: t
                 /\ (t = []
                     \/ exists texts,
                          t = [EmbedPassages texts]
                          \/ t = [EmbedPassages texts; SaveIndex])) ->
             forall vs,
               store_extends (vector_store st) vs ->
               (aligned (vector_store st) ->
                one_row_per_text (embedding_model self) -> aligned vs) ->
               forall (A : Type) (r : Py.result A),
                 (exists t,
                     calls (fst (mkState vs (calls st ++ Fetch query :: more),
                                 r))
                     = calls st ++ Fetch query :: t
                     /\ (t = []
                         \/ exists texts,
                              t = [EmbedPassages texts]
                              \/ t = [EmbedPassages texts; SaveIndex]))
                 /\ store_extends (vector_store st)
                      (vector_store
                         (fst (mkState vs (calls st ++ Fetch query :: more),
                               r)))
                 /\ (aligned (vector_store st) ->
                     one_row_per_text (embedding_model self) ->
                     aligned
                       (vector_store
                          (fst (mkState vs
                                        (calls st ++ Fetch query :: more),
                                r))))).
  { intros more Ht vs Hext Hal A r. cbn [fst calls vector_store]. auto. }
  assert (H0 : exists t,
             calls st ++ Fetch query :: [] = calls st ++ Fetch query :: t
             /\ (t = []
                 \/ exists texts,
                      t = [EmbedPassages texts]
                      \/ t = [EmbedPassages texts; SaveIndex]))
    by (exists []; auto).
  destruct (retrieve_and_chunk _ query) as [new | e];
    [| apply (Hsame [] H0 _ (store_extends_refl _) (fun a _ => a))].
  destruct new as [|n new]; cbn [is_empty negb];
    [apply (Hsame [] H0 _ (store_extends_refl _) (fun a _ => a))|].
  set (texts := map text (n :: new)).
  assert (H1 : exists t,
             calls st ++ Fetch query :: [EmbedPassages texts]
             = calls st ++ Fetch query :: t
             /\ (t = []
                 \/ exists texts,
                      t = [EmbedPassages texts]
                      \/ t = [EmbedPassages texts; SaveIndex]))
    by (exists [EmbedPassages texts]; eauto).
  assert (H2 : exists t,
             calls st ++ Fetch query :: [EmbedPassages texts; SaveIndex]
             = calls st ++ Fetch query :: t
             /\ (t = []
                 \/ exists texts,
                      t = [EmbedPassages texts]
                      \/ t = [EmbedPassages texts; SaveIndex]))
    by (exists [EmbedPassages texts; SaveIndex]; eauto).
  cbn [vector_store calls]. rewrite <- !app_assoc. cbn [app].
  destruct (Embedding.embed_passages _ texts) as [emb | e] eqn:Ee;
    [| apply (Hsame _ H1 _ (store_extends_refl _) (fun a _ => a))].
  destruct (add_embeddings_effects (vector_store st) emb (n :: new))
    as (Hext & Hal).
  assert (Hal' : aligned (vector_store st) ->
                 one_row_per_text (embedding_model self) ->
                 aligned (fst (VectorStore.add_embeddings (vector_store st)
                                                          emb (n :: new)))).
  { intros Ha Hm. apply Hal; [exact Ha|].
    unfold Embedding.embed_passages in Ee. apply Hm in Ee.
    rewrite Ee. unfold texts. now rewrite !length_map. }
  destruct (VectorStore.add_embeddings (vector_store st) emb (n :: new))
    as [vs [[] | e]]; cbn [fst] in Hext, Hal';
    [| apply (Hsame _ H1 _ Hext Hal')].
  cbn [vector_store calls]. rewrite <- !app_assoc. cbn [app].
  destruct (save_index self vs) as [[] | e];
    [| apply (Hsame _ H2 _ Hext Hal')].
  destruct (VectorStore.search vs qe _) as [res | e];
    [| apply (Hsame _ H2 _ Hext Hal')].
  destruct res; cbn [is_empty negb]; apply (Hsame _ H2 _ Hext Hal').
Qed.

(** [retrieve_context] either stops at the embedding of the query or at the
    first search, the state as it was, or goes on as
    [retrieve_context_unfold] says. *)
Lemma retrieve_context_cases (self : WikipediaRAG) (query : string)
      (st : state) :
  (exists e, retrieve_context self query st = (st, Py.Raise e))
  \/ exists qe first,
       Embedding.embed_query (embedding_model self) query = Py.Ok qe
       /\ VectorStore.search (vector_store st) qe Config.TOP_K_RETRIEVAL
          = Py.Ok first.
Proof.
  destruct (Embedding.embed_query (embedding_model self) query)
    as [qe | e] eqn:Eq.
  - destruct (VectorStore.search (vector_store st) qe Config.TOP_K_RETRIEVAL)
      as [first | e] eqn:Es.
    + right. eauto.
    + left. exists e. unfold retrieve_context, bindM, lift, read_store.
      now rewrite Eq, Es.
  - left. exists e. unfold retrieve_context, bindM, lift. now rewrite Eq.
Qed.

(** The state after [retrieve_context]: the outside calls of the call and
    what happened to the store. *)
Lemma retrieve_context_effects (self : WikipediaRAG) (query : string)
      (st : state) :
  (exists t,
      calls (fst (retrieve_context self query st)) = calls st ++ t
      /\ query_calls query t)
  /\ store_extends (vector_store st)
                   (vector_store (fst (retrieve_context self query st)))
  /\ (aligned (vector_store st) ->
      one_row_per_text (embedding_model self) ->
      aligned (vector_store (fst (retrieve_context self query st)))).
Proof.
  assert (Hnone : (exists t, calls st = calls st ++ t /\ query_calls query t)
                  /\ store_extends (vector_store st) (vector_store st)
                  /\ (aligned (vector_store st) ->
                      one_row_per_text (embedding_model self) ->
                      aligned (vector_store st))).
  { split; [exists []; rewrite app_nil_r; split; [reflexivity | now left]|].
    split; [apply store_extends_refl | auto]. }
  destruct (retrieve_context_cases self query st)
    as [(e & ->) | (qe & first & Hq & Hs)]; [exact Hnone|].
  rewrite (retrieve_context_unfold self query st qe first Hq Hs).
  destruct (needs_auto_index _ _); [| exact Hnone].
  destruct (auto_index_effects self query qe (map fst first) (map snd first) st)
    as ((t & Hc & Ht) & Hext & Hal).
  assert (Hcalls : exists t',
             calls (fst (auto_index self query qe (map fst first)
                                    (map snd first) st)) = calls st ++ t'
             /\ query_calls query t').
  { exists (Fetch query :: t). split; [exact Hc|].
    unfold query_calls. right.
    destruct Ht as [-> | (texts & [-> | ->])]; [now left | right ..];
      exists texts; auto. }
  destruct (auto_index self query qe (map fst first) (map snd first) st)
    as [st' [[c s] | e]]; cbn [fst] in *; auto.
Qed.

(** The pair [retrieve_context] returns: the results of a search on the
    store as the call found it or as it left it, those with a score of at
    least the threshold. *)
Lemma retrieve_context_results (self : WikipediaRAG) (query : string)
      (st : state) (chunks : list WikipediaChunk) (scores : list Q) :
  snd (retrieve_context self query st) = Py.Ok (chunks, scores) ->
  exists searched,
    (chunks, scores) = split (filter above_threshold searched)
    /\ List.length searched <= Z.to_nat Config.TOP_K_RETRIEVAL
    /\ Forall (fun r =>
                 In (fst r)
                    (VectorStore.metadata
                       (vector_store (fst (retrieve_context self query st)))))
              searched.
Proof.
  destruct (retrieve_context_effects self query st) as (_ & (Hext & _) & _).
  destruct Hext as (added & Hadd).
  destruct (retrieve_context_cases self query st)
    as [(e & He) | (qe & first & Hq & Hs)];
    [rewrite He; discriminate|].
  assert (Hfirst : List.length first <= Z.to_nat Config.TOP_K_RETRIEVAL
                   /\ Forall (fun r =>
                                In (fst r)
                                   (VectorStore.metadata
                                      (vector_store
                                         (fst (retrieve_context self query
                                                                st)))))
                             first).
  { destruct (search_members _ _ _ _ Hs) as (Hl & _ & Hin).
    split; [exact Hl|]. rewrite Hadd.
    eapply Forall_impl; [| exact Hin]. cbv beta. intros r Hr.
    apply in_or_app. now left. }
  revert Hfirst.
  rewrite (retrieve_context_unfold self query st qe first Hq Hs).
  destruct (needs_auto_index _ _).
  - pose proof (auto_index_returns self query qe (map fst first)
                                   (map snd first) st) as Hret.
    destruct (auto_index self query qe (map fst first) (map snd first) st)
      as [st' [[c s] | e]]; cbn [fst snd]; [| discriminate].
    intros (Hl & Hin) Hr. injection Hr as Hr.
    destruct (Hret st' c s eq_refl) as [Hsame | (searched & _ & Hse & Hsp)].
    + injection Hsame as -> ->. exists first.
      rewrite filter_by_threshold_split in Hr. auto.
    + rewrite split_fst_snd in Hsp. injection Hsp as -> ->.
      rewrite filter_by_threshold_split in Hr.
      exists searched. split; [now symmetry|].
      destruct (search_members _ _ _ _ Hse) as (Hl' & _ & Hin').
      auto.
  - cbn [fst snd]. intros (Hl & Hin) Hr. injection Hr as Hr.
    exists first. auto.
Qed.

Lemma length_filter_le {A} (p : A -> bool) (l : list A) :
  List.length (filter p l) <= List.length l.
Proof.
  induction l as [|a l IH]; simpl; [lia|]. destruct (p a); simpl; lia.
Qed.

Lemma retrieve_context_members (self : WikipediaRAG) (query : string)
      (st : state) (chunks : list WikipediaChunk) (scores : list Q) :
  snd (retrieve_context self query st) = Py.Ok (chunks, scores) ->
  List.length chunks = List.length scores
  /\ List.length chunks <= Z.to_nat Config.TOP_K_RETRIEVAL
  /\ Forall (fun c =>
               In c (VectorStore.metadata
                       (vector_store (fst (retrieve_context self query st)))))
            chunks.
Proof.
  intros Hr.
  destruct (retrieve_context_results self query st chunks scores Hr)
    as (searched & Hsp & Hl & Hin).
  rewrite split_fst_snd in Hsp. injection Hsp as -> ->.
  rewrite !length_map. split; [reflexivity|]. split.
  - etransitivity; [apply length_filter_le | exact Hl].
  - rewrite Forall_map, Forall_forall. intros r Hr'.
    apply filter_In in Hr' as [Hr' _].
    rewrite Forall_forall in Hin. auto.
Qed.

(** X14.  The shape of the result.  Whenever [retrieve_context] returns, it
    returns as many scores as chunks, at most [TOP_K_RETRIEVAL] of them, and
    every chunk is one of the chunk list of the store as the call leaves
    it. *)
Theorem retrieve_context_result_shape (self : WikipediaRAG) (query : string)
        (st : state) (chunks : list WikipediaChunk) (scores : list Q) :
  snd (retrieve_context self query st) = Py.Ok (chunks, scores) ->
  List.length chunks = List.length scores
  /\ List.length chunks <= Z.to_nat Config.TOP_K_RETRIEVAL
  /\ Forall (fun c =>
               In c (VectorStore.metadata
                       (vector_store (fst (retrieve_context self query st)))))
            chunks.
Proof. apply retrieve_context_members. Qed.

(** X15.  The outside calls of one query.  Whatever happens, [retrieve_context]
    adds to the trace of outside calls nothing, or the fetcher, or the
    fetcher and the embedding of the fetched texts, or these two and the
    saving of the index, in this order: at most one of each, and the index
    is saved only after new chunks were embedded. *)
Theorem retrieve_context_outside_calls (self : WikipediaRAG)
        (query : string) (st : state) :
  exists t,
    calls (fst (retrieve_context self query st)) = calls st ++ t
    /\ query_calls query t.
Proof. apply retrieve_context_effects. Qed.

(** X16.  The store only grows.  Whether [retrieve_context] returns or raises,
    the chunk list it leaves starts with the chunk list it found, the index
    holds at least as many vectors as before, and the store keeps its
    [embedding_dim]. *)
Theorem retrieve_context_store_only_grows (self : WikipediaRAG)
        (query : string) (st : state) :
  store_extends (vector_store st)
                (vector_store (fst (retrieve_context self query st))).
Proof. apply retrieve_context_effects. Qed.

(** X17.  Alignment is kept.  With an embedding model that answers a batch with
    one row for each text, a store in which every vector has its chunk is
    left by [retrieve_context] as such a store, whether the call returns or
    raises. *)
Theorem retrieve_context_keeps_alignment (self : WikipediaRAG)
        (query : string) (st : state) :
  aligned (vector_store st) ->
  one_row_per_text (embedding_model self) ->
  aligned (vector_store (fst (retrieve_context self query st))).
Proof. apply retrieve_context_effects. Qed.

(** X18.  The context of a query.  The chunks [retrieve_context] returns are
    formatted into a context of at most [MAX_CONTEXT_LENGTH + 7]
    characters: there are at most eight of them, so at most seven line ends
    join their blocks. *)
Theorem retrieve_context_then_format_context (self : WikipediaRAG)
        (query : string) (st : state) (chunks : list WikipediaChunk)
        (scores : list Q) :
  snd (retrieve_context self query st) = Py.Ok (chunks, scores) ->
  Py.len (format_context chunks) <= Config.MAX_CONTEXT_LENGTH + 7.
Proof.
  intros Hr.
  destruct (retrieve_context_results self query st chunks scores Hr)
    as (searched & Hsp & Hl & _).
  rewrite split_fst_snd in Hsp. injection Hsp as -> _.
  assert (Hn : List.length (map fst (filter above_threshold searched)) <= 8).
  { rewrite length_map.
    etransitivity; [apply length_filter_le|].
    etransitivity; [exact Hl|]. apply Nat.leb_le. reflexivity. }
  destruct (map fst (filter above_threshold searched)) as [|c rest].
  - apply Nat.leb_le. vm_compute. reflexivity.
  - destruct (format_context_shape c rest) as (n & Hle & _ & _ & _ & _ & Hb).
    lia.
Qed.

(** X19.  Failures of a query.  [query] leaves the state as [retrieve_context]
    leaves it and raises exactly what [retrieve_context] raises: a failure
    of the language model never comes out of [query], it is turned into an
    answer.  Without chunks the answer is the fixed apology, whatever the
    language model would have said. *)
Theorem query_raises_what_retrieval_raises (self : WikipediaRAG)
        (llm_interface : Llm.LLMInterface) (question : string) (st : state) :
  fst (query self llm_interface question st)
  = fst (retrieve_context self question st)
  /\ (forall e,
        snd (query self llm_interface question st) = Py.Raise e
        <-> snd (retrieve_context self question st) = Py.Raise e)
  /\ (forall scores,
        snd (retrieve_context self question st) = Py.Ok ([], scores) ->
        snd (query self llm_interface question st) = Py.Ok no_context_answer).
Proof.
  unfold query, bindM, ret.
  destruct (retrieve_context self question st) as [st' [[chunks scores] | e]];
    cbn [fst snd].
  - split; [now destruct (is_empty chunks)|]. split.
    + intros e. destruct (is_empty chunks); cbn [snd]; split; discriminate.
    + intros s Hs. injection Hs as -> _. reflexivity.
  - split; [reflexivity|]. split; [| discriminate].
    intros e0. split; intros E; injection E as ->; reflexivity.
Qed.

(** X20.  After [clear_index].  The store is empty from then on, whether or not
    the empty index could be written to disk, and the next query whose
    embedding succeeds goes to the fetcher. *)
Theorem clear_index_then_retrieve_context (self : WikipediaRAG)
        (query : string) (st : state) :
  VectorStore.is_empty (vector_store (fst (clear_index self st))) = true
  /\ calls (fst (clear_index self st)) = calls st ++ [SaveIndex]
  /\ (forall qe,
        Embedding.embed_query (embedding_model self) query = Py.Ok qe ->
        exists more,
          calls (fst (retrieve_context self query (fst (clear_index self st))))
          = calls st ++ SaveIndex :: Fetch query :: more).
Proof.
  assert (Hst : fst (clear_index self st)
                = mkState (VectorStore.clear (vector_store st))
                          (calls st ++ [SaveIndex])).
  { unfold clear_index, bindM, with_store, log, read_store.
    cbn [vector_store calls].
    now destruct (save_index self _). }
  rewrite Hst. cbn [vector_store calls].
  split; [reflexivity|]. split; [reflexivity|].
  intros qe Hq.
  rewrite (retrieve_context_unfold self query
             (mkState (VectorStore.clear (vector_store st))
                      (calls st ++ [SaveIndex])) qe [] Hq eq_refl).
  cbn [map needs_auto_index is_empty orb].
  destruct (auto_index_calls self query qe [] []
              (mkState (VectorStore.clear (vector_store st))
                       (calls st ++ [SaveIndex]))) as (more & Hc).
  exists more. cbn [calls] in Hc. rewrite <- app_assoc in Hc. cbn [app] in Hc.
  destruct (auto_index self query qe [] [] _) as [st' [[c s] | e]];
    exact Hc.
Qed.

End PolicyEffects.

Lemma one_row_per_text_model_e1 : Props.one_row_per_text Samples.model_e1.
Proof.
  intros texts emb E. injection E as <-. simpl. apply length_map.
Qed.

Lemma retrieve_context_result_shape_witness :
  snd (@Rag.retrieve_context Samples.unit_kernel Samples.rag_one_page "alpha"
         Samples.fresh_state)
  = Py.Ok ([Samples.chunk_a], [1%Q])
  /\ List.length [Samples.chunk_a] = List.length [1%Q]
  /\ List.length [Samples.chunk_a] <= Z.to_nat Config.TOP_K_RETRIEVAL
  /\ Forall (fun c =>
               In c (VectorStore.metadata
                       (Rag.vector_store
                          (fst (@Rag.retrieve_context Samples.unit_kernel
                                  Samples.rag_one_page "alpha"
                                  Samples.fresh_state)))))
            [Samples.chunk_a].
Proof.
  assert (Hr : snd (@Rag.retrieve_context Samples.unit_kernel
                      Samples.rag_one_page "alpha" Samples.fresh_state)
               = Py.Ok ([Samples.chunk_a], [1%Q]))
    by (vm_compute; reflexivity).
  split; [exact Hr|].
  exact (@retrieve_context_result_shape Samples.unit_kernel
           Samples.rag_one_page "alpha" Samples.fresh_state _ _ Hr).
Defined.

Lemma retrieve_context_keeps_alignment_witness :
  Props.aligned (Rag.vector_store Samples.fresh_state)
  /\ Props.one_row_per_text (Rag.embedding_model Samples.rag_one_page)
  /\ Props.aligned
       (Rag.vector_store
          (fst (@Rag.retrieve_context Samples.unit_kernel Samples.rag_one_page
                  "alpha" Samples.fresh_state))).
Proof.
  assert (Ha : Props.aligned (Rag.vector_store Samples.fresh_state))
    by reflexivity.
  split; [exact Ha|]. split; [exact one_row_per_text_model_e1|].
  exact (@retrieve_context_keeps_alignment Samples.unit_kernel
           Samples.rag_one_page "alpha" Samples.fresh_state Ha
           one_row_per_text_model_e1).
Defined.

Lemma retrieve_context_then_format_context_witness :
  snd (@Rag.retrieve_context Samples.unit_kernel Samples.rag_one_page "alpha"
         Samples.fresh_state)
  = Py.Ok ([Samples.chunk_a], [1%Q])
  /\ Py.len (Rag.format_context [Samples.chunk_a])
     <= Config.MAX_CONTEXT_LENGTH + 7.
Proof.
  assert (Hr : snd (@Rag.retrieve_context Samples.unit_kernel
                      Samples.rag_one_page "alpha" Samples.fresh_state)
               = Py.Ok ([Samples.chunk_a], [1%Q]))
    by (vm_compute; reflexivity).
  split; [exact Hr|].
  exact (@retrieve_context_then_format_context Samples.unit_kernel
           Samples.rag_one_page "alpha" Samples.fresh_state _ _ Hr).
Defined.

(* ================================================================== *)
(** * [RAGIntegration]: [should_use_rag] and [enhance_response]         *)
(* ================================================================== *)

Section Substrings.

Lemma append_assoc (a b c : string) :
  ((a ++ b) ++ c = a ++ (b ++ c))%string.
Proof. induction a as [|x a IH]; simpl; [reflexivity | now rewrite IH]. Qed.

Lemma startswith_spec (sub s : string) :
  Py.startswith sub s = true <-> exists r, s = (sub ++ r)%string.
Proof.
  revert s. induction sub as [|a sub IH]; intros s; simpl.
  - split; [intros _; now exists s | reflexivity].
  - destruct s as [|b s].
    + split; [discriminate | intros (r & Hr); discriminate].
    + rewrite andb_true_iff, IH. split.
      * intros (Hab & r & ->). apply Ascii.eqb_eq in Hab as ->. now exists r.
      * intros (r & Hr). injection Hr as -> ->.
        split; [apply Ascii.eqb_refl | now exists r].
Qed.

(** [sub in s] holds exactly when [s] is some text, then [sub], then some
    text. *)
Lemma contains_spec (sub s : string) :
  Py.contains sub s = true <-> exists l r, s = (l ++ sub ++ r)%string.
Proof.
  induction s as [|c s IH]; cbn [Py.contains];
    rewrite orb_true_iff, startswith_spec.
  - split.
    + intros [(r & Hr) | Hf]; [now exists EmptyString, r | discriminate].
    + intros (l & r & Hr). left. destruct l; [now exists r | discriminate].
  - rewrite IH. split.
    + intros [(r & Hr) | (l & r & ->)];
        [now exists EmptyString, r | now exists (String c l), r].
    + intros (l & r & Hr). destruct l as [|x l].
      * left. now exists r.
      * right. injection Hr as -> ->. now exists l, r.
Qed.

Lemma contains_trans (a b c : string) :
  Py.contains a b = true -> Py.contains b c = true -> Py.contains a c = true.
Proof.
  rewrite !contains_spec. intros (l1 & r1 & ->) (l2 & r2 & ->).
  exists (l2 ++ l1)%string, (r1 ++ r2)%string.
  now rewrite !append_assoc.
Qed.

End Substrings.

Section ShouldUseRag.
Import Integration.

(** X21.  Shadowed keywords.  A trigger keyword whose lower-case form contains
    one of the conversational patterns never triggers: every query that
    contains the keyword, in any case, contains the pattern too, and the
    patterns are tested first.  With the default configuration this is so
    for "autonomic dysreflexia", which contains "no". *)
Theorem should_use_rag_shadowed_keyword (self : RAGIntegration)
        (query keyword pattern : string) :
  In pattern conversational_patterns ->
  Py.contains pattern (Py.lower keyword) = true ->
  Py.contains (Py.lower keyword) (Py.lower query) = true ->
  should_use_rag self query = false.
Proof.
  intros Hin Hp Hk. unfold should_use_rag.
  destruct (negb (is_available self)); [reflexivity|].
  destruct (Py.len query <? 20); [reflexivity|].
  assert (He : existsb (fun pattern => Py.contains pattern (Py.lower query))
                       conversational_patterns = true).
  { apply existsb_exists. exists pattern. split; [exact Hin|].
    eapply contains_trans; eauto. }
  now rewrite He.
Qed.

End ShouldUseRag.

Lemma should_use_rag_shadowed_keyword_witness :
  In "no"%string Integration.conversational_patterns
  /\ Py.contains "no" (Py.lower "autonomic dysreflexia") = true
  /\ Py.contains (Py.lower "autonomic dysreflexia")
                 (Py.lower "What is Autonomic Dysreflexia exactly?") = true
  /\ In "autonomic dysreflexia"%string
        (Integration.trigger_keywords
           (Integration.config Samples.integration_default))
  /\ Integration.should_use_rag Samples.integration_default
       "What is Autonomic Dysreflexia exactly?" = false.
Proof.
  assert (Hin : In "no"%string Integration.conversational_patterns)
    by (simpl; tauto).
  assert (Hp : Py.contains "no" (Py.lower "autonomic dysreflexia") = true)
    by (vm_compute; reflexivity).
  assert (Hk : Py.contains (Py.lower "autonomic dysreflexia")
                 (Py.lower "What is Autonomic Dysreflexia exactly?") = true)
    by (vm_compute; reflexivity).
  split; [exact Hin|]. split; [exact Hp|]. split; [exact Hk|].
  split; [simpl; tauto|].
  exact (should_use_rag_shadowed_keyword Samples.integration_default
           "What is Autonomic Dysreflexia exactly?" "autonomic dysreflexia"
           "no" Hin Hp Hk).
Defined.

(** Queries that do trigger, and one that is too short. *)
Example should_use_rag_examples :
  Integration.should_use_rag Samples.integration_default
    "Which cushion helps with pressure sores?" = true
  /\ Integration.should_use_rag Samples.integration_default
       "Please explain how a baclofen pump works" = true
  /\ Integration.should_use_rag Samples.integration_default
       "spasticity?" = false.
Proof. vm_compute. repeat split; reflexivity. Qed.

Section EnhanceResponse.
Import Retriever Props Integration.
Context `{Faiss.Kernel}.

Lemma collect_sources_spec (pairs : list (WikipediaChunk * Q)) :
  forall i context_parts sources,
  exists blocks,
    collect_sources i pairs context_parts sources
    = (context_parts ++ blocks,
       sources ++ map (fun p => source_name (fst p)) pairs)
    /\ List.length blocks = List.length pairs.
Proof.
  induction pairs as [|[chunk score] rest IH]; intros i cp srcs;
    cbn [collect_sources].
  - exists []. now rewrite !app_nil_r.
  - destruct (IH (S i) (cp ++ [source_block i chunk])
                 (srcs ++ [source_name chunk])) as (blocks & -> & Hl).
    exists (source_block i chunk :: blocks).
    rewrite <- !app_assoc. cbn [app map fst List.length].
    split; [reflexivity | now rewrite Hl].
Qed.

Lemma existsb_eqb_In (x : string) (seen : list string) :
  existsb (String.eqb x) seen = true <-> In x seen.
Proof.
  rewrite existsb_exists. split.
  - intros (y & Hy & E). apply String.eqb_eq in E. now subst.
  - intros Hx. exists x. split; [exact Hx | apply String.eqb_refl].
Qed.

(** [dict.fromkeys] keeps every key once. *)
Lemma fromkeys_spec (l : list string) :
  forall seen,
    NoDup (Py.fromkeys seen l)
    /\ (forall x, In x (Py.fromkeys seen l) <-> In x l /\ ~ In x seen).
Proof.
  induction l as [|a l IH]; intros seen; cbn [Py.fromkeys].
  - split; [constructor | intros x; simpl; tauto].
  - destruct (existsb (String.eqb a) seen) eqn:E.
    + apply existsb_eqb_In in E.
      destruct (IH seen) as (Hnd & Hin). split; [exact Hnd|].
      intros x. rewrite Hin. simpl. split; [tauto|].
      intros ([-> | Hx] & Hs); [contradiction | tauto].
    + assert (Hns : ~ In a seen).
      { intros Ha. apply existsb_eqb_In in Ha. congruence. }
      destruct (IH (a :: seen)) as (Hnd & Hin). split.
      * constructor; [| exact Hnd]. rewrite Hin. simpl. tauto.
      * intros x. simpl. rewrite Hin. simpl.
        destruct (string_dec a x) as [-> | Hne]; tauto.
Qed.

Lemma In_take {A} (x : A) (n : nat) (l : list A) :
  In x (firstn n l) -> In x l.
Proof.
  revert n. induction l as [|a l IH]; intros [|n]; simpl; try tauto.
  intros [-> | Hx]; [now left | right; eauto].
Qed.

Lemma NoDup_take {A} (n : nat) (l : list A) :
  NoDup l -> NoDup (firstn n l).
Proof.
  intros Hnd. revert n. induction Hnd as [|a l Ha Hnd IH]; intros [|n];
    simpl; try constructor; auto.
  intros Hin. apply Ha. eapply In_take; eauto.
Qed.

(** X22.  What the enhancement hands over.  When [enhance_response] returns a
    context, the RAG system is there and the state is the one its
    [retrieve_context] left; the context holds at most 4003 characters (4000
    and the dots); there are between one and five sources, no source twice,
    and every source is "Wikipedia: " followed by the title of a chunk of the
    store: the URL of a chunk is never reported. *)
Theorem enhance_response_bounds (self : RAGIntegration) (query : string)
        (st st' : Rag.state) (full_context : string)
        (sources : list string) :
  enhance_response self query st = (st', Some (full_context, sources)) ->
  (exists rag,
      _rag_system self = Some rag
      /\ st' = fst (Rag.retrieve_context rag query st))
  /\ Py.len full_context <= 4003
  /\ 1 <= List.length sources <= 5
  /\ NoDup sources
  /\ Forall (fun s =>
               exists c,
                 In c (VectorStore.metadata (Rag.vector_store st'))
                 /\ s = source_name c) sources.
Proof.
  unfold enhance_response.
  destruct (_rag_system self) as [rag|]; [| discriminate].
  pose proof (retrieve_context_members rag query st) as Hmem.
  destruct (Rag.retrieve_context rag query st)
    as [st1 [[chunks scores] | e]] eqn:Er; [| discriminate].
  cbn [fst snd] in Hmem.
  destruct (Hmem chunks scores eq_refl) as (Hlen & _ & Hin). clear Hmem.
  destruct chunks as [|c0 chunks]; cbn [Rag.is_empty]; [discriminate|].
  destruct scores as [|s0 scores]; [discriminate Hlen|].
  destruct (collect_sources_spec (combine (c0 :: chunks) (s0 :: scores))
                                 0 [] []) as (blocks & -> & Hb).
  cbn [app]. destruct blocks as [|b blocks]; [discriminate Hb|].
  cbn [Rag.is_empty].
  generalize (Py.join (Llm.nl ++ Llm.nl) (b :: blocks)). intros joined.
  remember (firstn 5 (Py.fromkeys []
                        (map (fun p => source_name (fst p))
                             (combine (c0 :: chunks) (s0 :: scores)))))
    as found eqn:Hfound.
  intros E. injection E as <- <- <-.
  split; [exists rag; split; [reflexivity | now rewrite Er]|].
  destruct (fromkeys_spec
              (map (fun p => source_name (fst p))
                   (combine (c0 :: chunks) (s0 :: scores))) [])
    as (Hnd & Hfk).
  split; [| split; [| split]].
  - destruct (Nat.ltb_spec 4000 (Py.len joined)).
    + unfold Py.len. rewrite length_append.
      pose proof (length_slice_le joined 0 4000) as Hs.
      unfold Py.len in Hs. cbn [String.length]. lia.
    + lia.
  - rewrite Hfound. split; [| apply firstn_le_length].
    cbn [combine map fst Py.fromkeys existsb firstn List.length]. lia.
  - rewrite Hfound. now apply NoDup_take.
  - apply Forall_forall. intros s Hs. rewrite Hfound in Hs.
    apply In_take in Hs. apply Hfk in Hs as [Hs _].
    apply in_map_iff in Hs as ([c sc] & <- & Hp).
    apply in_combine_l in Hp. exists c. split; [| reflexivity].
    rewrite Forall_forall in Hin. now apply Hin.
Qed.

End EnhanceResponse.
Lemma enhance_response_bounds_witness :
  @Integration.enhance_response Samples.unit_kernel
     Samples.integration_default "alpha" Samples.state_ab
  = (Samples.state_ab,
     Some (("Source 1: A" ++ Llm.nl ++ "Alpha.")%string,
           ["Wikipedia: A"%string]))
  /\ (exists rag,
         Integration._rag_system Samples.integration_default = Some rag
         /\ Samples.state_ab
            = fst (@Rag.retrieve_context Samples.unit_kernel rag "alpha"
                     Samples.state_ab))
  /\ Py.len ("Source 1: A" ++ Llm.nl ++ "Alpha.")%string <= 4003
  /\ 1 <= List.length ["Wikipedia: A"%string] <= 5
  /\ NoDup ["Wikipedia: A"%string]
  /\ Forall (fun s =>
               exists c,
                 In c (VectorStore.metadata
                         (Rag.vector_store Samples.state_ab))
                 /\ s = Integration.source_name c)
            ["Wikipedia: A"%string].
Proof.
  assert (He : @Integration.enhance_response Samples.unit_kernel
                 Samples.integration_default "alpha" Samples.state_ab
               = (Samples.state_ab,
                  Some (("Source 1: A" ++ Llm.nl ++ "Alpha.")%string,
                        ["Wikipedia: A"%string])))
    by (vm_compute; reflexivity).
  split; [exact He|].
  exact (@enhance_response_bounds Samples.unit_kernel
           Samples.integration_default "alpha" Samples.state_ab _ _ _ He).
Defined.

(* ================================================================== *)
(** * [MemoryManager]: which rows are accepted, which history is kept   *)
(* ================================================================== *)

Section MemoryDetails.
Import Props Memory.
Variable self : MemoryManager.

Lemma new_ChatMessage_ok (r : MessageRole) (c : string)
      (extra : option string) :
  (content_ok c ->
   new_ChatMessage r c extra = Py.Ok (mkChat r (Py.strip c) None extra))
  /\ ((exists m, new_ChatMessage r c extra = Py.Ok m) -> content_ok c).
Proof.
  unfold new_ChatMessage, content_ok. rewrite strip_truthy, negb_involutive.
  destruct (Nat.ltb_spec (Py.len c) 1) as [H1 | H1];
    destruct (Z.ltb_spec 32000 (Z.of_nat (Py.len c))) as [H2 | H2];
    cbn [orb];
    try (split; [intros (? & ? & ?); lia | intros (m & Hm); discriminate]).
  destruct (Py.blank c).
  - split; [intros (_ & _ & ?); discriminate
           | intros (m & Hm); discriminate].
  - split; [reflexivity | intros _; repeat split; auto].
Qed.

Lemma MessageRole_of_ok (value : string) :
  (exists r, MessageRole_of value = Py.Ok r) <-> role_ok value.
Proof.
  unfold MessageRole_of, role_ok.
  destruct (String.eqb_spec value "system") as [-> | H1];
    [split; eauto|].
  destruct (String.eqb_spec value "user") as [-> | H2];
    [split; eauto|].
  destruct (String.eqb_spec value "assistant") as [-> | H3];
    [split; eauto|].
  split; [intros (r & Hr); discriminate | tauto].
Qed.

(** The conversion goes through exactly on lists of acceptable rows, and
    then gives the rows that are not deleted, in their order, each with its
    content stripped. *)
Lemma convert_messages_ok (messages : list Message) :
  forall all_messages,
    ((exists all, convert_messages messages all_messages = Py.Ok all)
     <-> Forall row_ok messages)
    /\ (forall all,
          convert_messages messages all_messages = Py.Ok all ->
          map content all
          = map content all_messages
            ++ map (fun m => Py.strip (msg_content m)) (live_rows messages)).
Proof.
  induction messages as [|msg rest IH]; intros acc; cbn [convert_messages].
  - split; [split; [constructor | eauto]|].
    intros all E. injection E as <-. simpl. now rewrite app_nil_r.
  - cbn [live_rows filter]. fold (live_rows rest).
    destruct (is_deleted msg) eqn:Ed; cbn [negb].
    + destruct (IH acc) as (Hiff & Hc). split; [| exact Hc].
      rewrite Hiff. split.
      * intros Hr. constructor; [now left | exact Hr].
      * intros Hr. now inversion Hr.
    + assert (Hrow : row_ok msg
                     <-> role_ok (msg_role msg) /\ content_ok (msg_content msg)).
      { unfold row_ok. rewrite Ed. split; [intros [? | ?]; [discriminate | auto]
                                          | auto]. }
      pose proof (MessageRole_of_ok (msg_role msg)) as Hrole.
      destruct (MessageRole_of (msg_role msg)) as [r | e]; cbn [Py.bind].
      * destruct (new_ChatMessage_ok r (msg_content msg) (msg_extra_data msg))
          as (Hmk & Hmk').
        destruct (new_ChatMessage r (msg_content msg) (msg_extra_data msg))
          as [chat_msg | e] eqn:En; cbn [Py.bind].
        -- assert (Hcok : content_ok (msg_content msg)) by eauto.
           specialize (Hmk Hcok). injection Hmk as ->.
           destruct (IH (acc ++ [mkChat r (Py.strip (msg_content msg)) None
                                        (msg_extra_data msg)]))
             as (Hiff & Hc).
           split.
           ++ rewrite Hiff. split.
              ** intros Hr. constructor; [| exact Hr].
                 apply Hrow. split; [apply Hrole; eauto | exact Hcok].
              ** intros Hr. now inversion Hr.
           ++ intros all E. rewrite (Hc all E), map_app, <- app_assoc.
              reflexivity.
        -- split; [| discriminate]. split; [intros (all & E); discriminate|].
           intros Hr. inversion Hr as [|? ? Hm _]; subst.
           apply Hrow in Hm as [_ Hm]. apply Hmk in Hm. discriminate.
      * split; [| discriminate]. split; [intros (all & E); discriminate|].
        intros Hr. inversion Hr as [|? ? Hm _]; subst.
        apply Hrow in Hm as [Hm _]. apply Hrole in Hm as (r & Hm).
        discriminate.
Qed.

(** X24.  Which calls return.  [prepare_context] returns exactly when the system
    prompt is absent, empty or acceptable as a message, and every row that
    is not deleted has a known role and an acceptable content; one row with
    another role, with a content of white space only or of more than 32000
    characters makes the call raise, however old the row is. *)
Theorem prepare_context_returns_iff_rows_valid (messages : list Message)
        (system_prompt : option string) :
  (exists r, prepare_context self messages system_prompt = Py.Ok r)
  <-> prompt_ok system_prompt /\ Forall row_ok messages.
Proof.
  unfold prepare_context.
  destruct (convert_messages_ok messages []) as (Hconv & _).
  assert (Hrest : forall sys,
             (exists r,
                 (all_messages <- convert_messages messages [] ;;
                  Py.Ok (sys ++ _apply_truncation_strategy self all_messages
                                   (context_window_tokens (config self)
                                    - match sys with
                                      | first :: _ =>
                                          count_message_tokens self first
                                      | [] => 0
                                      end)%Z,
                         count_messages_tokens self
                           (sys ++ _apply_truncation_strategy self all_messages
                                     (context_window_tokens (config self)
                                      - match sys with
                                        | first :: _ =>
                                            count_message_tokens self first
                                        | [] => 0
                                        end)%Z))) = Py.Ok r)
             <-> Forall row_ok messages).
  { intros sys. rewrite <- Hconv.
    destruct (convert_messages messages []) as [all | e]; cbn [Py.bind].
    - split; eauto.
    - split; intros (r & Hr); discriminate. }
  destruct system_prompt as [prompt|]; cbn [prompt_ok].
  - destruct prompt as [|c p] eqn:Ep; cbn [Py.truthy].
    + cbn [Py.bind]. rewrite (Hrest []). tauto.
    + rewrite <- Ep.
      destruct (new_ChatMessage_ok SYSTEM prompt None) as (Hmk & Hmk').
      destruct (new_ChatMessage SYSTEM prompt None) as [m | e];
        cbn [Py.bind].
      * rewrite (Hrest [m]). split; [| tauto].
        intros Hr. split; [right; eauto | exact Hr].
      * split; [intros (r & Hr); discriminate|].
        intros ([Hp | Hp] & _); [subst; discriminate|].
        apply Hmk in Hp. discriminate.
  - cbn [Py.bind]. rewrite (Hrest []). tauto.
Qed.

Lemma messages_cost_snoc (l : list ChatMessage) (m : ChatMessage) :
  messages_cost self (l ++ [m])
  = (messages_cost self l + count_message_tokens self m)%Z.
Proof. rewrite messages_cost_app. simpl. lia. Qed.

(** The selection loop, read in the order of the conversation: it takes
    the messages from the newest on, as long as they fit, and the first one
    it leaves does not fit any more. *)
Lemma take_recent_newest (messages : list ChatMessage) (available : Z) :
  forall used result,
  exists dropped taken,
    messages = dropped ++ taken
    /\ take_recent self (rev messages) available used result = taken ++ result
    /\ (forall m, last_opt dropped = Some m ->
                  (available
                   < used + messages_cost self taken
                     + count_message_tokens self m)%Z).
Proof.
  induction messages as [|x ms IH] using rev_ind; intros used result.
  - exists [], []. simpl. split; [reflexivity|]. split; [reflexivity|].
    discriminate.
  - rewrite rev_app_distr. cbn [rev app take_recent].
    destruct (Z.leb_spec (used + count_message_tokens self x) available)
      as [Hfit | Hover].
    + destruct (IH (used + count_message_tokens self x)%Z (x :: result))
        as (dropped & taken & -> & Heq & Hmax).
      exists dropped, (taken ++ [x]).
      rewrite Heq, <- !app_assoc. split; [reflexivity|].
      split; [reflexivity|].
      intros m Hm. specialize (Hmax m Hm).
      rewrite messages_cost_snoc. lia.
    + exists (ms ++ [x]), []. rewrite app_nil_r.
      split; [reflexivity|]. split; [reflexivity|].
      intros m Hm. rewrite last_opt_snoc in Hm. injection Hm as <-.
      simpl. lia.
Qed.

(** The truncation keeps a run of the newest messages; when it keeps fewer
    than [max_history], the newest message it drops does not fit what is
    left of the budget. *)
Lemma apply_truncation_strategy_recent (messages : list ChatMessage)
      (available : Z) :
  exists dropped,
    messages
    = dropped ++ _apply_truncation_strategy self messages available
    /\ (forall m,
          last_opt dropped = Some m ->
          (Z.of_nat (List.length
                       (_apply_truncation_strategy self messages available))
           < max_history (config self))%Z ->
          (available
           < messages_cost self
               (_apply_truncation_strategy self messages available)
             + count_message_tokens self m)%Z).
Proof.
  unfold _apply_truncation_strategy.
  destruct messages as [|m0 ms] eqn:Em.
  { exists []. split; [reflexivity | discriminate]. }
  rewrite <- Em. clear Em m0 ms.
  destruct (take_recent_newest messages available 0%Z [])
    as (dropped & taken & Hsplit & Heq & Hmax).
  rewrite Heq, app_nil_r.
  destruct (Z.ltb_spec (max_history (config self))
                       (Z.of_nat (List.length taken))) as [Hcap | Hno].
  - assert (Hk : exists k, Py.slice_from taken (- max_history (config self))
                           = skipn k taken
                           /\ ((0 < max_history (config self))%Z ->
                               k = List.length taken
                                   - Z.to_nat (max_history (config self)))).
    { unfold Py.slice_from. destruct (_ <? 0)%Z eqn:E.
      - eexists. split; [reflexivity|]. intros _. lia.
      - eexists. split; [reflexivity|]. apply Z.ltb_ge in E. lia. }
    destruct Hk as (k & -> & Hk).
    exists (dropped ++ firstn k taken).
    rewrite <- app_assoc, firstn_skipn. split; [exact Hsplit|].
    intros m _ Hlen. exfalso. rewrite length_skipn in Hlen.
    destruct (Z.ltb_spec 0 (max_history (config self))) as [Hpos | Hneg];
      [| lia].
    specialize (Hk Hpos). lia.
  - exists dropped. split; [exact Hsplit|].
    intros m Hm _. specialize (Hmax m Hm). lia.
Qed.

(** X25.  The history that is kept.  When [prepare_context] returns, the rows
    that are not deleted were converted in their order, each content
    stripped; what is returned is the system message, if any, followed by a
    run of the newest of these messages: what is dropped is dropped from the
    old end only, and the order is kept.  When fewer than [max_history]
    messages are kept, the newest dropped message does not fit what the
    system message leaves of the window. *)
Theorem prepare_context_keeps_newest_run (messages : list Message)
        (system_prompt : option string) (chat : list ChatMessage)
        (total : Z) :
  prepare_context self messages system_prompt = Py.Ok (chat, total) ->
  exists sys all dropped kept,
    chat = sys ++ kept
    /\ List.length sys <= 1
    /\ convert_messages messages [] = Py.Ok all
    /\ map content all
       = map (fun m => Py.strip (msg_content m)) (live_rows messages)
    /\ all = dropped ++ kept
    /\ (forall m,
          last_opt dropped = Some m ->
          (Z.of_nat (List.length kept) < max_history (config self))%Z ->
          (context_window_tokens (config self) - messages_cost self sys
           < messages_cost self kept + count_message_tokens self m)%Z).
Proof.
  unfold prepare_context.
  destruct (match system_prompt with Some _ => _ | None => _ end)
    as [sys | e] eqn:Esys; [| discriminate].
  apply system_part in Esys.
  cbn [Py.bind].
  destruct (convert_messages_ok messages []) as (_ & Hc).
  destruct (convert_messages messages []) as [all | e]; [| discriminate].
  specialize (Hc all eq_refl). cbn [map app] in Hc.
  cbn [Py.bind]. intros E. injection E as Hchat _.
  set (budget := (context_window_tokens (config self)
                   - match sys with
                     | first :: _ => count_message_tokens self first
                     | [] => 0
                     end)%Z) in *.
  assert (Hb : budget
               = (context_window_tokens (config self)
                  - messages_cost self sys)%Z).
  { unfold budget. destruct Esys as [-> | (m & -> & _)]; simpl; lia. }
  destruct (apply_truncation_strategy_recent all budget)
    as (dropped & Hsplit & Hmax).
  exists sys, all, dropped, (_apply_truncation_strategy self all budget).
  split; [now symmetry|]. split.
  { destruct Esys as [-> | (m & -> & _)]; simpl; lia. }
  split; [reflexivity|]. split; [exact Hc|]. split; [exact Hsplit|].
  intros m Hm Hlen. rewrite <- Hb. now apply Hmax.
Qed.

End MemoryDetails.

Section Optimize.
Import Props Memory.

Lemma adjacent_snoc {A} (R : A -> A -> Prop) (l : list A) (a : A) :
  adjacent R l -> (forall x, last_opt l = Some x -> R x a) ->
  adjacent R (l ++ [a]).
Proof.
  induction l as [|x l IH]; [simpl; auto|].
  destruct l as [|y t].
  - simpl. intros _ Hl. split; [now apply Hl | exact I].
  - intros [Hxy Ht] Hl. cbn [app adjacent]. split; [exact Hxy|].
    apply IH; [exact Ht | exact Hl].
Qed.

Lemma adjacent_map {A B} (f : A -> B) (R : B -> B -> Prop) (l : list A) :
  adjacent R (map f l) <-> adjacent (fun a b => R (f a) (f b)) l.
Proof.
  induction l as [|x l IH]; [simpl; tauto|].
  destruct l as [|y t]; [simpl; tauto|].
  cbn [map adjacent] in *. now rewrite IH.
Qed.

Lemma total_tokens_app (l1 l2 : list StoredMessage) :
  total_tokens (l1 ++ l2) = (total_tokens l1 + total_tokens l2)%Z.
Proof. induction l1 as [|m l1 IH]; simpl; [reflexivity | rewrite IH; lia]. Qed.

Lemma merge_into_last_snoc (pre : list StoredMessage)
      (last_message message : StoredMessage) :
  merge_into_last (pre ++ [last_message]) message
  = pre ++ [mkStored (stored_role last_message)
                     (stored_content last_message ++ blank_line
                      ++ stored_content message)%string
                     (token_count last_message + token_count message)%Z
                     (stored_is_deleted last_message)].
Proof.
  induction pre as [|p pre IH]; [reflexivity|].
  cbn [app merge_into_last]. rewrite IH.
  destruct (pre ++ [last_message]) eqn:E; [now destruct pre | reflexivity].
Qed.

(** Joining a text that was glued with the separator gives what joining its
    two parts gives. *)
Lemma join_glued (sep a b : string) (before after : list string) :
  Py.join sep (before ++ (a ++ sep ++ b)%string :: after)
  = Py.join sep (before ++ a :: b :: after).
Proof.
  induction before as [|p before IH].
  - cbn [app Py.join]. destruct after as [|r after].
    + reflexivity.
    + now rewrite !append_assoc.
  - cbn [app].
    destruct (before ++ (a ++ sep ++ b)%string :: after) as [|x xs] eqn:E1;
      [now destruct before|].
    destruct (before ++ a :: b :: after) as [|y ys] eqn:E2;
      [now destruct before|].
    change (Py.join sep (p :: x :: xs))
      with (p ++ sep ++ Py.join sep (x :: xs))%string.
    change (Py.join sep (p :: y :: ys))
      with (p ++ sep ++ Py.join sep (y :: ys))%string.
    now rewrite IH.
Qed.

Local Abbreviation differ := (fun a b : string => a <> b).

(** The loop: the roles of neighbours in [optimized] differ throughout,
    [last_role] is the role of its last row, and nothing is lost of the
    tokens and of the text of the rows that are not deleted. *)
Lemma optimize_loop_spec (messages : list StoredMessage) :
  forall optimized last_role,
    last_role = last_opt (map stored_role optimized) ->
    adjacent differ (map stored_role optimized) ->
    Forall (fun m => stored_is_deleted m = false) optimized ->
    adjacent differ
             (map stored_role (optimize_loop messages optimized last_role))
    /\ Forall (fun m => stored_is_deleted m = false)
              (optimize_loop messages optimized last_role)
    /\ total_tokens (optimize_loop messages optimized last_role)
       = (total_tokens optimized + total_tokens (live_messages messages))%Z
    /\ Py.join blank_line
               (map stored_content
                    (optimize_loop messages optimized last_role))
       = Py.join blank_line
                 (map stored_content optimized
                  ++ map stored_content (live_messages messages))
    /\ List.length (optimize_loop messages optimized last_role)
       <= List.length optimized + List.length (live_messages messages).
Proof.
  induction messages as [|message rest IH]; intros optimized last_role
    Hlast Hadj Hlive; cbn [optimize_loop live_messages filter].
  - rewrite app_nil_r. simpl. repeat split; auto; lia.
  - fold (live_messages rest).
    destruct (stored_is_deleted message) eqn:Ed; cbn [negb].
    + now apply IH.
    + destruct (same_role (stored_role message) last_role
                && match optimized with [] => false | _ :: _ => true end)
        eqn:Ec.
      * apply andb_true_iff in Ec as [_ Hne].
        destruct (exists_last (l := optimized)) as (pre & last_message & ->);
          [intros ->; discriminate|].
        rewrite merge_into_last_snoc.
        set (merged := mkStored (stored_role last_message)
                                (stored_content last_message ++ blank_line
                                 ++ stored_content message)%string
                                (token_count last_message
                                 + token_count message)%Z
                                (stored_is_deleted last_message)).
        assert (Hroles : map stored_role (pre ++ [merged])
                         = map stored_role (pre ++ [last_message])).
        { now rewrite !map_app. }
        destruct (IH (pre ++ [merged]) last_role)
          as (R1 & R2 & R3 & R4 & R5).
        -- now rewrite Hroles.
        -- now rewrite Hroles.
        -- apply Forall_app in Hlive as [Hp Hl]. apply Forall_app.
           split; [exact Hp|]. constructor; [| constructor].
           now inversion Hl.
        -- split; [exact R1|]. split; [exact R2|].
           split; [| split].
           ++ rewrite R3, !total_tokens_app. simpl. lia.
           ++ rewrite R4, !map_app, <- !app_assoc. cbn [map app].
              apply join_glued.
           ++ rewrite length_app in *. simpl in *. lia.
      * destruct (IH (optimized ++ [message]) (Some (stored_role message)))
          as (R1 & R2 & R3 & R4 & R5).
        -- rewrite map_app. cbn [map]. now rewrite last_opt_snoc.
        -- rewrite map_app. cbn [map]. apply adjacent_snoc; [exact Hadj|].
           intros x Hx. rewrite <- Hlast in Hx. subst last_role.
           destruct optimized as [|o os]; [discriminate|].
           rewrite andb_true_r, Hx in Ec. cbn [same_role] in Ec.
           intros E. subst x. now rewrite String.eqb_refl in Ec.
        -- apply Forall_app. split; [exact Hlive|].
           constructor; [exact Ed | constructor].
        -- split; [exact R1|]. split; [exact R2|].
           split; [| split].
           ++ rewrite R3, total_tokens_app. simpl. lia.
           ++ rewrite R4, map_app, <- app_assoc. reflexivity.
           ++ rewrite length_app in R5. simpl in *. lia.
Qed.

(** X26.  Merging runs.  In what [optimize_conversation_history] returns no row
    is deleted and no two neighbours have the same role; there are at most
    as many rows as rows that are not deleted; and nothing of these is lost:
    the token counts add up to the same total, and the contents, joined by
    blank lines, give the same text. *)
Theorem optimize_conversation_history_merges_runs (self : MemoryManager)
        (messages : list StoredMessage) :
  adjacent (fun a b => stored_role a <> stored_role b)
           (optimize_conversation_history self messages)
  /\ Forall (fun m => stored_is_deleted m = false)
            (optimize_conversation_history self messages)
  /\ List.length (optimize_conversation_history self messages)
     <= List.length (live_messages messages)
  /\ total_tokens (optimize_conversation_history self messages)
     = total_tokens (live_messages messages)
  /\ Py.join blank_line
             (map stored_content (optimize_conversation_history self messages))
     = Py.join blank_line (map stored_content (live_messages messages)).
Proof.
  unfold optimize_conversation_history.
  destruct messages as [|m0 ms] eqn:Em.
  { simpl. repeat split; auto. }
  rewrite <- Em. clear Em m0 ms.
  destruct (optimize_loop_spec messages [] None eq_refl I (Forall_nil _))
    as (R1 & R2 & R3 & R4 & R5).
  split; [now apply adjacent_map in R1|]. split; [exact R2|].
  split; [simpl in R5; lia|]. split; [simpl in R3; lia | exact R4].
Qed.

End Optimize.

(** Two rows of the user are merged, the deleted row is left out. *)
Example optimize_conversation_history_example :
  Memory.optimize_conversation_history Samples.manager_20 Samples.stored_rows
  = [Memory.mkStored "user"
                     ("hello" ++ Memory.blank_line ++ "are you there?")
                     6 false;
     Memory.mkStored "assistant" "yes" 1 false].
Proof. reflexivity. Qed.

Lemma prepare_context_keeps_newest_run_witness :
  Memory.prepare_context Samples.manager_20 Samples.history_two None
  = Py.Ok ([Memory.mkChat Memory.USER (Samples.replicate 48 "b") None None],
           26%Z)
  /\ exists sys all dropped kept,
       [Memory.mkChat Memory.USER (Samples.replicate 48 "b") None None]
       = sys ++ kept
       /\ List.length sys <= 1
       /\ Memory.convert_messages Samples.history_two [] = Py.Ok all
       /\ map Memory.content all
          = map (fun m => Py.strip (Memory.msg_content m))
                (Props.live_rows Samples.history_two)
       /\ all = dropped ++ kept
       /\ (forall m,
             Props.last_opt dropped = Some m ->
             (Z.of_nat (List.length kept)
              < Memory.max_history (Memory.config Samples.manager_20))%Z ->
             (Memory.context_window_tokens (Memory.config Samples.manager_20)
              - Props.messages_cost Samples.manager_20 sys
              < Props.messages_cost Samples.manager_20 kept
                + Memory.count_message_tokens Samples.manager_20 m)%Z).
Proof.
  assert (Hp : Memory.prepare_context Samples.manager_20 Samples.history_two
                                      None
               = Py.Ok ([Memory.mkChat Memory.USER (Samples.replicate 48 "b")
                                       None None], 26%Z))
    by (vm_compute; reflexivity).
  split; [exact Hp|].
  exact (prepare_context_keeps_newest_run Samples.manager_20
           Samples.history_two None _ _ Hp).
Defined.
